(** * Bisection bug search (tools/bisection-search): a shallow embedding

    The development follows [bisection-search.py] and [common.py].  Python
    integers are modelled by [Z], Python strings by [string], lists by
    [list].  Code that touches the outside world (running a command,
    writing a file, printing) is written in a state-and-exception monad
    over an abstract world [W]: every effect takes a world and returns a
    new one, and an exception keeps the effects performed before it. *)

From Stdlib Require Import ZArith String Ascii List Bool Lia.
From stdpp Require Import base list strings gmap.
From Equations Require Import Equations.
Import ListNotations.

Local Open Scope string_scope.
Local Open Scope Z_scope.

(** ** Exceptions and the monad of effectful code *)

Inductive exn : Type :=
| FatalError (msg : string)
| AssertionError (msg : string)
| IndexError
| OtherError (what : string).

Inductive result (A : Type) : Type :=
| Ok (a : A)
| Raise (e : exn).
Arguments Ok {A} a.
Arguments Raise {A} e.

Definition M (W A : Type) : Type := W -> result A * W.

Definition ret {W A} (a : A) : M W A := fun w => (Ok a, w).

Definition raise {W A} (e : exn) : M W A := fun w => (Raise e, w).

Definition bind {W A B} (m : M W A) (k : A -> M W B) : M W B :=
  fun w =>
    match m w with
    | (Ok a, w') => k a w'
    | (Raise e, w') => (Raise e, w')
    end.

Definition lift_result {W A} (r : result A) : M W A := fun w => (r, w).

Declare Scope py_scope.
Delimit Scope py_scope with py.
Notation "'do' x <- m ;; k" := (bind m (fun x => k))
  (at level 10, x pattern, m at level 99, k at level 200) : py_scope.
Notation "'run' m ;; k" := (bind m (fun _ => k))
  (at level 10, m at level 99, k at level 200) : py_scope.
Local Open Scope py_scope.

(** ** BinarySearch

<<
def BinarySearch(start, end, test):
  while start < end:
    mid = (start + end) // 2
    if test(mid):
      start = mid + 1
    else:
      end = mid
  return start
>>
    [test] is an arbitrary callable: it may change the world and it may
    raise, in which case the exception leaves the loop.  The loop is
    defined by recursion on the width [end - start] of the interval. *)

Equations? BinarySearch {W : Type} (start end_ : Z) (test : Z -> M W bool)
    (w : W) : result Z * W by wf (Z.to_nat (end_ - start)) lt :=
  BinarySearch start end_ test w with Z_lt_dec start end_ := {
    | right _ => (Ok start, w)
    | left Hlt with test ((start + end_) / 2) w := {
        | (Ok true, w') => BinarySearch ((start + end_) / 2 + 1) end_ test w'
        | (Ok false, w') => BinarySearch start ((start + end_) / 2) test w'
        | (Raise e, w') => (Raise e, w') } }.
Proof.
  all: assert (start <= (start + end_) / 2)
         by (apply Z.div_le_lower_bound; lia);
       assert ((start + end_) / 2 < end_)
         by (apply Z.div_lt_upper_bound; lia);
       lia.
Qed.

(** A test that is a plain predicate: it leaves the world alone. *)
Definition pure_test {W} (f : Z -> bool) : Z -> M W bool := fun i => ret (f i).

(** A test that changes the world but never raises. *)
Definition total_test {W} (f : Z -> W -> bool * W) : Z -> M W bool :=
  fun i w => let (b, w') := f i w in (Ok b, w').

(** ** Python lists *)

Definition len {A} (l : list A) : Z := Z.of_nat (length l).

(** [l[0:hi]]: a negative bound counts from the end, and the bound is
    clipped to the list. *)
Definition py_slice_to {A} (l : list A) (hi : Z) : list A :=
  let hi' := if hi <? 0 then Z.max 0 (hi + len l) else Z.min hi (len l) in
  firstn (Z.to_nat hi') l.

(** [l[i]]: a negative index counts from the end; outside the list the
    access raises IndexError. *)
Definition py_index {A} (l : list A) (i : Z) : result A :=
  let i' := if i <? 0 then i + len l else i in
  if (0 <=? i') && (i' <? len l) then
    match nth_error l (Z.to_nat i') with
    | Some x => Ok x
    | None => Raise IndexError
    end
  else Raise IndexError.

(** [enumerate(l)], counting from [n]. *)
Fixpoint enumerate_from {A} (n : Z) (l : list A) : list (Z * A) :=
  match l with
  | [] => []
  | x :: xs => (n, x) :: enumerate_from (n + 1) xs
  end.

Definition enumerate {A} (l : list A) : list (Z * A) := enumerate_from 0 l.

(** [x in l] on lists of strings. *)
Definition py_in (x : string) (l : list string) : bool :=
  existsb (String.eqb x) l.

(** [for x in l: body(x)] *)
Fixpoint for_each {W A} (l : list A) (body : A -> M W unit) : M W unit :=
  match l with
  | [] => ret tt
  | x :: xs => run body x ;; for_each xs body
  end.

(** [assert cond, msg] *)
Definition py_assert {W} (cond : bool) (msg : string) : M W unit :=
  if cond then ret tt else raise (AssertionError msg).

(** [a == b] where [a] is a string and [b] a string or None. *)
Definition py_eq_opt (a : string) (b : option string) : bool :=
  match b with
  | Some b' => String.eqb a b'
  | None => false
  end.

Definition newline : string := String "010"%char EmptyString.
Definition dquote : string := String "034"%char EmptyString.

(** What the code takes from Python's library and does not define itself:
    [re.findall] for a pattern with one group, [shlex.split] (which raises
    on an unbalanced quote), and the text that [format] produces for a
    list-or-None, an integer and a command. *)
Class PyLib : Type := {
  re_findall : string -> string -> list string;
  shlex_split : string -> result (list string);
  str_of_list : option (list string) -> string;
  str_of_int : Z -> string;
  str_of_argv : list string -> string }.

(** [print] writes to the standard output of the tool, part of the world. *)
Class Console (W : Type) : Type := {
  py_print : string -> W -> W }.

Definition print {W} {console : Console W} (s : string) : M W unit :=
  fun w => (Ok tt, py_print s w).

Definition str_of_bool (b : bool) : string := if b then "True" else "False".

(** ** Pass filtering *)

(** Passes which are always run in order for compilation to complete
    successfully. *)
Definition MANDATORY_PASSES : list string :=
  [ "dex_cache_array_fixups_arm";
    "dex_cache_array_fixups_mips";
    "instruction_simplifier$before_codegen";
    "pc_relative_fixups_x86";
    "pc_relative_fixups_mips";
    "x86_memory_operand_generation" ].

(** Passes which are not optimizations. *)
Definition NON_PASSES : list string :=
  [ "builder"; "prepare_for_register_allocation"; "liveness"; "register" ].

(** [[opt_pass for idx, opt_pass in enumerate(passes)
      if opt_pass in MANDATORY_PASSES or idx < cutoff_idx]] *)
Definition FilterPasses (passes : list string) (cutoff_idx : Z) : list string :=
  map snd
    (List.filter
       (fun '(idx, opt_pass) =>
          py_in opt_pass MANDATORY_PASSES || (idx <? cutoff_idx))
       (enumerate passes)).

(** ** The testable that BugSearch drives

    BugSearch only calls three methods of its argument; any object that
    has them will do (the documented one is Dex2OatWrapperTestable, below).
    [None] for [compiled_methods] means all methods, [None] for
    [passes_to_run] the default passes. *)
Module ITestable.
Record t (W : Type) : Type := {
  Test : option (list string) -> option (list string) -> M W bool;
  GetAllMethods : M W (list string);
  GetAllPassesForMethod : string -> M W (list string) }.
Arguments Test {W} _ _ _.
Arguments GetAllMethods {W} _.
Arguments GetAllPassesForMethod {W} _ _.
End ITestable.

(** The two probes BugSearch hands to BinarySearch (its two lambdas). *)
Definition method_probe {W} (testable : ITestable.t W)
    (all_methods : list string) : Z -> M W bool :=
  fun mid => ITestable.Test testable (Some (py_slice_to all_methods mid)) None.

Definition pass_probe {W} (testable : ITestable.t W) (faulty_method : string)
    (all_passes : list string) : Z -> M W bool :=
  fun mid =>
    ITestable.Test testable (Some [faulty_method])
      (Some (FilterPasses all_passes mid)).

Definition outside_compiler_msg : string :=
  "Testable fails with no methods compiled. Perhaps issue lies outside of compiler.".

Definition must_fail_msg : string := "Method must fail for some passes.".

(** Find the buggy (method, optimization pass) pair for a testable.
    [(None, None)]: nothing found; [(Some m, None)]: the method fails with
    just the mandatory passes. *)
Definition BugSearch {W} (testable : ITestable.t W)
    : M W (option string * option string) :=
  do all_methods <- ITestable.GetAllMethods testable ;;
  do faulty_method_idx <-
    BinarySearch 0 (len all_methods) (method_probe testable all_methods) ;;
  if faulty_method_idx =? len all_methods then ret (None, None)
  else if faulty_method_idx =? 0 then raise (FatalError outside_compiler_msg)
  else
    do faulty_method <- lift_result (py_index all_methods (faulty_method_idx - 1)) ;;
    do all_passes <- ITestable.GetAllPassesForMethod testable faulty_method ;;
    do faulty_pass_idx <-
      BinarySearch 0 (len all_passes)
        (pass_probe testable faulty_method all_passes) ;;
    if faulty_pass_idx =? 0 then ret (Some faulty_method, None)
    else
      run py_assert (negb (faulty_pass_idx =? len all_passes)) must_fail_msg ;;
      do faulty_pass <- lift_result (py_index all_passes (faulty_pass_idx - 1)) ;;
      ret (Some faulty_method, Some faulty_pass).

(** ** The test environment interface (ITestEnv)

    A file handle is modelled by the name of the file. *)
Module ITestEnv.
Record t (W : Type) : Type := {
  CreateFile : option string -> M W string;
  WriteLines : string -> list string -> M W unit;
  RunCommand : string -> M W (string * string * Z);
  classpath : string;
  logfile : string }.
Arguments CreateFile {W} _ _.
Arguments WriteLines {W} _ _ _.
Arguments RunCommand {W} _ _.
Arguments classpath {W} _.
Arguments logfile {W} _.
End ITestEnv.

(** ** Dex2OatWrapperTestable: a testable compilation *)
Module Dex2OatWrapperTestable.
Section WithWorld.
Context {W : Type} {pylib : PyLib} {console : Console W}.

Record t : Type := {
  _base_cmd : string;
  _test_env : ITestEnv.t W;
  _class_name : string;
  _correct_output : option string;
  _compiled_methods_path : string;
  _passes_to_run_path : string;
  _verbose : bool }.

Definition __init__ (base_cmd : string) (test_env : ITestEnv.t W)
    (class_name : string) (correct_output : option string) (verbose : bool)
    : M W t :=
  do compiled_methods_path <-
    ITestEnv.CreateFile test_env (Some "compiled_methods") ;;
  do passes_to_run_path <- ITestEnv.CreateFile test_env (Some "run_passes") ;;
  ret {| _base_cmd := base_cmd;
         _test_env := test_env;
         _class_name := class_name;
         _correct_output := correct_output;
         _compiled_methods_path := compiled_methods_path;
         _passes_to_run_path := passes_to_run_path;
         _verbose := verbose |}.

(** Prepare command to run. *)
Definition _PrepareCmd (self : t)
    (compiled_methods passes_to_run : option (list string))
    (verbose_compiler : bool) : M W string :=
  let cmd := _base_cmd self in
  do cmd <-
    match compiled_methods with
    | Some methods =>
        run ITestEnv.WriteLines (_test_env self)
              (_compiled_methods_path self) methods ;;
        ret (cmd +:+ " -Xcompiler-option --compiled-methods="
                 +:+ _compiled_methods_path self)
    | None => ret cmd
    end ;;
  do cmd <-
    match passes_to_run with
    | Some passes =>
        run ITestEnv.WriteLines (_test_env self)
              (_passes_to_run_path self) passes ;;
        ret (cmd +:+ " -Xcompiler-option --run-passes="
                 +:+ _passes_to_run_path self)
    | None => ret cmd
    end ;;
  let cmd :=
    if verbose_compiler
    then cmd +:+ " -Xcompiler-option --runtime-arg -Xcompiler-option"
             +:+ " -verbose:compiler"
    else cmd in
  ret (cmd +:+ " -classpath " +:+ ITestEnv.classpath (_test_env self)
           +:+ " " +:+ _class_name self).

Definition testing_msg (compiled_methods passes_to_run : option (list string))
    : string :=
  "Testing methods: " +:+ str_of_list compiled_methods
    +:+ " passes:" +:+ str_of_list passes_to_run +:+ ".".

Definition passed_msg (res : bool) : string :=
  "Test passed: " +:+ str_of_bool res +:+ ".".

(** [if self._verbose: print(msg)] *)
Definition print_if_verbose (self : t) (msg : string) : M W unit :=
  if _verbose self then print msg else ret tt.

(** Tests compilation with the compiled_methods and run_passes switches
    active: true if the test passes with the given settings. *)
Definition Test (self : t)
    (compiled_methods passes_to_run : option (list string)) : M W bool :=
  run print_if_verbose self (testing_msg compiled_methods passes_to_run) ;;
  do cmd <- _PrepareCmd self compiled_methods passes_to_run true ;;
  do (output, _, ret_code) <- ITestEnv.RunCommand (_test_env self) cmd ;;
  let res := negb (ret_code =? 0) || py_eq_opt output (_correct_output self) in
  run print_if_verbose self (passed_msg res) ;;
  ret res.

Definition methods_pattern : string := "Building ([^\n]+)\n".
Definition passes_pattern : string := "Starting pass: ([^\n]+)\n".

(** Get methods compiled during the test. *)
Definition GetAllMethods (self : t) : M W (list string) :=
  do cmd <- _PrepareCmd self None None true ;;
  do (_, err_output, _) <- ITestEnv.RunCommand (_test_env self) cmd ;;
  let match_methods := re_findall methods_pattern err_output in
  match match_methods with
  | [] => raise (FatalError
            "Failed to retrieve methods list. Not recognized output format.")
  | _ :: _ => ret match_methods
  end.

(** Get all optimization passes ran for a method during the test. *)
Definition GetAllPassesForMethod (self : t) (compiled_method : string)
    : M W (list string) :=
  do cmd <- _PrepareCmd self (Some [compiled_method]) None true ;;
  do (_, err_output, _) <- ITestEnv.RunCommand (_test_env self) cmd ;;
  let match_passes := re_findall passes_pattern err_output in
  match match_passes with
  | [] => raise (FatalError
            "Failed to retrieve passes list. Not recognized output format.")
  | _ :: _ =>
      ret (List.filter (fun p => negb (py_in p NON_PASSES)) match_passes)
  end.

(** The object seen through the three methods BugSearch calls. *)
Definition as_testable (self : t) : ITestable.t W :=
  {| ITestable.Test := Test self;
     ITestable.GetAllMethods := GetAllMethods self;
     ITestable.GetAllPassesForMethod := GetAllPassesForMethod self |}.
End WithWorld.
Arguments t W : clear implicits.
End Dex2OatWrapperTestable.

(** ** common.py: running commands with a cold compiled-code cache *)

(** Architectures supported in dalvik cache. *)
Definition DALVIK_CACHE_ARCHS : list string := [ "arm"; "arm64"; "x86"; "x86_64" ].

(** Paths to the architecture specific caches under [android_data_path]. *)
Definition _DexArchCachePaths (android_data_path : string) : list string :=
  map (fun arch => android_data_path +:+ "/dalvik-cache/" +:+ arch)
      DALVIK_CACHE_ARCHS.

(** A command is handed to Popen either as one string or as an argument
    vector. *)
Inductive command : Type :=
| CmdString (s : string)
| CmdArgv (argv : list string).

(** The operating system as the code uses it.  [popen_communicate] stands
    for starting the process, the kill timer, [communicate] and the decoding
    of both streams: it yields the two outputs, the return code and whether
    the timer fired.  [check_call] gets the argument vector and the log file
    that receives both streams. *)
Class OS (W : Type) : Type := {
  os_listdir : string -> M W (list string);
  os_path_isfile : string -> M W bool;
  os_unlink : string -> M W unit;
  check_call : list string -> string -> M W unit;
  popen_communicate :
    command -> gmap string string -> Z -> M W (string * string * Z * bool);
  file_write : string -> string -> M W unit }.

(** [os.path.join(a, b)] for two components. *)
Definition os_path_join (a b : string) : string :=
  if String.prefix "/" b then b
  else if (a =? "")%string then b
  else if String.eqb (String.substring (String.length a - 1) 1 a) "/"
       then a +:+ b
       else a +:+ "/" +:+ b.

Section Common.
Context {W : Type} {pylib : PyLib} {os : OS W}.

Definition str_of_command (cmd : command) : string :=
  match cmd with
  | CmdString s => s
  | CmdArgv argv => str_of_argv argv
  end.

(** Runs command and logs its output. *)
Definition _RunCommandForOutputAndLog (cmd : command)
    (env : gmap string string) (logfile : string) (timeout : Z)
    : M W (string * string * Z) :=
  do (output, err_output, returncode, timeouted) <-
    popen_communicate cmd env timeout ;;
  run file_write logfile
        ("Command:" +:+ newline +:+ str_of_command cmd +:+ newline
           +:+ "Return code: "
           +:+ (if timeouted : bool then "TIMEOUT" else str_of_int returncode)
           +:+ newline +:+ err_output +:+ output +:+ newline) ;;
  let ret_code := if timeouted : bool then 1 else returncode in
  ret (output, err_output, ret_code).
End Common.

(** Host test environment: runs commands on the host. *)
Module HostTestEnv.
Section WithWorld.
Context {W : Type} {pylib : PyLib} {os : OS W}.

Record t : Type := {
  _classpath : string;
  _env_path : string;
  _logfile : string;
  _shell_env : gmap string string }.

(** Empties dex cache: iterate over files in architecture specific cache
    directories and remove them. *)
Definition _EmptyDexCache (self : t) : M W unit :=
  for_each (_DexArchCachePaths (_env_path self)) (fun arch_cache_path =>
    do names <- os_listdir arch_cache_path ;;
    for_each names (fun file_path =>
      let file_path := os_path_join arch_cache_path file_path in
      do is_file <- os_path_isfile file_path ;;
      if is_file : bool then os_unlink file_path else ret tt)).

Definition RunCommand (self : t) (cmd : string) : M W (string * string * Z) :=
  run _EmptyDexCache self ;;
  _RunCommandForOutputAndLog (CmdString cmd) (_shell_env self) (_logfile self) 60.
End WithWorld.
End HostTestEnv.

(** Device test environment: runs commands on the device through adb. *)
Module DeviceTestEnv.
Section WithWorld.
Context {W : Type} {pylib : PyLib} {os : OS W}.

Record t : Type := {
  _host_env_path : string;
  _logfile : string;
  _device_env_path : string;
  _classpath : string;
  _shell_env : gmap string string }.

Definition empty_cache_cmd (arch_cache_path : string) : string :=
  "adb shell if [ `ls " +:+ dquote +:+ arch_cache_path +:+ dquote
    +:+ "` ]; then rm " +:+ dquote +:+ arch_cache_path +:+ dquote
    +:+ "/*; fi".

(** Empties dex cache. *)
Definition _EmptyDexCache (self : t) : M W unit :=
  for_each (_DexArchCachePaths (_device_env_path self)) (fun arch_cache_path =>
    let cmd := empty_cache_cmd arch_cache_path in
    do argv <- lift_result (shlex_split cmd) ;;
    check_call argv (_logfile self)).

(** The command is iterated segment by segment; the segments of a string
    are its characters. *)
Definition segments (cmd : string) : list string :=
  map (fun c => String c EmptyString) (list_ascii_of_string cmd).

Definition adb_shell_cmd (self : t) (cmd : string) : string :=
  let cmd :=
    String.concat " "
      (map (fun segment => dquote +:+ segment +:+ dquote) (segments cmd)) in
  "adb shell " +:+ dquote +:+ "logcat -c && ANDROID_DATA="
    +:+ _device_env_path self +:+ " " +:+ cmd
    +:+ " && logcat -d dex2oat:* *:S 1>&2" +:+ dquote.

Definition RunCommand (self : t) (cmd : string) : M W (string * string * Z) :=
  run _EmptyDexCache self ;;
  let cmd := adb_shell_cmd self cmd in
  do argv <- lift_result (shlex_split cmd) ;;
  _RunCommandForOutputAndLog (CmdArgv argv) (_shell_env self) (_logfile self) 60.
End WithWorld.
End DeviceTestEnv.

(** ** Recording doubles

    A double forwards every call to the object it wraps and appends the call
    to a log kept next to the world. *)
Definition recorded {W E A} (e : E) (m : M W A) : M (W * list E) A :=
  fun '(w, log) => let '(r, w') := m w in (r, (w', (log ++ [e])%list)).

(** Calls made to the operating system. *)
Inductive os_event : Type :=
| EvListdir (path : string)
| EvIsfile (path : string)
| EvUnlink (path : string)
| EvCheckCall (argv : list string)
| EvPopen (cmd : command)
| EvWrite (file text : string).

#[export] Instance RecordingOS {W} {os : OS W} : OS (W * list os_event) := {|
  os_listdir p := recorded (EvListdir p) (os_listdir p);
  os_path_isfile p := recorded (EvIsfile p) (os_path_isfile p);
  os_unlink p := recorded (EvUnlink p) (os_unlink p);
  check_call argv log := recorded (EvCheckCall argv) (check_call argv log);
  popen_communicate cmd env timeout :=
    recorded (EvPopen cmd) (popen_communicate cmd env timeout);
  file_write f text := recorded (EvWrite f text) (file_write f text) |}.

(** The calls that empty the cache, and the call that executes the command. *)
Definition is_invalidation (e : os_event) : bool :=
  match e with
  | EvListdir _ | EvIsfile _ | EvUnlink _ | EvCheckCall _ => true
  | EvPopen _ | EvWrite _ _ => false
  end.

Definition is_execution (e : os_event) : bool :=
  match e with
  | EvPopen _ => true
  | _ => false
  end.

Definition is_listdir (e : os_event) : bool :=
  match e with
  | EvListdir _ => true
  | _ => false
  end.

Definition is_check_call (e : os_event) : bool :=
  match e with
  | EvCheckCall _ => true
  | _ => false
  end.

(** Calls made to a testable. *)
Inductive testable_call : Type :=
| CallGetAllMethods
| CallTest (compiled_methods passes_to_run : option (list string))
| CallGetAllPassesForMethod (compiled_method : string).

Definition recording_testable {W} (testable : ITestable.t W)
    : ITestable.t (W * list testable_call) :=
  {| ITestable.Test cm pr :=
       recorded (CallTest cm pr) (ITestable.Test testable cm pr);
     ITestable.GetAllMethods :=
       recorded CallGetAllMethods (ITestable.GetAllMethods testable);
     ITestable.GetAllPassesForMethod m :=
       recorded (CallGetAllPassesForMethod m)
                (ITestable.GetAllPassesForMethod testable m) |}.

(** Stage two consists of the pass-list retrieval and of the probes that
    restrict the passes. *)
Definition is_stage_two (c : testable_call) : bool :=
  match c with
  | CallGetAllPassesForMethod _ => true
  | CallTest _ (Some _) => true
  | _ => false
  end.

(** ** Test doubles

    Concrete stand-ins for Python's library and for the two environments,
    used to run the code above on concrete inputs. *)
Module Double.

(** Whether [needle] occurs in [hay]. *)
Fixpoint contains (needle hay : string) : bool :=
  String.prefix needle hay ||
  match hay with
  | EmptyString => false
  | String _ hay' => contains needle hay'
  end.

Definition drop_chars (n : nat) (s : string) : string :=
  String.substring n (String.length s - n) s.

(** The longest run of characters other than newline at the head of [s],
    and whether a newline follows it. *)
Fixpoint take_line (s : string) : string * bool :=
  match s with
  | EmptyString => (EmptyString, false)
  | String c s' =>
      if Ascii.eqb c "010"%char then (EmptyString, true)
      else let (r, nl) := take_line s' in (String c r, nl)
  end.

(** A match of [pre([^\n]+)\n] at the head of [s]: the group. *)
Definition match_at (pre s : string) : option string :=
  if String.prefix pre s then
    let (r, nl) := take_line (drop_chars (String.length pre) s) in
    if nl && negb (r =? "")%string then Some r else None
  else None.

(** All matches from left to right, without overlap: after a match the
    scan resumes behind it, otherwise one character further. *)
Fixpoint findall_from (pre : string) (skip : nat) (s : string) : list string :=
  match s with
  | EmptyString => []
  | String _ s' =>
      match skip with
      | S k => findall_from pre k s'
      | O =>
          match match_at pre s with
          | Some r =>
              r :: findall_from pre (String.length pre + String.length r) s'
          | None => findall_from pre 0 s'
          end
      end
  end.

Definition group_suffix : string := "([^\n]+)\n".

(** [re.findall] for the patterns the tool uses: a literal text followed
    by one group that takes the rest of the line. *)
Definition findall (pattern s : string) : list string :=
  let n := (String.length pattern - String.length group_suffix)%nat in
  if (String.length group_suffix <=? String.length pattern)%nat
     && String.eqb (drop_chars n pattern) group_suffix
  then findall_from (String.substring 0 n pattern) 0 s
  else [].

(** [shlex.split] for text without escapes and single quotes: blanks
    separate words, double quotes group and are removed, an unclosed
    quote raises. *)
Fixpoint split_from (s : string) (in_quote in_word : bool) (word : string)
    : result (list string) :=
  match s with
  | EmptyString =>
      if in_quote then Raise (OtherError "No closing quotation")
      else Ok (if in_word then [word] else [])
  | String c s' =>
      if Ascii.eqb c "034"%char then split_from s' (negb in_quote) true word
      else if Ascii.eqb c " "%char && negb in_quote then
        match split_from s' false false EmptyString with
        | Ok ws => Ok (if in_word then word :: ws else ws)
        | Raise e => Raise e
        end
      else split_from s' in_quote true (word +:+ String c EmptyString)
  end.

Definition hex_digit (n : nat) : string :=
  String.substring n 1 "0123456789abcdef".

(** One character inside the quotes of [repr]: the backslash and the quote
    in use are escaped, tab, newline and carriage return are written by
    their letters, any other character outside the printable ASCII range by
    its two hexadecimal digits. *)
Definition escape_char (quote c : ascii) : string :=
  let backslash := String "092"%char EmptyString in
  let n := nat_of_ascii c in
  if Ascii.eqb c "092"%char then backslash +:+ backslash
  else if Ascii.eqb c quote then backslash +:+ String quote EmptyString
  else if Ascii.eqb c "009"%char then backslash +:+ "t"
  else if Ascii.eqb c "010"%char then backslash +:+ "n"
  else if Ascii.eqb c "013"%char then backslash +:+ "r"
  else if (n <? 32)%nat || (126 <? n)%nat
       then backslash +:+ "x" +:+ hex_digit (n / 16) +:+ hex_digit (n mod 16)
  else String c EmptyString.

(** [repr] of a byte string: apostrophes around the text, double quotes if
    the text holds an apostrophe and no double quote. *)
Definition py_repr (s : string) : string :=
  let quote :=
    if contains "'" s && negb (contains dquote s) then "034"%char
    else "'"%char in
  String quote EmptyString
    +:+ String.concat "" (map (escape_char quote) (list_ascii_of_string s))
    +:+ String quote EmptyString.

(** The text of a list of strings: the [repr] of its items. *)
Definition quoted_list (l : list string) : string :=
  "[" +:+ String.concat ", " (map py_repr l) +:+ "]".

Definition digit (n : nat) : string :=
  String (ascii_of_nat (48 + n)) EmptyString.

Fixpoint decimal (fuel n : nat) : string :=
  match fuel with
  | O => EmptyString
  | S fuel' =>
      if (n <? 10)%nat then digit n
      else decimal fuel' (n / 10) +:+ digit (n mod 10)
  end.

#[export] Instance lib : PyLib := {|
  re_findall := findall;
  shlex_split s := split_from s false false EmptyString;
  str_of_list l :=
    match l with
    | None => "None"
    | Some l => quoted_list l
    end;
  str_of_int z :=
    (if z <? 0 then "-" else "")
      +:+ decimal (S (Z.abs_nat z)) (Z.abs_nat z);
  str_of_argv := quoted_list |}.

(** The world of the doubles: the files written so far, as (path, lines)
    pairs with the latest first, and the lines printed. *)
Record world : Type := {
  files : list (string * list string);
  printed : list string }.

Definition empty_world : world := {| files := []; printed := [] |}.

Fixpoint read_file (fs : list (string * list string)) (path : string)
    : list string :=
  match fs with
  | [] => []
  | (p, lines) :: fs' => if String.eqb p path then lines else read_file fs' path
  end.

#[export] Instance console : Console world := {|
  py_print s w := {| files := files w; printed := (printed w ++ [s])%list |} |}.

(** A compiler and a program to bisect: the methods the compiler builds,
    the passes it starts for each method, and what the program prints and
    returns for given compiled methods and pass restriction. *)
Record scenario : Type := {
  sc_methods : list string;
  sc_passes : string -> list string;
  sc_stdout : list string -> option (list string) -> string;
  sc_exit : list string -> option (list string) -> Z }.

Definition compiler_log (sc : scenario) (methods : list string)
    (restriction : option (list string)) : string :=
  String.concat ""
    (map (fun m =>
            "Building " +:+ m +:+ newline +:+
            String.concat ""
              (map (fun p => "Starting pass: " +:+ p +:+ newline)
                   (List.filter
                      (fun p =>
                         match restriction with
                         | None => true
                         | Some ps => py_in p ps || py_in p NON_PASSES
                         end)
                      (sc_passes sc m))))
         methods).

Definition methods_file : string := "/fake/compiled_methods".
Definition passes_file : string := "/fake/run_passes".

Definition fake_run (sc : scenario) (cmd : string)
    : M world (string * string * Z) :=
  fun w =>
    let methods :=
      if contains "--compiled-methods=" cmd
      then List.filter (fun m => py_in m (read_file (files w) methods_file))
                       (sc_methods sc)
      else sc_methods sc in
    let restriction :=
      if contains "--run-passes=" cmd
      then Some (read_file (files w) passes_file)
      else None in
    (Ok (sc_stdout sc methods restriction,
         compiler_log sc methods restriction,
         sc_exit sc methods restriction), w).

Definition fake_env (sc : scenario) : ITestEnv.t world :=
  {| ITestEnv.CreateFile name :=
       ret ("/fake/" +:+ match name with Some n => n | None => "tmp" end);
     ITestEnv.WriteLines path lines :=
       fun w => (Ok tt, {| files := (path, lines) :: files w;
                           printed := printed w |});
     ITestEnv.RunCommand := fake_run sc;
     ITestEnv.classpath := "classes.dex";
     ITestEnv.logfile := "/fake/log" |}.

Definition fake_testable (sc : scenario) (correct_output : option string)
    : Dex2OatWrapperTestable.t world :=
  {| Dex2OatWrapperTestable._base_cmd := "dalvikvm32";
     Dex2OatWrapperTestable._test_env := fake_env sc;
     Dex2OatWrapperTestable._class_name := "Test";
     Dex2OatWrapperTestable._correct_output := correct_output;
     Dex2OatWrapperTestable._compiled_methods_path := methods_file;
     Dex2OatWrapperTestable._passes_to_run_path := passes_file;
     Dex2OatWrapperTestable._verbose := false |}.

(** A program whose fault shows as soon as method m0 is compiled, whatever
    passes run; the compiler starts no optimization pass for its methods. *)
Definition faulty_without_passes : scenario :=
  {| sc_methods := ["m0"; "m1"];
     sc_passes := fun _ => ["builder"];
     sc_stdout := fun methods _ => if py_in "m0" methods then "bad" else "good";
     sc_exit := fun _ _ => 0 |}.

(** A program whose fault needs method m0 compiled with the last of its
    passes, dce (a restriction that leaves dce out hides the fault). *)
Definition faulty_last_pass : scenario :=
  {| sc_methods := ["m0"; "m1"];
     sc_passes := fun _ => ["builder"; "inliner"; "dce"];
     sc_stdout := fun methods restriction =>
       if py_in "m0" methods
          && match restriction with
             | None => true
             | Some passes => py_in "dce" passes
             end
       then "bad" else "good";
     sc_exit := fun _ _ => 0 |}.

(** A program that prints the wrong output even when nothing is compiled. *)
Definition faulty_everywhere : scenario :=
  {| sc_methods := ["m0"; "m1"];
     sc_passes := fun _ => ["builder"; "inliner"];
     sc_stdout := fun _ _ => "bad";
     sc_exit := fun _ _ => 0 |}.

(** A program that crashes with exit code 1 and garbage on its output. *)
Definition crashing : scenario :=
  {| sc_methods := ["m0"; "m1"];
     sc_passes := fun _ => ["builder"; "inliner"];
     sc_stdout := fun _ _ => "garbage";
     sc_exit := fun _ _ => 1 |}.

(** A program that runs to completion and prints the expected output. *)
Definition healthy : scenario :=
  {| sc_methods := ["m0"; "m1"];
     sc_passes := fun _ => ["builder"; "inliner"];
     sc_stdout := fun _ _ => "good";
     sc_exit := fun _ _ => 0 |}.

(** The Dex2OatWrapperTestable of a scenario, as BugSearch sees it. *)
Definition fake (sc : scenario) (correct_output : option string)
    : ITestable.t world :=
  Dex2OatWrapperTestable.as_testable (fake_testable sc correct_output).

(** A synthetic testable over a probe counter: four methods, three passes
    for each, a probe on a method prefix fails from length 2 on and a probe
    on a pass prefix from length 1 on. *)
Definition synthetic_testable : ITestable.t nat :=
  {| ITestable.Test cm pr :=
       fun n =>
         (Ok match cm, pr with
             | Some ms, None => len ms <? 2
             | Some _, Some ps => len ps <? 1
             | None, _ => false
             end, S n);
     ITestable.GetAllMethods := ret ["m0"; "m1"; "m2"; "m3"];
     ITestable.GetAllPassesForMethod := fun _ => ret ["p0"; "p1"; "p2"] |}.

(** A disk for the operating-system double: the paths of the regular files
    and of the directories. *)
Record disk : Type := {
  regular : list string;
  directories : list string }.

(** The name of [p] as an entry of directory [d], if it is one. *)
Definition entry_name (d p : string) : option string :=
  if String.prefix (d +:+ "/") p then
    let n := drop_chars (String.length d + 1) p in
    if contains "/" n || (n =? "")%string then None else Some n
  else None.

(** An operating system on that disk; every process prints out and err and
    returns 0 in time. *)
Definition fake_os : OS disk :=
  {| os_listdir d := fun w =>
       if py_in d (directories w)
       then (Ok (omap (entry_name d) (regular w ++ directories w)%list), w)
       else (Raise (OtherError "OSError"), w);
     os_path_isfile p := fun w => (Ok (py_in p (regular w)), w);
     os_unlink p := fun w =>
       if py_in p (regular w)
       then (Ok tt, {| regular := List.filter (fun q => negb (q =? p)%string)
                                              (regular w);
                       directories := directories w |})
       else (Raise (OtherError "OSError"), w);
     check_call argv log := ret tt;
     popen_communicate cmd env timeout := ret ("out", "err", 0, false);
     file_write f text := ret tt |}.

Definition host_env : HostTestEnv.t :=
  {| HostTestEnv._classpath := "classes.dex";
     HostTestEnv._env_path := "/tmp/b";
     HostTestEnv._logfile := "/tmp/b/log";
     HostTestEnv._shell_env := ∅ |}.

Definition device_env : DeviceTestEnv.t :=
  {| DeviceTestEnv._host_env_path := "/tmp/b";
     DeviceTestEnv._logfile := "/tmp/b/log";
     DeviceTestEnv._device_env_path := "/data/local/tmp/b";
     DeviceTestEnv._classpath := "/data/local/tmp/b/classes.dex";
     DeviceTestEnv._shell_env := ∅ |}.

(** A host disk with a stale oat file in two of the caches, and a
    subdirectory in one. *)
Definition stale_disk : disk :=
  {| regular := [ "/tmp/b/dalvik-cache/arm/a.oat";
                  "/tmp/b/dalvik-cache/x86/b.oat";
                  "/tmp/b/log" ];
     directories := [ "/tmp/b/dalvik-cache/arm"; "/tmp/b/dalvik-cache/arm64";
                      "/tmp/b/dalvik-cache/x86"; "/tmp/b/dalvik-cache/x86_64";
                      "/tmp/b/dalvik-cache/arm/sub" ] |}.
End Double.

(** ** Notions used in the statements *)

(** A test wrapped so that every index it is called at is logged. *)
Definition logged {W} (test : Z -> M W bool) : Z -> M (W * list Z) bool :=
  fun i => recorded i (test i).

(** A test that never raises. *)
Definition never_raises {W} (test : Z -> M W bool) : Prop :=
  forall i w, exists b w', test i w = (Ok b, w').

(** The condition of the comprehension in FilterPasses, and the filter run
    on a list enumerated from [n]. *)
Definition kept (cutoff_idx : Z) (entry : Z * string) : bool :=
  let '(idx, opt_pass) := entry in
  py_in opt_pass MANDATORY_PASSES || (idx <? cutoff_idx).

Definition filtered (cutoff_idx n : Z) (passes : list string) : list string :=
  map snd (List.filter (kept cutoff_idx) (enumerate_from n passes)).

(** [run_command], started on a fresh record, performs exactly the calls of
    one [invalidate] and after them the execution: the record of
    [run_command] is the record of one invalidation followed by a rest; the
    invalidation contains no execution call, the rest no invalidation call
    and at most one execution call, exactly one if [run_command] returns;
    if the invalidation raises, nothing is executed. *)
Definition invalidates_once_before_executing {W A}
    (invalidate : M (W * list os_event) unit)
    (run_command : M (W * list os_event) A) (w : W) : Prop :=
  exists execution,
    snd (snd (run_command (w, []))) = (snd (snd (invalidate (w, []))) ++ execution)%list /\
    Forall (fun e => is_execution e = false) (snd (snd (invalidate (w, [])))) /\
    Forall (fun e => is_invalidation e = false) execution /\
    (length (List.filter is_execution execution) <= 1)%nat /\
    (forall a, fst (run_command (w, [])) = Ok a ->
       fst (invalidate (w, [])) = Ok tt /\
       length (List.filter is_execution execution) = 1%nat) /\
    (forall e, fst (invalidate (w, [])) = Raise e ->
       execution = [] /\ fst (run_command (w, [])) = Raise e).

(** A computation over a recorded world extends the record by calls that
    satisfy [P]. *)
Definition extends {W A} (P : os_event -> Prop)
    (m : M (W * list os_event) A) : Prop :=
  forall w log, exists delta,
    snd (snd (m (w, log))) = (log ++ delta)%list /\ Forall P delta.

Section LoopBodies.
Context {W : Type} {pylib : PyLib} {os : OS W}.

(** The two loop bodies of [HostTestEnv._EmptyDexCache]. *)
Definition remove_if_file (arch_cache_path file_path : string)
    : M W unit :=
  let file_path := os_path_join arch_cache_path file_path in
  do is_file <- os_path_isfile file_path ;;
  if is_file : bool then os_unlink file_path else ret tt.

Definition empty_arch_cache (arch_cache_path : string)
    : M W unit :=
  do names <- os_listdir arch_cache_path ;;
  for_each names (remove_if_file arch_cache_path).

(** The loop body of [DeviceTestEnv._EmptyDexCache]. *)
Definition remove_on_device (logfile arch_cache_path : string)
    : M W unit :=
  let cmd := DeviceTestEnv.empty_cache_cmd arch_cache_path in
  do argv <- lift_result (shlex_split cmd) ;;
  check_call argv logfile.

End LoopBodies.

(** * More of the code: definitions *)

(** ** Further doubles *)

(** ** Further notions used in the statements *)

(** [opt_pass in MANDATORY_PASSES] *)
Definition mandatory (p : string) : bool := py_in p MANDATORY_PASSES.

(** One of the three methods of the testable raises [e] in some world. *)
Definition testable_raises {W} (testable : ITestable.t W) (e : exn) : Prop :=
  (exists w w', ITestable.GetAllMethods testable w = (Raise e, w')) \/
  (exists cm pr w w', ITestable.Test testable cm pr w = (Raise e, w')) \/
  (exists m w w', ITestable.GetAllPassesForMethod testable m w = (Raise e, w')).

(** Calls made to a test environment, and the double that records them. *)
Inductive env_call : Type :=
| EnvCreateFile (name : option string)
| EnvWriteLines (path : string) (lines : list string)
| EnvRunCommand (cmd : string).

Definition recording_env {W} (env : ITestEnv.t W)
    : ITestEnv.t (W * list env_call) :=
  {| ITestEnv.CreateFile name :=
       recorded (EnvCreateFile name) (ITestEnv.CreateFile env name);
     ITestEnv.WriteLines path lines :=
       recorded (EnvWriteLines path lines) (ITestEnv.WriteLines env path lines);
     ITestEnv.RunCommand cmd :=
       recorded (EnvRunCommand cmd) (ITestEnv.RunCommand env cmd);
     ITestEnv.classpath := ITestEnv.classpath env;
     ITestEnv.logfile := ITestEnv.logfile env |}.

(** Printing in a world that carries a record leaves the record alone. *)
Definition recording_console {W E} (console : Console W) : Console (W * list E) :=
  {| py_print s := fun '(w, log) => (py_print s w, log) |}.

(** The same testable over the recording double of its environment. *)
Definition on_recording_env {W} (self : Dex2OatWrapperTestable.t W)
    : Dex2OatWrapperTestable.t (W * list env_call) :=
  {| Dex2OatWrapperTestable._base_cmd := Dex2OatWrapperTestable._base_cmd self;
     Dex2OatWrapperTestable._test_env :=
       recording_env (Dex2OatWrapperTestable._test_env self);
     Dex2OatWrapperTestable._class_name := Dex2OatWrapperTestable._class_name self;
     Dex2OatWrapperTestable._correct_output :=
       Dex2OatWrapperTestable._correct_output self;
     Dex2OatWrapperTestable._compiled_methods_path :=
       Dex2OatWrapperTestable._compiled_methods_path self;
     Dex2OatWrapperTestable._passes_to_run_path :=
       Dex2OatWrapperTestable._passes_to_run_path self;
     Dex2OatWrapperTestable._verbose := Dex2OatWrapperTestable._verbose self |}.

(** The text of the command [_PrepareCmd] builds, and the writes it asks
    the environment for. *)
Definition command_text {W} (self : Dex2OatWrapperTestable.t W)
    (with_methods with_passes verbose_compiler : bool) : string :=
  let cmd := Dex2OatWrapperTestable._base_cmd self in
  let cmd :=
    if with_methods
    then cmd +:+ " -Xcompiler-option --compiled-methods="
             +:+ Dex2OatWrapperTestable._compiled_methods_path self
    else cmd in
  let cmd :=
    if with_passes
    then cmd +:+ " -Xcompiler-option --run-passes="
             +:+ Dex2OatWrapperTestable._passes_to_run_path self
    else cmd in
  let cmd :=
    if verbose_compiler
    then cmd +:+ " -Xcompiler-option --runtime-arg -Xcompiler-option"
             +:+ " -verbose:compiler"
    else cmd in
  cmd +:+ " -classpath "
      +:+ ITestEnv.classpath (Dex2OatWrapperTestable._test_env self)
      +:+ " " +:+ Dex2OatWrapperTestable._class_name self.

Definition selection_write (path : string) (selection : option (list string))
    : list env_call :=
  match selection with
  | Some lines => [EnvWriteLines path lines]
  | None => []
  end.

Definition is_some {A} (o : option A) : bool :=
  match o with
  | Some _ => true
  | None => false
  end.

(** Every unlink in a record comes right after the isfile call on the same
    path. *)
Inductive unlinks_guarded : list os_event -> Prop :=
| guarded_nil : unlinks_guarded []
| guarded_other (e : os_event) (tr : list os_event) :
    (forall p, e <> EvUnlink p) -> unlinks_guarded tr -> unlinks_guarded (e :: tr)
| guarded_unlink (p : string) (tr : list os_event) :
    unlinks_guarded tr -> unlinks_guarded (EvIsfile p :: EvUnlink p :: tr).

(** A computation over a recorded world extends the record by calls in which
    the unlinks are guarded. *)
Definition extends_guarded {W A} (m : M (W * list os_event) A) : Prop :=
  forall w log, exists delta,
    snd (snd (m (w, log))) = (log ++ delta)%list /\ unlinks_guarded delta.

(** What the operating-system double shows of a disk: which paths are
    regular files, and what a directory lists. *)
Definition disk_is_file (w : Double.disk) (p : string) : bool :=
  py_in p (Double.regular w).

Definition disk_listing (w : Double.disk) (d : string) : list string :=
  omap (Double.entry_name d) (Double.regular w ++ Double.directories w)%list.

(** What a part of the host invalidation that works on the directories
    [dirs] does to the world, seen through [is_file] and [listing]: it
    creates no file and no directory entry, and leaves alone every path that
    is no entry of one of the directories. *)
Definition sweeps {W} (is_file : W -> string -> bool)
    (listing : W -> string -> list string)
    (dirs : list string) (w w' : W) : Prop :=
  (forall q, is_file w' q = true -> is_file w q = true) /\
  (forall d n, In n (listing w' d) -> In n (listing w d)) /\
  (forall q, (forall d n, In d dirs -> q <> os_path_join d n) ->
             is_file w' q = is_file w q).

(** ** common.py: the rest of the two environments

    What these methods take from the platform besides the calls of [OS]:
    temporary directories and files, opening, writing and closing a file
    (a file object is modelled by the name of its file), creating a
    directory, reading a text file, and the process environment
    [os.environ]. *)
Class Platform (W : Type) : Type := {
  mkdtemp : string -> string -> M W string;
  open_file : string -> string -> M W unit;
  named_temporary_file : option string -> bool -> M W string;
  file_writelines : string -> list string -> M W unit;
  file_close : string -> M W unit;
  os_mkdir : string -> M W unit;
  read_text : string -> M W string;
  os_environ : W -> gmap string string }.

(** Temporary directory path on device. *)
Definition DEVICE_TMP_PATH : string := "/data/local/tmp".

(** [try: body finally: cleanup], the exit of a with-block included: the
    cleanup runs whether or not the body raised, and an exception of the
    cleanup takes the place of the outcome of the body. *)
Definition finally {W A} (body : M W A) (cleanup : M W unit) : M W A :=
  fun w =>
    let '(r, w1) := body w in
    match cleanup w1 with
    | (Ok _, w2) => (r, w2)
    | (Raise e, w2) => (Raise e, w2)
    end.

(** [os.path.basename(p)]: what follows the last slash. *)
Fixpoint os_path_basename (p : string) : string :=
  match p with
  | EmptyString => EmptyString
  | String c rest =>
      if Ascii.eqb c "/"%char then os_path_basename rest
      else if Double.contains "/" rest then os_path_basename rest
      else p
  end.

(** [['{0}\n'.format(line) for line in lines]] *)
Definition with_newlines (lines : list string) : list string :=
  map (fun line => line +:+ newline) lines.

Section Environments.
Context {W : Type} {pylib : PyLib} {os : OS W} {platform : Platform W}.

(** Gets the value of an environmental variable; raises FatalError if the
    variable is not set. *)
Definition GetEnvVariableOrError (variable_name : string) : M W string :=
  fun w =>
    match os_environ w !! variable_name with
    | Some top => (Ok top, w)
    | None =>
        (Raise (FatalError (variable_name +:+ " environmental variable not set.")), w)
    end.

(** [d[key]] on a dict of strings: a missing key raises KeyError. *)
Definition dict_get (d : gmap string string) (key : string) : result string :=
  match d !! key with
  | Some v => Ok v
  | None => Raise (OtherError ("KeyError: " +:+ key))
  end.
End Environments.

(** The constructor and the file methods of HostTestEnv. *)
Module Host.
Section WithWorld.
Context {W : Type} {pylib : PyLib} {os : OS W} {platform : Platform W}.

Definition __init__ (classpath : string) (x64 : bool) : M W HostTestEnv.t :=
  do env_path <- mkdtemp "/tmp/" "bisection_search_" ;;
  let logfile := env_path +:+ "/log" in
  run open_file logfile "w+" ;;
  run os_mkdir (env_path +:+ "/dalvik-cache") ;;
  run for_each (_DexArchCachePaths env_path) os_mkdir ;;
  let lib := if x64 : bool then "lib64" else "lib" in
  do android_root <- GetEnvVariableOrError "ANDROID_HOST_OUT" ;;
  let library_path := android_root +:+ "/" +:+ lib in
  let path := android_root +:+ "/bin" in
  do shell_env <- (fun w => (Ok (os_environ w), w)) ;;
  let shell_env := <["ANDROID_DATA" := env_path]> shell_env in
  let shell_env := <["ANDROID_ROOT" := android_root]> shell_env in
  let shell_env := <["LD_LIBRARY_PATH" := library_path]> shell_env in
  do old_path <- lift_result (dict_get shell_env "PATH") ;;
  let shell_env := <["PATH" := path +:+ ":" +:+ old_path]> shell_env in
  let shell_env := <["LD_USE_LOAD_BIAS" := "1"]> shell_env in
  ret {| HostTestEnv._classpath := classpath;
         HostTestEnv._env_path := env_path;
         HostTestEnv._logfile := logfile;
         HostTestEnv._shell_env := shell_env |}.

Definition CreateFile (self : HostTestEnv.t) (name : option string) : M W string :=
  match name with
  | None => named_temporary_file (Some (HostTestEnv._env_path self)) false
  | Some name =>
      let path := HostTestEnv._env_path self +:+ "/" +:+ name in
      run open_file path "w+" ;;
      ret path
  end.

Definition WriteLines (self : HostTestEnv.t) (file_path : string)
    (lines : list string) : M W unit :=
  run open_file file_path "w" ;;
  finally (file_writelines file_path (with_newlines lines)) (file_close file_path).

(** The object as an ITestEnv. *)
Definition as_env (self : HostTestEnv.t) : ITestEnv.t W :=
  {| ITestEnv.CreateFile := CreateFile self;
     ITestEnv.WriteLines := WriteLines self;
     ITestEnv.RunCommand := HostTestEnv.RunCommand self;
     ITestEnv.classpath := HostTestEnv._classpath self;
     ITestEnv.logfile := HostTestEnv._logfile self |}.
End WithWorld.
End Host.

(** The constructor, the file methods and the adb helpers of
    DeviceTestEnv. *)
Module Device.
Section WithWorld.
Context {W : Type} {pylib : PyLib} {os : OS W} {platform : Platform W}.

Definition adb_push_cmd (what where_ : string) : string :=
  "adb push " +:+ dquote +:+ what +:+ dquote +:+ " "
    +:+ dquote +:+ where_ +:+ dquote.

Definition adb_mkdir_cmd (path : string) : string :=
  "adb shell mkdir " +:+ dquote +:+ path +:+ dquote +:+ " -p".

Definition _AdbPush (logfile what where_ : string) : M W unit :=
  do argv <- lift_result (shlex_split (adb_push_cmd what where_)) ;;
  check_call argv logfile.

Definition _AdbMkdir (logfile path : string) : M W unit :=
  do argv <- lift_result (shlex_split (adb_mkdir_cmd path)) ;;
  check_call argv logfile.

Definition __init__ (classpath : string) : M W DeviceTestEnv.t :=
  do host_env_path <- mkdtemp "/tmp/" "bisection_search_" ;;
  let logfile := host_env_path +:+ "/log" in
  run open_file logfile "w+" ;;
  let device_env_path :=
    os_path_join DEVICE_TMP_PATH (os_path_basename host_env_path) in
  let device_classpath :=
    os_path_join device_env_path (os_path_basename classpath) in
  do shell_env <- (fun w => (Ok (os_environ w), w)) ;;
  run _AdbMkdir logfile (device_env_path +:+ "/dalvik-cache") ;;
  run for_each (_DexArchCachePaths device_env_path) (_AdbMkdir logfile) ;;
  run _AdbPush logfile classpath device_env_path ;;
  ret {| DeviceTestEnv._host_env_path := host_env_path;
         DeviceTestEnv._logfile := logfile;
         DeviceTestEnv._device_env_path := device_env_path;
         DeviceTestEnv._classpath := device_classpath;
         DeviceTestEnv._shell_env := shell_env |}.

Definition CreateFile (self : DeviceTestEnv.t) (name : option string)
    : M W string :=
  do temp_file <- named_temporary_file None true ;;
  finally
    (run _AdbPush (DeviceTestEnv._logfile self) temp_file
           (DeviceTestEnv._device_env_path self) ;;
     let name :=
       match name with
       | None => os_path_basename temp_file
       | Some name => name
       end in
     ret (DeviceTestEnv._device_env_path self +:+ "/" +:+ name))
    (file_close temp_file).

Definition WriteLines (self : DeviceTestEnv.t) (file_path : string)
    (lines : list string) : M W unit :=
  do temp_file <- named_temporary_file None true ;;
  finally
    (run file_writelines temp_file (with_newlines lines) ;;
     _AdbPush (DeviceTestEnv._logfile self) temp_file file_path)
    (file_close temp_file).

(** The object as an ITestEnv. *)
Definition as_env (self : DeviceTestEnv.t) : ITestEnv.t W :=
  {| ITestEnv.CreateFile := CreateFile self;
     ITestEnv.WriteLines := WriteLines self;
     ITestEnv.RunCommand := DeviceTestEnv.RunCommand self;
     ITestEnv.classpath := DeviceTestEnv._classpath self;
     ITestEnv.logfile := DeviceTestEnv._logfile self |}.
End WithWorld.
End Device.

(** One of the platform calls of the host constructor raises [e]. *)
Definition host_setup_raises {W} {platform : Platform W} (e : exn) : Prop :=
  (exists dir prefix w w', mkdtemp dir prefix w = (Raise e, w')) \/
  (exists path mode w w', open_file path mode w = (Raise e, w')) \/
  (exists path w w', os_mkdir path w = (Raise e, w')).

(** The five variables the host constructor sets. *)
Definition host_variables : list string :=
  [ "ANDROID_DATA"; "ANDROID_ROOT"; "LD_LIBRARY_PATH"; "PATH"; "LD_USE_LOAD_BIAS" ].

(** A platform seen from a world that carries a record: the calls act on
    the world and leave the record alone. *)
Definition unrecorded {W E A} (m : M W A) : M (W * list E) A :=
  fun '(w, log) => let '(r, w') := m w in (r, (w', log)).

Definition lifted_platform {W E} (platform : Platform W) : Platform (W * list E) :=
  {| mkdtemp dir prefix := unrecorded (mkdtemp dir prefix);
     open_file path mode := unrecorded (open_file path mode);
     named_temporary_file dir delete := unrecorded (named_temporary_file dir delete);
     file_writelines path lines := unrecorded (file_writelines path lines);
     file_close path := unrecorded (file_close path);
     os_mkdir path := unrecorded (os_mkdir path);
     read_text path := unrecorded (read_text path);
     os_environ := fun '(w, _) => os_environ w |}.

(** ** bisection-search.py: main *)

(** The parsed command line: the attributes of [args] that main reads. *)
Module Args.
Record t : Type := {
  classpath : string;
  correct_output : option string;
  host : bool;
  classname : string;
  x64 : bool;
  lib_debug : bool;
  extra : option (list string);
  verbose : bool }.
End Args.

(** [try: body except Exception, e: handler(e); raise]: the handler runs
    when the body raises and the exception is raised again, unless the
    handler raises one of its own. *)
Definition try_except {W A} (body : M W A) (handler : exn -> M W unit) : M W A :=
  fun w =>
    match body w with
    | (Ok a, w1) => (Ok a, w1)
    | (Raise e, w1) =>
        match handler e w1 with
        | (Ok _, w2) => (Raise e, w2)
        | (Raise e', w2) => (Raise e', w2)
        end
    end.

(** ["{0}".format(e)]: the message an exception was built with; [describe]
    gives the text of the exceptions that carry none here. *)
Definition exn_text (describe : exn -> string) (e : exn) : string :=
  match e with
  | FatalError msg => msg
  | AssertionError msg => msg
  | _ => describe e
  end.

Section Main.
Context {W : Type} {pylib : PyLib} {console : Console W} {os : OS W}
        {platform : Platform W}.
(** main imports its names from a module test_utils.  The classes
    HostTestEnv, DeviceTestEnv and FatalError are those that common.py
    defines; [GetAndroidTop] is defined nowhere in the tool's directory and
    is left open. *)
Variable GetAndroidTop : M W string.
Variable describe : exn -> string.

(** [with open(args.correct_output, "r") as myfile: myfile.read()] *)
Definition read_correct_output (path : option string) : M W (option string) :=
  match path with
  | Some path =>
      run open_file path "r" ;;
      do text <- finally (read_text path) (file_close path) ;;
      ret (Some text)
  | None => ret None
  end.

Definition dalvikvm (args : Args.t) : string :=
  if Args.x64 args then "dalvikvm" else "dalvikvm32".

Definition host_run_cmd (args : Args.t) (android_top : string) : string :=
  let run_cmd := dalvikvm args in
  let run_cmd :=
    run_cmd +:+ " -XXlib:"
      +:+ (if Args.lib_debug args then "libartd.so" else "libart.so") in
  let run_cmd := run_cmd +:+ " -Xnorelocate" in
  let run_cmd :=
    run_cmd +:+ " -Ximage:" +:+ android_top
      +:+ "/out/host/linux-x86/framework/core-optimizing-pic.art" in
  match Args.extra args with
  | None | Some [] => run_cmd
  | Some extra => run_cmd +:+ " " +:+ String.concat " " extra
  end.

(** The part of main under "Prepare environment": the reference output, the
    base command and the test environment. *)
Definition prepare_environment (args : Args.t)
    : M W (option string * string * ITestEnv.t W) :=
  do correct_output <- read_correct_output (Args.correct_output args) ;;
  if Args.host args then
    do android_top <- GetAndroidTop ;;
    let run_cmd := host_run_cmd args android_top in
    do test_env <- Host.__init__ (Args.classpath args) (Args.x64 args) ;;
    ret (correct_output, run_cmd, Host.as_env test_env)
  else
    let run_cmd := dalvikvm args in
    do test_env <- Device.__init__ (Args.classpath args) ;;
    ret (correct_output, run_cmd, Device.as_env test_env).

(** The body of the try block. *)
Definition search (args : Args.t) (correct_output : option string)
    (run_cmd : string) (test_env : ITestEnv.t W)
    : M W (option string * option string) :=
  do testable <-
    Dex2OatWrapperTestable.__init__ run_cmd test_env (Args.classname args)
      correct_output (Args.verbose args) ;;
  BugSearch (Dex2OatWrapperTestable.as_testable testable).

Definition error_msg (test_env : ITestEnv.t W) : string :=
  "Error. Refer to logfile: " +:+ ITestEnv.logfile test_env.

Definition exception_line (e : exn) : string :=
  "Exception: " +:+ exn_text describe e +:+ newline.

(** The except clause, up to the [raise]. *)
Definition report_error (test_env : ITestEnv.t W) (e : exn) : M W unit :=
  run print (error_msg test_env) ;;
  file_write (ITestEnv.logfile test_env) (exception_line e).

Definition result_msg (method opt_pass : option string) : string :=
  match method with
  | None => "Couldn't find any bugs."
  | Some method =>
      match opt_pass with
      | None =>
          "Faulty method: " +:+ method +:+ ". Fails with just mandatory passes."
      | Some opt_pass =>
          "Faulty method and pass: " +:+ method +:+ ", " +:+ opt_pass +:+ "."
      end
  end.

Definition logfile_msg (test_env : ITestEnv.t W) : string :=
  "Logfile: " +:+ ITestEnv.logfile test_env.

(** main, after the command line is parsed.  [sys.exit(0)] is the normal
    end of the run: the result is the exit status. *)
Definition main (args : Args.t) : M W Z :=
  do (correct_output, run_cmd, test_env) <- prepare_environment args ;;
  do (method, opt_pass) <-
    try_except (search args correct_output run_cmd test_env)
               (report_error test_env) ;;
  run print (result_msg method opt_pass) ;;
  run print (logfile_msg test_env) ;;
  ret 0.
End Main.











(** The [check_call]s of the argument vectors [argvs], made one after the
    other from world [w] with their output sent to [logfile], all return,
    and leave world [w']. *)
Inductive all_return {W} {os : OS W} (logfile : string)
    : list (list string) -> W -> W -> Prop :=
| all_return_nil (w : W) : all_return logfile [] w w
| all_return_cons (argv : list string) (rest : list (list string)) (w w1 w2 : W) :
    check_call argv logfile w = (Ok tt, w1) ->
    all_return logfile rest w1 w2 ->
    all_return logfile (argv :: rest) w w2.

(** A sequence of adb commands stops at its first failure.  Started in
    world [w] it has issued [argvs] and ends with [r] in world [w']: if it
    returns, all commands were issued and every call returned; if it raises
    [e], either the next command could not be split, which raised [e], and
    all calls issued had returned, or the last call issued raised [e] and
    the calls before it had returned. *)
Definition stops_at_failure {W A} {pylib : PyLib} {os : OS W}
    (logfile : string) (cmds : list string) (argvs : list (list string))
    (w : W) (r : result A) (w' : W) : Prop :=
  match r with
  | Ok _ => length argvs = length cmds /\ all_return logfile argvs w w'
  | Raise e =>
      ((length argvs < length cmds)%nat /\
       shlex_split (nth (length argvs) cmds "") = Raise e /\
       all_return logfile argvs w w') \/
      (exists done argv w1,
         argvs = (done ++ [argv])%list /\
         all_return logfile done w w1 /\
         check_call argv logfile w1 = (Raise e, w'))
  end.

(** A computation over a recorded world issues the commands [cmds] through
    [check_call] and records nothing else: the record grows by the argument
    vectors of an initial part of [cmds], which are the words [shlex.split]
    makes of them, and the computation stops at the first failure. *)
Definition issues {W A} {pylib : PyLib} {os : OS W} (logfile : string)
    (cmds : list string) (m : M (W * list os_event) A) : Prop :=
  forall w log, exists argvs,
    snd (snd (m (w, log))) = (log ++ map EvCheckCall argvs)%list /\
    Forall2 (fun cmd argv => shlex_split cmd = Ok argv)
            (firstn (length argvs) cmds) argvs /\
    (length argvs <= length cmds)%nat /\
    stops_at_failure logfile cmds argvs w
      (fst (m (w, log))) (fst (snd (m (w, log)))).

(** The writes of [calls], made one after the other from world [w], all
    return, and leave world [w']. *)
Inductive writes_return {W} (env : ITestEnv.t W)
    : list env_call -> W -> W -> Prop :=
| writes_return_nil (w : W) : writes_return env [] w w
| writes_return_cons (path : string) (lines : list string)
    (rest : list env_call) (w w1 w2 : W) :
    ITestEnv.WriteLines env path lines w = (Ok tt, w1) ->
    writes_return env rest w1 w2 ->
    writes_return env (EnvWriteLines path lines :: rest) w w2.

(** The adb commands of the device constructor, in the order of the code. *)
Definition device_setup_cmds (classpath device_env_path : string) : list string :=
  (Device.adb_mkdir_cmd (device_env_path +:+ "/dalvik-cache")
     :: map Device.adb_mkdir_cmd (_DexArchCachePaths device_env_path)
     ++ [Device.adb_push_cmd classpath device_env_path])%list.

(** Doubles used to run the properties below on concrete inputs. *)
Module Fixture.

(** A test that answers by index parity and raises at index 3. *)
Definition raising_at_three : Z -> M nat bool :=
  fun i n =>
    if i =? 3 then (Raise (OtherError "probe failed"), S n)
    else (Ok (Z.even i), S n).

(** A synthetic testable whose fault needs all four methods: every probe on
    a proper prefix of the method list passes, the full list fails. *)
Definition last_method_faulty : ITestable.t nat :=
  {| ITestable.Test cm pr :=
       fun n =>
         (Ok match cm with
             | Some ms => len ms <? 4
             | None => false
             end, S n);
     ITestable.GetAllMethods := ret ["m0"; "m1"; "m2"; "m3"];
     ITestable.GetAllPassesForMethod := fun _ => ret ["p0"; "p1"; "p2"] |}.

(** A synthetic testable without a fault: every probe passes. *)
Definition no_fault : ITestable.t nat :=
  {| ITestable.Test cm pr :=
       fun n =>
         (Ok true, S n);
     ITestable.GetAllMethods := ret ["m0"; "m1"; "m2"; "m3"];
     ITestable.GetAllPassesForMethod := fun _ => ret ["p0"; "p1"; "p2"] |}.

(** A synthetic testable that is not monotone: of two methods, the test
    fails exactly when one method is compiled alone. *)
Definition single_method_faulty : ITestable.t nat :=
  {| ITestable.Test cm pr :=
       fun n =>
         (Ok match cm with
             | Some ms => negb (len ms =? 1)
             | None => true
             end, S n);
     ITestable.GetAllMethods := ret ["m0"; "m1"];
     ITestable.GetAllPassesForMethod := fun _ => ret ["p0"] |}.

(** A platform double over the process environment: every call succeeds,
    the temporary directory is always the same. *)
Definition platform : Platform (gmap string string) :=
  {| mkdtemp dir prefix := ret (dir +:+ prefix +:+ "x1");
     open_file path mode := ret tt;
     named_temporary_file dir delete :=
       ret (match dir with Some d => d | None => "/tmp" end +:+ "/tmpfile");
     file_writelines path lines := ret tt;
     file_close path := ret tt;
     os_mkdir path := ret tt;
     read_text path := ret "good";
     os_environ w := w |}.

(** An operating system on which every process is killed by the timer. *)
Definition slow_os : OS (gmap string string) :=
  {| os_listdir d := ret [];
     os_path_isfile p := ret false;
     os_unlink p := ret tt;
     check_call argv log := ret tt;
     popen_communicate cmd env timeout := ret ("partial", "", -9, true);
     file_write f text := ret tt |}.

Definition console : Console (gmap string string) :=
  {| py_print s w := w |}.

(** An operating system on which every run fails after compiling [m1]. *)
Definition failing_os : OS (gmap string string) :=
  {| os_listdir d := ret [];
     os_path_isfile p := ret false;
     os_unlink p := ret tt;
     check_call argv log := ret tt;
     popen_communicate cmd env timeout :=
       ret ("", "Building m1" +:+ newline, 1, false);
     file_write f text := ret tt |}.

Definition android_top : M (gmap string string) string := ret "/src/android".

Definition describe (e : exn) : string := "error".



Definition build_environ : gmap string string :=
  <["ANDROID_HOST_OUT" := "/out/host"]> (<["PATH" := "/usr/bin"]> (<["HOME" := "/root"]> ∅)).

Definition bare_environ : gmap string string :=
  <["PATH" := "/usr/bin"]> ∅.

Definition host_option_args : Args.t :=
  {| Args.classpath := "classes.dex";
     Args.correct_output := None;
     Args.host := true;
     Args.classname := "Test";
     Args.x64 := false;
     Args.lib_debug := true;
     Args.extra := Some ["-Xint"; "-Xusejit:false"];
     Args.verbose := false |}.

Definition device_args : Args.t :=
  {| Args.classpath := "classes.dex";
     Args.correct_output := None;
     Args.host := false;
     Args.classname := "Test";
     Args.x64 := false;
     Args.lib_debug := false;
     Args.extra := None;
     Args.verbose := false |}.

Definition device_debug_args : Args.t :=
  {| Args.classpath := "classes.dex";
     Args.correct_output := None;
     Args.host := false;
     Args.classname := "Test";
     Args.x64 := false;
     Args.lib_debug := true;
     Args.extra := Some ["-Xint"];
     Args.verbose := false |}.

(** The host environment the constructor builds from [build_environ]. *)
Definition build_host : HostTestEnv.t :=
  {| HostTestEnv._classpath := "classes.dex";
     HostTestEnv._env_path := "/tmp/bisection_search_x1";
     HostTestEnv._logfile := "/tmp/bisection_search_x1/log";
     HostTestEnv._shell_env :=
       <["LD_USE_LOAD_BIAS" := "1"]>
         (<["PATH" := "/out/host/bin:/usr/bin"]>
            (<["LD_LIBRARY_PATH" := "/out/host/lib64"]>
               (<["ANDROID_ROOT" := "/out/host"]>
                  (<["ANDROID_DATA" := "/tmp/bisection_search_x1"]>
                     build_environ)))) |}.

(** The device environment the constructor builds for classes.dex. *)
Definition build_device : DeviceTestEnv.t :=
  {| DeviceTestEnv._host_env_path := "/tmp/bisection_search_x1";
     DeviceTestEnv._logfile := "/tmp/bisection_search_x1/log";
     DeviceTestEnv._device_env_path := "/data/local/tmp/bisection_search_x1";
     DeviceTestEnv._classpath := "/data/local/tmp/bisection_search_x1/classes.dex";
     DeviceTestEnv._shell_env := bare_environ |}.

(** The testable main builds on the device from [device_args], with a
    reference output. *)
Definition device_testable : Dex2OatWrapperTestable.t (gmap string string) :=
  {| Dex2OatWrapperTestable._base_cmd := "dalvikvm32";
     Dex2OatWrapperTestable._test_env :=
       Device.as_env (pylib := Double.lib) (os := slow_os) (platform := platform)
         build_device;
     Dex2OatWrapperTestable._class_name := "Test";
     Dex2OatWrapperTestable._correct_output := Some "expected";
     Dex2OatWrapperTestable._compiled_methods_path :=
       "/data/local/tmp/bisection_search_x1/compiled_methods";
     Dex2OatWrapperTestable._passes_to_run_path :=
       "/data/local/tmp/bisection_search_x1/run_passes";
     Dex2OatWrapperTestable._verbose := false |}.

(** The argument vector of the adb command that runs the test of
    [device_testable] with the method selection. *)
Definition timed_out_argv : list string :=
  match
    shlex_split (PyLib := Double.lib)
      (DeviceTestEnv.adb_shell_cmd build_device
         (command_text device_testable true false true))
  with
  | Ok argv => argv
  | Raise _ => []
  end.

(** The testable main builds on the host from [host_args]. *)
Definition host_testable : Dex2OatWrapperTestable.t (gmap string string) :=
  {| Dex2OatWrapperTestable._base_cmd := "dalvikvm";
     Dex2OatWrapperTestable._test_env := Host.as_env (pylib := Double.lib) (os := slow_os) (platform := platform)
         build_host;
     Dex2OatWrapperTestable._class_name := "Test";
     Dex2OatWrapperTestable._correct_output := Some "expected";
     Dex2OatWrapperTestable._compiled_methods_path :=
       "/tmp/bisection_search_x1/compiled_methods";
     Dex2OatWrapperTestable._passes_to_run_path :=
       "/tmp/bisection_search_x1/run_passes";
     Dex2OatWrapperTestable._verbose := false |}.

End Fixture.

(** * Properties *)

(** ** BinarySearch *)

(** One turn of the loop. *)
Lemma BinarySearch_step {W} (start end_ : Z) (test : Z -> M W bool) (w : W) :
  BinarySearch start end_ test w =
  if Z_lt_dec start end_ then
    match test ((start + end_) / 2) w with
    | (Ok true, w') => BinarySearch ((start + end_) / 2 + 1) end_ test w'
    | (Ok false, w') => BinarySearch start ((start + end_) / 2) test w'
    | (Raise e, w') => (Raise e, w')
    end
  else (Ok start, w).
Proof.
  simp BinarySearch.
  destruct (Z_lt_dec start end_) as [Hlt | Hge]; simpl; [|reflexivity].
  destruct (test ((start + end_) / 2) w) as [[[|]|e] w']; reflexivity.
Qed.

Lemma BinarySearch_empty {W} (start end_ : Z) (test : Z -> M W bool) (w : W) :
  end_ <= start -> BinarySearch start end_ test w = (Ok start, w).
Proof.
  intros Hle. rewrite BinarySearch_step.
  destruct (Z_lt_dec start end_); [lia | reflexivity].
Qed.

Lemma mid_bounds (start end_ : Z) :
  start < end_ -> start <= (start + end_) / 2 < end_.
Proof.
  intros Hlt. split.
  - apply Z.div_le_lower_bound; lia.
  - apply Z.div_lt_upper_bound; lia.
Qed.

(** Induction on the width of the interval. *)
Lemma interval_ind (P : Z -> Z -> Prop) :
  (forall start end_,
      (forall s e, (Z.to_nat (e - s) < Z.to_nat (end_ - start))%nat -> P s e) ->
      P start end_) ->
  forall start end_, P start end_.
Proof.
  intros Hstep start end_.
  remember (Z.to_nat (end_ - start)) as n eqn:Hn.
  revert start end_ Hn.
  induction n as [n IH] using lt_wf_ind.
  intros start end_ ->. apply Hstep.
  intros s e Hlt. exact (IH _ Hlt s e eq_refl).
Qed.

Ltac narrow_interval :=
  match goal with
  | Hlt : ?s < ?e |- _ => pose proof (mid_bounds s e Hlt)
  end.

(** Recording does not disturb a computation. *)
Lemma recorded_run {W E A} (e : E) (m : M W A) (w : W) (log : list E) :
  recorded e m (w, log) = (fst (m w), (snd (m w), (log ++ [e])%list)).
Proof. unfold recorded. destruct (m w); reflexivity. Qed.

(** The search with a recorded test is the plain search together with the
    record of the probes, all of which lie in [[start, end_)]. *)
Lemma BinarySearch_recorded {W E} (ev : Z -> E) (test : Z -> M W bool) :
  forall start end_ w log0,
  exists probes,
    BinarySearch start end_ (fun i => recorded (ev i) (test i)) (w, log0) =
      (fst (BinarySearch start end_ test w),
       (snd (BinarySearch start end_ test w), (log0 ++ map ev probes)%list)) /\
    Forall (fun i => start <= i < end_) probes /\
    (end_ <= start -> probes = []).
Proof.
  intros start end_. pattern start, end_. apply interval_ind.
  clear start end_. intros start end_ IH w log0.
  rewrite (BinarySearch_step start end_ test),
          (BinarySearch_step start end_ (fun i => recorded (ev i) (test i))).
  destruct (Z_lt_dec start end_) as [Hlt | Hge].
  - narrow_interval. rewrite recorded_run.
    destruct (test ((start + end_) / 2) w) as [[[|]|e] w1]; cbn [fst snd].
    + destruct (IH ((start + end_) / 2 + 1) end_ ltac:(lia) w1
                  (log0 ++ [ev ((start + end_) / 2)])%list) as (probes & Heq & Hall & _).
      exists ((start + end_) / 2 :: probes). rewrite Heq.
      rewrite <- app_assoc. simpl. split; [reflexivity|]. split; [|lia].
      constructor; [lia|].
      eapply Forall_impl; [exact Hall|]. simpl. intros; lia.
    + destruct (IH start ((start + end_) / 2) ltac:(lia) w1
                  (log0 ++ [ev ((start + end_) / 2)])%list) as (probes & Heq & Hall & _).
      exists ((start + end_) / 2 :: probes). rewrite Heq.
      rewrite <- app_assoc. simpl. split; [reflexivity|]. split; [|lia].
      constructor; [lia|].
      eapply Forall_impl; [exact Hall|]. simpl. intros; lia.
    + exists [(start + end_) / 2]. simpl. split; [reflexivity|].
      split; [|lia]. constructor; [lia | constructor].
  - exists []. simpl. rewrite app_nil_r. split; [reflexivity|].
    split; [constructor | reflexivity].
Qed.

Lemma BinarySearch_logged {W} (test : Z -> M W bool) :
  forall start end_ w log0,
  exists probes,
    BinarySearch start end_ (logged test) (w, log0) =
      (fst (BinarySearch start end_ test w),
       (snd (BinarySearch start end_ test w), (log0 ++ probes)%list)) /\
    Forall (fun i => start <= i < end_) probes /\
    (end_ <= start -> probes = []).
Proof.
  intros start end_ w log0.
  destruct (BinarySearch_recorded (fun i => i) test start end_ w log0)
    as (probes & Heq & Hall & Hnone).
  exists probes. rewrite map_id in Heq. auto.
Qed.

(** Whatever the test answers, a result lies in [[start, end_]]. *)
Lemma BinarySearch_range {W} (test : Z -> M W bool) :
  forall start end_ w r w',
    start <= end_ ->
    BinarySearch start end_ test w = (Ok r, w') ->
    start <= r <= end_.
Proof.
  intros start end_. pattern start, end_. apply interval_ind.
  clear start end_. intros start end_ IH w r w' Hle.
  rewrite BinarySearch_step.
  destruct (Z_lt_dec start end_) as [Hlt | Hge].
  - narrow_interval.
    destruct (test ((start + end_) / 2) w) as [[[|]|e] w1]; intros Hrun.
    + apply IH in Hrun; lia.
    + apply IH in Hrun; lia.
    + discriminate.
  - intros [= <- <-]. lia.
Qed.

Lemma total_test_never_raises {W} (f : Z -> W -> bool * W) :
  never_raises (total_test f).
Proof.
  intros i w. unfold total_test. destruct (f i w) as [b w']. eauto.
Qed.

Lemma BinarySearch_returns {W} (test : Z -> M W bool) :
  never_raises test ->
  forall start end_ w, exists r w', BinarySearch start end_ test w = (Ok r, w').
Proof.
  intros Htot start end_. pattern start, end_. apply interval_ind.
  clear start end_. intros start end_ IH w.
  rewrite BinarySearch_step.
  destruct (Z_lt_dec start end_) as [Hlt | Hge]; [|eauto].
  narrow_interval.
  destruct (Htot ((start + end_) / 2) w) as (b & w1 & ->).
  destruct b; apply IH; lia.
Qed.

(** With answers that are true below a cutoff and false from it on, the
    search returns the cutoff (the world may change along the way). *)
Lemma BinarySearch_cutoff {W} (test : Z -> M W bool) (k : Z) :
  forall start end_,
    start <= k <= end_ ->
    (forall i w, start <= i < k -> fst (test i w) = Ok true) ->
    (forall i w, k <= i < end_ -> fst (test i w) = Ok false) ->
    forall w, fst (BinarySearch start end_ test w) = Ok k.
Proof.
  intros start end_. pattern start, end_. apply interval_ind.
  clear start end_. intros start end_ IH Hk Hlow Hhigh w.
  rewrite BinarySearch_step.
  destruct (Z_lt_dec start end_) as [Hlt | Hge].
  - narrow_interval.
    destruct (Z_lt_dec ((start + end_) / 2) k) as [Hmk | Hmk].
    + specialize (Hlow ((start + end_) / 2) w ltac:(lia)) as Hprobe.
      destruct (test ((start + end_) / 2) w) as [r w1]. simpl in Hprobe. subst r.
      apply IH; [lia | lia | |].
      * intros i w0 Hi. apply Hlow. lia.
      * intros i w0 Hi. apply Hhigh. lia.
    + specialize (Hhigh ((start + end_) / 2) w ltac:(lia)) as Hprobe.
      destruct (test ((start + end_) / 2) w) as [r w1]. simpl in Hprobe. subst r.
      apply IH; [lia | lia | |].
      * intros i w0 Hi. apply Hlow. lia.
      * intros i w0 Hi. apply Hhigh. lia.
  - simpl. f_equal. lia.
Qed.

Lemma BinarySearch_pure_world {W} (f : Z -> bool) :
  forall start end_ (w : W), snd (BinarySearch start end_ (pure_test f) w) = w.
Proof.
  intros start end_. pattern start, end_. apply interval_ind.
  clear start end_. intros start end_ IH w.
  rewrite BinarySearch_step.
  destruct (Z_lt_dec start end_) as [Hlt | Hge]; [|reflexivity].
  narrow_interval. unfold pure_test at 1, ret.
  destruct (f ((start + end_) / 2)); apply IH; lia.
Qed.

(** C1: for a predicate [f] on [[0, N)] that is true below a cutoff [k] in
    [[0, N]] and false from [k] on, [BinarySearch 0 N f] returns exactly [k]
    (the boundary cases [k = 0] and [k = N] included) and leaves the world
    as it was. *)
Theorem BinarySearch_finds_cutoff {W} (N k : Z) (f : Z -> bool) (w : W) :
  0 <= k <= N ->
  (forall i, 0 <= i < k -> f i = true) ->
  (forall i, k <= i < N -> f i = false) ->
  BinarySearch 0 N (pure_test f) w = (Ok k, w).
Proof.
  intros Hk Hlow Hhigh.
  pose proof (BinarySearch_cutoff (W := W) (pure_test f) k 0 N Hk) as Hcut.
  pose proof (BinarySearch_pure_world f 0 N w) as Hw.
  specialize (Hcut ltac:(intros i w0 Hi; simpl; f_equal; auto)
                   ltac:(intros i w0 Hi; simpl; f_equal; auto) w).
  destruct (BinarySearch 0 N (pure_test f) w) as [r w']. simpl in *.
  congruence.
Qed.

Lemma BinarySearch_finds_cutoff_witness :
  BinarySearch 0 5 (pure_test (fun i => i <? 3)) tt = (Ok 3, tt)
  /\ BinarySearch 0 5 (pure_test (fun _ => false)) tt = (Ok 0, tt)
  /\ BinarySearch 0 5 (pure_test (fun _ => true)) tt = (Ok 5, tt).
Proof.
  split; [|split].
  - apply (BinarySearch_finds_cutoff 5 3 (fun i => i <? 3) tt); [lia | |];
      intros i Hi; [apply Z.ltb_lt | apply Z.ltb_ge]; lia.
  - apply (BinarySearch_finds_cutoff 5 0 (fun _ => false) tt); [lia | |];
      intros i Hi; [lia | reflexivity].
  - apply (BinarySearch_finds_cutoff 5 5 (fun _ => true) tt); [lia | |];
      intros i Hi; [reflexivity | lia].
Defined.

(** C9: for [start <= end_] and any test that answers (monotone or not,
    changing the world or not), BinarySearch returns an index in
    [[start, end_]], the test is called only at indices in [[start, end_)],
    and for [start = end_] the result is [start] with no call at all. *)
Theorem BinarySearch_returns_within_bounds {W} (f : Z -> W -> bool * W)
    (start end_ : Z) (w : W) :
  start <= end_ ->
  exists r w' probes,
    BinarySearch start end_ (total_test f) w = (Ok r, w') /\
    BinarySearch start end_ (logged (total_test f)) (w, []) = (Ok r, (w', probes)) /\
    start <= r <= end_ /\
    Forall (fun i => start <= i < end_) probes /\
    (start = end_ -> r = start /\ w' = w /\ probes = []).
Proof.
  intros Hle.
  destruct (BinarySearch_returns _ (total_test_never_raises f) start end_ w)
    as (r & w' & Hrun).
  destruct (BinarySearch_logged (total_test f) start end_ w [])
    as (probes & Hlog & Hall & Hnone).
  rewrite Hrun in Hlog. simpl in Hlog.
  exists r, w', probes.
  split; [exact Hrun|]. split; [exact Hlog|].
  split; [eapply BinarySearch_range; eassumption|].
  split; [exact Hall|].
  intros ->. rewrite BinarySearch_empty in Hrun by lia.
  injection Hrun as <- <-.
  split; [reflexivity|]. split; [reflexivity|]. apply Hnone. lia.
Qed.

Lemma BinarySearch_returns_within_bounds_witness :
  exists r w' probes,
    BinarySearch 2 9 (total_test (fun i n => (Z.even i, S n))) O = (Ok r, w') /\
    BinarySearch 2 9 (logged (total_test (fun i n => (Z.even i, S n)))) (O, [])
      = (Ok r, (w', probes)) /\
    2 <= r <= 9 /\
    Forall (fun i => 2 <= i < 9) probes /\
    (2 = 9 -> r = 2 /\ w' = O /\ probes = []).
Proof.
  apply (BinarySearch_returns_within_bounds (fun i n => (Z.even i, S n)) 2 9 O).
  lia.
Defined.

(** ** FilterPasses *)

Lemma FilterPasses_enumerate (passes : list string) (cutoff_idx : Z) :
  FilterPasses passes cutoff_idx =
  map snd (List.filter (kept cutoff_idx) (enumerate passes)).
Proof. reflexivity. Qed.

Lemma filtered_cons (cutoff_idx n : Z) (p : string) (ps : list string) :
  filtered cutoff_idx n (p :: ps) =
  if py_in p MANDATORY_PASSES || (n <? cutoff_idx)
  then p :: filtered cutoff_idx (n + 1) ps
  else filtered cutoff_idx (n + 1) ps.
Proof.
  unfold filtered. cbn [enumerate_from List.filter]. unfold kept at 1.
  destruct (py_in p MANDATORY_PASSES || (n <? cutoff_idx)); reflexivity.
Qed.

Lemma filtered_sublist (cutoff_idx : Z) (passes : list string) :
  forall n, sublist (filtered cutoff_idx n passes) passes.
Proof.
  induction passes as [|p ps IH]; intros n.
  - constructor.
  - rewrite filtered_cons.
    destruct (py_in p MANDATORY_PASSES || (n <? cutoff_idx)).
    + apply sublist_skip, IH.
    + apply sublist_cons, IH.
Qed.

Lemma filtered_mandatory (cutoff_idx : Z) (passes : list string) (p : string) :
  forall n,
    In p passes ->
    py_in p MANDATORY_PASSES = true ->
    In p (filtered cutoff_idx n passes).
Proof.
  induction passes as [|q qs IH]; intros n Hin Hmand.
  - destruct Hin.
  - rewrite filtered_cons. destruct Hin as [-> | Hin].
    + rewrite Hmand. now left.
    + specialize (IH (n + 1) Hin Hmand).
      destruct (py_in q MANDATORY_PASSES || (n <? cutoff_idx)); [now right | exact IH].
Qed.

Lemma filtered_below_cutoff (cutoff_idx : Z) (passes : list string) (p : string) :
  forall n i,
    nth_error passes i = Some p ->
    n + Z.of_nat i < cutoff_idx ->
    In p (filtered cutoff_idx n passes).
Proof.
  induction passes as [|q qs IH]; intros n i Hnth Hlt.
  - destruct i; discriminate.
  - rewrite filtered_cons. destruct i as [|i]; cbn [nth_error] in Hnth.
    + injection Hnth as ->.
      replace (n <? cutoff_idx) with true by (symmetry; apply Z.ltb_lt; lia).
      rewrite orb_true_r. now left.
    + assert (In p (filtered cutoff_idx (n + 1) qs)) as Hrec
        by (apply (IH (n + 1) i Hnth); lia).
      destruct (py_in q MANDATORY_PASSES || (n <? cutoff_idx)); [now right | exact Hrec].
Qed.

(** C2: for every pass list and every cutoff (in particular every cutoff in
    [[0, len passes]]), [FilterPasses passes cutoff] contains every mandatory
    pass of [passes], is a subsequence of [passes], and contains every pass
    whose index is strictly below the cutoff. *)
Theorem FilterPasses_mandatory_subsequence_prefix
    (passes : list string) (cutoff_idx : Z) :
  (forall p, In p passes -> py_in p MANDATORY_PASSES = true ->
             In p (FilterPasses passes cutoff_idx)) /\
  sublist (FilterPasses passes cutoff_idx) passes /\
  (forall i p, nth_error passes i = Some p -> Z.of_nat i < cutoff_idx ->
               In p (FilterPasses passes cutoff_idx)).
Proof.
  rewrite FilterPasses_enumerate.
  change (map snd (List.filter (kept cutoff_idx) (enumerate passes)))
    with (filtered cutoff_idx 0 passes).
  split; [|split].
  - intros p. apply filtered_mandatory.
  - apply filtered_sublist.
  - intros i p Hnth Hlt. eapply filtered_below_cutoff; [eassumption | lia].
Qed.

(** Without mandatory passes the filter is the plain prefix. *)
Lemma filtered_no_mandatory (cutoff_idx : Z) (passes : list string) :
  Forall (fun p => py_in p MANDATORY_PASSES = false) passes ->
  forall n,
    filtered cutoff_idx n passes = firstn (Z.to_nat (cutoff_idx - n)) passes.
Proof.
  induction 1 as [|p ps Hp _ IH]; intros n.
  - now rewrite firstn_nil.
  - rewrite filtered_cons, Hp, IH. cbn [orb].
    destruct (Z.ltb_spec n cutoff_idx) as [Hlt | Hge].
    + replace (Z.to_nat (cutoff_idx - n)) with (S (Z.to_nat (cutoff_idx - (n + 1))))
        by lia.
      reflexivity.
    + replace (Z.to_nat (cutoff_idx - n)) with O by lia.
      replace (Z.to_nat (cutoff_idx - (n + 1))) with O by lia.
      reflexivity.
Qed.

Lemma FilterPasses_no_mandatory (passes : list string) (cutoff_idx : Z) :
  Forall (fun p => py_in p MANDATORY_PASSES = false) passes ->
  FilterPasses passes cutoff_idx = firstn (Z.to_nat cutoff_idx) passes.
Proof.
  intros Hnone. rewrite FilterPasses_enumerate.
  change (filtered cutoff_idx 0 passes = firstn (Z.to_nat cutoff_idx) passes).
  rewrite (filtered_no_mandatory _ _ Hnone). now rewrite Z.sub_0_r.
Qed.

(** ** Dex2OatWrapperTestable.Test *)
Section TestScore.
Context {W : Type} {pylib : PyLib} {console : Console W}.
Import Dex2OatWrapperTestable.

Lemma print_if_verbose_ok (self : t W) (msg : string) (w : W) :
  fst (print_if_verbose self msg w) = Ok tt.
Proof. unfold print_if_verbose. destruct (_verbose self); reflexivity. Qed.

(** The run of Test once the command is prepared and the environment has
    produced an execution result. *)
Lemma Test_run (self : t W) (compiled_methods passes_to_run : option (list string))
    (w w1 w2 : W) (cmd output err_output : string) (ret_code : Z) :
  _PrepareCmd self compiled_methods passes_to_run true
    (snd (print_if_verbose self (testing_msg compiled_methods passes_to_run) w))
    = (Ok cmd, w1) ->
  ITestEnv.RunCommand (_test_env self) cmd w1
    = (Ok (output, err_output, ret_code), w2) ->
  let res := negb (ret_code =? 0) || py_eq_opt output (_correct_output self) in
  Test self compiled_methods passes_to_run w
    = (Ok res, snd (print_if_verbose self (passed_msg res) w2)).
Proof.
  intros Hcmd Hrun res. unfold Test, bind.
  pose proof (print_if_verbose_ok self
                (testing_msg compiled_methods passes_to_run) w) as Hsay.
  destruct (print_if_verbose self _ w) as [r0 w0]. simpl in Hsay, Hcmd.
  subst r0. rewrite Hcmd, Hrun. fold res.
  pose proof (print_if_verbose_ok self (passed_msg res) w2) as Hsay.
  destruct (print_if_verbose self (passed_msg res) w2) as [r3 w3].
  simpl in Hsay. subst r3. reflexivity.
Qed.

Lemma py_eq_opt_spec (a : string) (b : option string) :
  py_eq_opt a b = true <-> b = Some a.
Proof.
  destruct b as [b|]; simpl.
  - rewrite String.eqb_eq. split; congruence.
  - split; discriminate.
Qed.

(** C3: whatever execution result (stdout, stderr, exit code) the
    environment produces, Test returns true exactly when the exit code is
    non-zero or the captured standard output is the configured reference
    output; in particular a non-zero exit code gives true whatever the
    output is. *)
Theorem Test_true_iff_nonzero_or_reference (self : t W)
    (compiled_methods passes_to_run : option (list string))
    (w w1 w2 : W) (cmd output err_output : string) (ret_code : Z) :
  _PrepareCmd self compiled_methods passes_to_run true
    (snd (print_if_verbose self (testing_msg compiled_methods passes_to_run) w))
    = (Ok cmd, w1) ->
  ITestEnv.RunCommand (_test_env self) cmd w1
    = (Ok (output, err_output, ret_code), w2) ->
  exists res w3,
    Test self compiled_methods passes_to_run w = (Ok res, w3) /\
    (res = true <-> ret_code <> 0 \/ _correct_output self = Some output) /\
    (ret_code <> 0 -> res = true).
Proof.
  intros Hcmd Hrun. eexists _, _.
  split; [exact (Test_run self _ _ w w1 w2 cmd _ _ _ Hcmd Hrun)|].
  rewrite orb_true_iff, negb_true_iff, Z.eqb_neq, py_eq_opt_spec.
  split; [reflexivity|]. intros Hnz. now left.
Qed.

(** C10: without a reference output ([correct_output] is None) Test
    returns true exactly when the exit code is non-zero; a run that ends
    with exit code 0 is scored false whatever it printed. *)
Theorem Test_without_reference_iff_nonzero (self : t W)
    (compiled_methods passes_to_run : option (list string))
    (w w1 w2 : W) (cmd output err_output : string) (ret_code : Z) :
  _correct_output self = None ->
  _PrepareCmd self compiled_methods passes_to_run true
    (snd (print_if_verbose self (testing_msg compiled_methods passes_to_run) w))
    = (Ok cmd, w1) ->
  ITestEnv.RunCommand (_test_env self) cmd w1
    = (Ok (output, err_output, ret_code), w2) ->
  exists res w3,
    Test self compiled_methods passes_to_run w = (Ok res, w3) /\
    (res = true <-> ret_code <> 0) /\
    (ret_code = 0 -> res = false).
Proof.
  intros Hnone Hcmd Hrun. eexists _, _.
  split; [exact (Test_run self _ _ w w1 w2 cmd _ _ _ Hcmd Hrun)|].
  rewrite Hnone. simpl. rewrite orb_false_r, negb_true_iff, Z.eqb_neq.
  split; [reflexivity|]. intros ->. reflexivity.
Qed.
End TestScore.

(** ** BugSearch *)

Lemma py_slice_to_firstn {A} (l : list A) (i : Z) :
  0 <= i -> py_slice_to l i = firstn (Z.to_nat i) l.
Proof.
  intros Hi. unfold py_slice_to.
  destruct (Z.ltb_spec i 0) as [Hneg | _]; [lia|].
  destruct (Z.le_ge_cases i (len l)) as [Hle | Hge].
  - now rewrite Z.min_l.
  - rewrite Z.min_r by assumption. unfold len in *.
    rewrite Nat2Z.id, firstn_all. symmetry. apply firstn_all2. lia.
Qed.

Lemma py_index_nth {A} (l : list A) (i : Z) (x : A) :
  0 <= i -> nth_error l (Z.to_nat i) = Some x -> py_index l i = Ok x.
Proof.
  intros Hi Hnth. unfold py_index.
  assert (Z.to_nat i < length l)%nat as Hlt
    by (apply nth_error_Some; congruence).
  destruct (Z.ltb_spec i 0) as [Hneg | _]; [lia|].
  replace (0 <=? i) with true by (symmetry; apply Z.leb_le; lia).
  replace (i <? len l) with true by (symmetry; apply Z.ltb_lt; unfold len; lia).
  simpl. now rewrite Hnth.
Qed.

Section Stages.
Context {W : Type} (testable : ITestable.t W).

(** Stage one found nothing: the cutoff is the number of methods. *)
Lemma BugSearch_no_bug (w w1 w2 : W) (all_methods : list string) :
  ITestable.GetAllMethods testable w = (Ok all_methods, w1) ->
  BinarySearch 0 (len all_methods) (method_probe testable all_methods) w1
    = (Ok (len all_methods), w2) ->
  BugSearch testable w = (Ok (None, None), w2).
Proof.
  intros Hms Hone. unfold BugSearch, bind. rewrite Hms, Hone.
  now rewrite Z.eqb_refl.
Qed.

(** Stage one ended at 0 on a list that is not empty. *)
Lemma BugSearch_fatal (w w1 w2 : W) (all_methods : list string) :
  ITestable.GetAllMethods testable w = (Ok all_methods, w1) ->
  BinarySearch 0 (len all_methods) (method_probe testable all_methods) w1
    = (Ok 0, w2) ->
  all_methods <> [] ->
  BugSearch testable w = (Raise (FatalError outside_compiler_msg), w2).
Proof.
  intros Hms Hone Hne. unfold BugSearch, bind. rewrite Hms, Hone.
  destruct all_methods as [|m ms]; [contradiction|].
  reflexivity.
Qed.

(** The outcome once both stages have run. *)
Lemma BugSearch_stage_two (w w1 w2 w3 w4 : W) (all_methods all_passes : list string)
    (faulty_method_idx faulty_pass_idx : Z) (faulty_method : string) :
  ITestable.GetAllMethods testable w = (Ok all_methods, w1) ->
  BinarySearch 0 (len all_methods) (method_probe testable all_methods) w1
    = (Ok faulty_method_idx, w2) ->
  faulty_method_idx <> len all_methods ->
  faulty_method_idx <> 0 ->
  py_index all_methods (faulty_method_idx - 1) = Ok faulty_method ->
  ITestable.GetAllPassesForMethod testable faulty_method w2 = (Ok all_passes, w3) ->
  BinarySearch 0 (len all_passes) (pass_probe testable faulty_method all_passes) w3
    = (Ok faulty_pass_idx, w4) ->
  BugSearch testable w =
    if faulty_pass_idx =? 0 then (Ok (Some faulty_method, None), w4)
    else if faulty_pass_idx =? len all_passes
         then (Raise (AssertionError must_fail_msg), w4)
         else match py_index all_passes (faulty_pass_idx - 1) with
              | Ok faulty_pass => (Ok (Some faulty_method, Some faulty_pass), w4)
              | Raise e => (Raise e, w4)
              end.
Proof.
  intros Hms Hone Hlen Hzero Hm Hps Htwo. unfold BugSearch, bind.
  rewrite Hms, Hone.
  destruct (Z.eqb_spec faulty_method_idx (len all_methods)); [contradiction|].
  destruct (Z.eqb_spec faulty_method_idx 0); [contradiction|].
  unfold lift_result at 1. rewrite Hm, Hps, Htwo.
  destruct (faulty_pass_idx =? 0); [reflexivity|].
  destruct (faulty_pass_idx =? len all_passes); cbn; [reflexivity|].
  unfold lift_result. destruct (py_index all_passes (faulty_pass_idx - 1)); reflexivity.
Qed.
End Stages.

Lemma fst_run {A W} (m : M W A) (w : W) (a : A) :
  fst (m w) = Ok a -> m w = (Ok a, snd (m w)).
Proof. destruct (m w) as [r w']. simpl. now intros ->. Qed.

(** C4: a testable with methods [m0; m1; m2; m3] whose probe on the method
    prefix of length [i] fails exactly for [i >= 2], and with passes
    [p0; p1; p2] for m1, none mandatory, whose probe on the pass prefix of
    length [j] fails exactly for [j >= 1]: BugSearch reports m1 and p0. *)
Theorem BugSearch_synthetic_reports_m1_p0 {W} (testable : ITestable.t W)
    (m0 m1 m2 m3 p0 p1 p2 : string) :
  (forall w, fst (ITestable.GetAllMethods testable w) = Ok [m0; m1; m2; m3]) ->
  (forall i w, 0 <= i <= 4 ->
     fst (ITestable.Test testable
            (Some (firstn (Z.to_nat i) [m0; m1; m2; m3])) None w)
       = Ok (i <? 2)) ->
  (forall w, fst (ITestable.GetAllPassesForMethod testable m1 w) = Ok [p0; p1; p2]) ->
  Forall (fun p => py_in p MANDATORY_PASSES = false) [p0; p1; p2] ->
  (forall j w, 0 <= j <= 3 ->
     fst (ITestable.Test testable (Some [m1])
            (Some (firstn (Z.to_nat j) [p0; p1; p2])) w)
       = Ok (j <? 1)) ->
  forall w, fst (BugSearch testable w) = Ok (Some m1, Some p0).
Proof.
  intros Hms Hprobe1 Hps Hnone Hprobe2 w.
  pose proof (fst_run _ w _ (Hms w)) as Hrun0.
  set (w1 := snd (ITestable.GetAllMethods testable w)) in *.
  assert (fst (BinarySearch 0 (len [m0; m1; m2; m3])
                 (method_probe testable [m0; m1; m2; m3]) w1) = Ok 2) as Hone.
  { apply BinarySearch_cutoff; [unfold len; simpl; lia | |];
      intros i w0 Hi; unfold len in Hi; simpl in Hi; unfold method_probe;
      rewrite py_slice_to_firstn by lia; rewrite Hprobe1 by lia; f_equal;
      [apply Z.ltb_lt | apply Z.ltb_ge]; lia. }
  apply fst_run in Hone.
  set (w2 := snd (BinarySearch 0 _ _ w1)) in *.
  pose proof (fst_run _ w2 _ (Hps w2)) as Hrun2.
  set (w3 := snd (ITestable.GetAllPassesForMethod testable m1 w2)) in *.
  assert (fst (BinarySearch 0 (len [p0; p1; p2])
                 (pass_probe testable m1 [p0; p1; p2]) w3) = Ok 1) as Htwo.
  { apply BinarySearch_cutoff; [unfold len; simpl; lia | |];
      intros j w0 Hj; unfold len in Hj; simpl in Hj; unfold pass_probe;
      rewrite (FilterPasses_no_mandatory _ _ Hnone); rewrite Hprobe2 by lia;
      f_equal; [apply Z.ltb_lt | apply Z.ltb_ge]; lia. }
  apply fst_run in Htwo.
  assert (2 <> len [m0; m1; m2; m3]) as Hlen by (unfold len; simpl; lia).
  assert (2 <> 0) as Hpos by lia.
  rewrite (BugSearch_stage_two testable w w1 w2 w3 _ _ _ 2 1 m1
             Hrun0 Hone Hlen Hpos eq_refl Hrun2 Htwo).
  reflexivity.
Qed.

Lemma BugSearch_synthetic_reports_m1_p0_witness :
  fst (BugSearch Double.synthetic_testable O) = Ok (Some "m1", Some "p0").
Proof.
  refine (BugSearch_synthetic_reports_m1_p0 Double.synthetic_testable
            "m0" "m1" "m2" "m3" "p0" "p1" "p2" _ _ _ _ _ O).
  - reflexivity.
  - intros i w Hi.
    assert (i = 0 \/ i = 1 \/ i = 2 \/ i = 3 \/ i = 4) as Hcases by lia.
    destruct Hcases as [-> | [-> | [-> | [-> | ->]]]]; reflexivity.
  - reflexivity.
  - repeat constructor.
  - intros j w Hj.
    assert (j = 0 \/ j = 1 \/ j = 2 \/ j = 3) as Hcases by lia.
    destruct Hcases as [-> | [-> | [-> | ->]]]; reflexivity.
Defined.

(** The calls of stage one are no calls of stage two. *)
Lemma method_probes_not_stage_two (all_methods : list string) (probes : list Z) :
  Forall (fun c => is_stage_two c = false)
    (map (fun i => CallTest (Some (py_slice_to all_methods i)) None) probes).
Proof. induction probes; constructor; auto. Qed.

(** When stage one ends at the number of methods, BugSearch returns
    (None, None) and stage two never starts: a recording double sees no
    pass-list retrieval and no probe that restricts the passes. *)
Lemma BugSearch_cutoff_at_length_skips_stage_two {W} (testable : ITestable.t W)
    (w w1 w2 : W) (all_methods : list string) :
  ITestable.GetAllMethods testable w = (Ok all_methods, w1) ->
  BinarySearch 0 (len all_methods) (method_probe testable all_methods) w1
    = (Ok (len all_methods), w2) ->
  BugSearch testable w = (Ok (None, None), w2) /\
  exists calls,
    BugSearch (recording_testable testable) (w, [])
      = (Ok (None, None), (w2, calls)) /\
    Forall (fun c => is_stage_two c = false) calls.
Proof.
  intros Hms Hone. split; [eapply BugSearch_no_bug; eassumption|].
  destruct (BinarySearch_recorded
              (fun i => CallTest (Some (py_slice_to all_methods i)) None)
              (method_probe testable all_methods)
              0 (len all_methods) w1 [CallGetAllMethods])
    as (probes & Hrec & _ & _).
  rewrite Hone in Hrec. cbn [fst snd] in Hrec.
  eexists. split.
  - apply (BugSearch_no_bug (recording_testable testable) (w, [])
             (w1, [CallGetAllMethods]) _ all_methods).
    + cbn [recording_testable ITestable.GetAllMethods].
      rewrite recorded_run, Hms. reflexivity.
    + exact Hrec.
  - constructor; [reflexivity | apply method_probes_not_stage_two].
Qed.

(** C5: BugSearch never runs Test on the full method list: it decides by
    the prefixes of length below the number of methods.  So let Test answer
    on the prefix of length [i] by [f i], the full list ([i] the number of
    methods) included, and let [f] be monotone: a passing list passes with
    fewer methods too.  If then Test returns true for the full method list,
    BugSearch returns (None, None) and stage two never starts: a recording
    double sees no pass-list retrieval and no probe that restricts the
    passes. *)
Theorem BugSearch_no_bug_skips_stage_two {W} (testable : ITestable.t W)
    (all_methods : list string) (f : Z -> bool) (w w1 : W) :
  ITestable.GetAllMethods testable w = (Ok all_methods, w1) ->
  (forall i w0, 0 <= i <= len all_methods ->
     fst (ITestable.Test testable (Some (firstn (Z.to_nat i) all_methods)) None w0)
       = Ok (f i)) ->
  (forall i j, 0 <= i <= j -> j <= len all_methods -> f j = true -> f i = true) ->
  fst (ITestable.Test testable (Some all_methods) None w1) = Ok true ->
  exists w2 calls,
    BugSearch testable w = (Ok (None, None), w2) /\
    BugSearch (recording_testable testable) (w, [])
      = (Ok (None, None), (w2, calls)) /\
    Forall (fun c => is_stage_two c = false) calls.
Proof.
  intros Hms Hf Hmono Hfull.
  assert (0 <= len all_methods) as Hlen by (unfold len; lia).
  assert (f (len all_methods) = true) as Htop.
  { pose proof (Hf (len all_methods) w1 ltac:(lia)) as Htop.
    replace (firstn (Z.to_nat (len all_methods)) all_methods)
      with all_methods in Htop
      by (unfold len; now rewrite Nat2Z.id, firstn_all).
    rewrite Hfull in Htop. now injection Htop as <-. }
  assert (fst (BinarySearch 0 (len all_methods)
                 (method_probe testable all_methods) w1) = Ok (len all_methods))
    as Hone.
  { apply BinarySearch_cutoff.
    - lia.
    - intros i w0 Hi. unfold method_probe.
      rewrite py_slice_to_firstn by lia. rewrite Hf by lia.
      f_equal. apply (Hmono i (len all_methods)); [lia | lia | exact Htop].
    - intros i w0 Hi. lia. }
  apply fst_run in Hone.
  destruct (BugSearch_cutoff_at_length_skips_stage_two testable w w1 _
              all_methods Hms Hone) as (Hret & calls & Hrec & Hnone).
  eexists _, calls. split; [exact Hret|]. split; [exact Hrec | exact Hnone].
Qed.

Lemma BugSearch_no_bug_skips_stage_two_witness :
  exists w2 calls,
    BugSearch Fixture.no_fault O = (Ok (None, None), w2) /\
    BugSearch (recording_testable Fixture.no_fault) (O, [])
      = (Ok (None, None), (w2, calls)) /\
    Forall (fun c => is_stage_two c = false) calls.
Proof.
  apply (BugSearch_no_bug_skips_stage_two Fixture.no_fault
           ["m0"; "m1"; "m2"; "m3"] (fun i => true) O O).
  - reflexivity.
  - intros i w0 Hi. reflexivity.
  - intros i j Hij Hj Hpass. reflexivity.
  - reflexivity.
Defined.

(** C5 without monotonicity fails: [Fixture.single_method_faulty] passes on
    the full method list [m0; m1] and on the empty list but fails on [m0]
    alone; BugSearch retrieves the passes of m0, probes with a pass
    selection and returns (m0, None). *)
Lemma BugSearch_full_list_passes_yet_reports :
  let testable := Fixture.single_method_faulty in
  fst (ITestable.GetAllMethods testable O) = Ok ["m0"; "m1"] /\
  (forall n, fst (ITestable.Test testable (Some ["m0"; "m1"]) None n) = Ok true) /\
  fst (BugSearch testable O) = Ok (Some "m0", None) /\
  snd (snd (BugSearch (recording_testable testable) (O, [])))
    = [ CallGetAllMethods;
        CallTest (Some ["m0"]) None;
        CallTest (Some []) None;
        CallGetAllPassesForMethod "m0";
        CallTest (Some ["m0"]) (Some []) ] /\
  Exists (fun c => is_stage_two c = true)
    (snd (snd (BugSearch (recording_testable testable) (O, [])))).
Proof.
  cbv zeta. split; [reflexivity|]. split; [intros n; reflexivity|].
  split; [vm_compute; reflexivity|]. split; [vm_compute; reflexivity|].
  vm_compute. do 3 apply Exists_cons_tl. apply Exists_cons_hd. reflexivity.
Qed.

(** The method list of a Dex2OatWrapperTestable is never empty: an empty
    scrape raises FatalError instead. *)
Lemma GetAllMethods_nonempty {W} {pylib : PyLib} {console : Console W}
    (self : Dex2OatWrapperTestable.t W) (w w1 : W) (all_methods : list string) :
  Dex2OatWrapperTestable.GetAllMethods self w = (Ok all_methods, w1) ->
  all_methods <> [].
Proof.
  unfold Dex2OatWrapperTestable.GetAllMethods, bind.
  destruct (Dex2OatWrapperTestable._PrepareCmd self None None true w)
    as [[cmd|e] w0]; [|discriminate].
  destruct (ITestEnv.RunCommand _ cmd w0) as [[[[out err] rc]|e] w0']; [|discriminate].
  destruct (re_findall _ err) as [|m ms]; [discriminate|].
  intros [= <- _]. discriminate.
Qed.

(** C6: when the stage-one cutoff is 0 (the probe with no method compiled
    already fails), BugSearch on a Dex2OatWrapperTestable raises the fatal
    error that blames something outside the compiler, and returns no
    (method, pass) result. *)
Theorem BugSearch_cutoff_zero_is_fatal {W} {pylib : PyLib} {console : Console W}
    (self : Dex2OatWrapperTestable.t W) (w w1 w2 : W) (all_methods : list string) :
  Dex2OatWrapperTestable.GetAllMethods self w = (Ok all_methods, w1) ->
  BinarySearch 0 (len all_methods)
    (method_probe (Dex2OatWrapperTestable.as_testable self) all_methods) w1
    = (Ok 0, w2) ->
  BugSearch (Dex2OatWrapperTestable.as_testable self) w
    = (Raise (FatalError outside_compiler_msg), w2).
Proof.
  intros Hms Hone.
  apply (BugSearch_fatal (Dex2OatWrapperTestable.as_testable self)
           w w1 w2 all_methods Hms Hone).
  eapply GetAllMethods_nonempty; eassumption.
Qed.

Lemma BugSearch_cutoff_zero_is_fatal_witness :
  exists w2,
    BugSearch (Double.fake Double.faulty_everywhere (Some "good"))
      Double.empty_world
    = (Raise (FatalError outside_compiler_msg), w2).
Proof.
  eexists.
  eapply (BugSearch_cutoff_zero_is_fatal
            (pylib := Double.lib) (console := Double.console)
            (Double.fake_testable Double.faulty_everywhere (Some "good"))
            Double.empty_world);
    vm_compute; reflexivity.
Defined.

(** C7 (as the code has it): once stage two has run, a cutoff of 0 makes
    BugSearch return (faulty method, None), also when the pass list is
    empty; a cutoff equal to the length of a pass list that is not empty
    makes it fail the assertion instead of returning. *)
Theorem BugSearch_stage_two_boundaries {W} (testable : ITestable.t W)
    (w w1 w2 w3 w4 : W) (all_methods all_passes : list string)
    (faulty_method_idx faulty_pass_idx : Z) (faulty_method : string) :
  ITestable.GetAllMethods testable w = (Ok all_methods, w1) ->
  BinarySearch 0 (len all_methods) (method_probe testable all_methods) w1
    = (Ok faulty_method_idx, w2) ->
  faulty_method_idx <> len all_methods ->
  faulty_method_idx <> 0 ->
  py_index all_methods (faulty_method_idx - 1) = Ok faulty_method ->
  ITestable.GetAllPassesForMethod testable faulty_method w2 = (Ok all_passes, w3) ->
  BinarySearch 0 (len all_passes) (pass_probe testable faulty_method all_passes) w3
    = (Ok faulty_pass_idx, w4) ->
  (faulty_pass_idx = 0 ->
     BugSearch testable w = (Ok (Some faulty_method, None), w4)) /\
  (faulty_pass_idx = len all_passes -> faulty_pass_idx <> 0 ->
     BugSearch testable w = (Raise (AssertionError must_fail_msg), w4)).
Proof.
  intros Hms Hone Hlen Hzero Hm Hps Htwo.
  rewrite (BugSearch_stage_two testable w w1 w2 w3 w4 all_methods all_passes
             faulty_method_idx faulty_pass_idx faulty_method
             Hms Hone Hlen Hzero Hm Hps Htwo).
  split.
  - intros ->. reflexivity.
  - intros Heq Hne.
    destruct (Z.eqb_spec faulty_pass_idx 0); [contradiction|].
    destruct (Z.eqb_spec faulty_pass_idx (len all_passes)); [reflexivity | contradiction].
Qed.

Lemma BugSearch_stage_two_boundaries_witness :
  let testable := Double.fake Double.faulty_last_pass (Some "good") in
  exists w4,
    (2 = 0 -> BugSearch testable Double.empty_world = (Ok (Some "m0", None), w4)) /\
    (2 = len ["inliner"; "dce"] -> 2 <> 0 ->
       BugSearch testable Double.empty_world
         = (Raise (AssertionError must_fail_msg), w4)).
Proof.
  intros testable. eexists.
  eapply (BugSearch_stage_two_boundaries testable Double.empty_world
            _ _ _ _ ["m0"; "m1"] ["inliner"; "dce"] 1 2 "m0").
  - vm_compute; reflexivity.
  - vm_compute; reflexivity.
  - unfold len; simpl; lia.
  - lia.
  - reflexivity.
  - vm_compute; reflexivity.
  - vm_compute; reflexivity.
Defined.

(** C7 as stated fails on an empty pass list: the compiler starts no
    optimization pass for m0, the stage-two cutoff 0 is the length of the
    pass list, and BugSearch returns (m0, None) without any assertion
    failure. *)
Lemma BugSearch_empty_pass_list_returns :
  let testable := Double.fake Double.faulty_without_passes (Some "good") in
  let w1 := snd (ITestable.GetAllMethods testable Double.empty_world) in
  let w2 := snd (BinarySearch 0 2 (method_probe testable ["m0"; "m1"]) w1) in
  let w3 := snd (ITestable.GetAllPassesForMethod testable "m0" w2) in
  fst (ITestable.GetAllMethods testable Double.empty_world) = Ok ["m0"; "m1"] /\
  fst (BinarySearch 0 2 (method_probe testable ["m0"; "m1"]) w1) = Ok 1 /\
  fst (ITestable.GetAllPassesForMethod testable "m0" w2) = Ok [] /\
  fst (BinarySearch 0 (len (@nil string)) (pass_probe testable "m0" []) w3)
    = Ok (len (@nil string)) /\
  fst (BugSearch testable Double.empty_world) = Ok (Some "m0", None).
Proof. vm_compute. repeat split. Qed.

Lemma Test_true_iff_nonzero_or_reference_witness :
  let self := Double.fake_testable Double.crashing (Some "good") in
  exists res w3,
    Dex2OatWrapperTestable.Test (pylib := Double.lib) (console := Double.console)
      self (Some ["m0"]) None Double.empty_world
      = (Ok res, w3) /\
    (res = true <-> 1 <> 0 \/ Some "good" = Some "garbage") /\
    (1 <> 0 -> res = true).
Proof.
  intros self.
  eapply (Test_true_iff_nonzero_or_reference
            (pylib := Double.lib) (console := Double.console)
            self (Some ["m0"]) None
            Double.empty_world);
    vm_compute; reflexivity.
Defined.

Lemma Test_without_reference_iff_nonzero_witness :
  let self := Double.fake_testable Double.healthy None in
  exists res w3,
    Dex2OatWrapperTestable.Test (pylib := Double.lib) (console := Double.console)
      self (Some ["m0"]) None Double.empty_world
      = (Ok res, w3) /\
    (res = true <-> 0 <> 0) /\
    (0 = 0 -> res = false).
Proof.
  intros self.
  eapply (Test_without_reference_iff_nonzero
            (pylib := Double.lib) (console := Double.console)
            self (Some ["m0"]) None
            Double.empty_world);
    vm_compute; reflexivity.
Defined.

(** ** RunCommand: one cache invalidation, before the command runs *)

Section Traces.
Context {W : Type} {pylib : PyLib} {os : OS W}.

Lemma extends_ret {A} P (a : A) : extends (W := W) P (ret a).
Proof. intros w log. exists []. simpl. now rewrite app_nil_r. Qed.

Lemma extends_lift_result {A} P (r : result A) :
  extends (W := W) P (lift_result r).
Proof. intros w log. exists []. simpl. now rewrite app_nil_r. Qed.

Lemma extends_recorded {A} (P : os_event -> Prop) (e : os_event) (m : M W A) :
  P e -> extends P (recorded e m).
Proof.
  intros He w log. exists [e]. rewrite recorded_run. simpl.
  split; [reflexivity | now constructor].
Qed.

Lemma extends_bind {A B} P (m : M (W * list os_event) A)
    (k : A -> M (W * list os_event) B) :
  extends P m -> (forall a, extends P (k a)) -> extends P (bind m k).
Proof.
  intros Hm Hk w log. unfold bind.
  destruct (Hm w log) as (d1 & Heq1 & Hall1).
  destruct (m (w, log)) as [[a|e] [w1 log1]]; simpl in Heq1; subst log1.
  - destruct (Hk a w1 (log ++ d1)%list) as (d2 & Heq2 & Hall2).
    exists (d1 ++ d2)%list. rewrite Heq2, app_assoc.
    split; [reflexivity | now apply Forall_app].
  - exists d1. simpl. auto.
Qed.

Lemma extends_for_each {A} P (l : list A)
    (body : A -> M (W * list os_event) unit) :
  (forall a, extends P (body a)) -> extends P (for_each l body).
Proof.
  intros Hbody. induction l as [|a l IH]; simpl.
  - apply extends_ret.
  - apply extends_bind; auto.
Qed.

(** Running the command and logging: one Popen, then at most a write. *)
Lemma RunCommandForOutputAndLog_record (cmd : command)
    (env : gmap string string) (logfile : string) (timeout : Z)
    (w : W) (log : list os_event) :
  exists rest,
    snd (snd (_RunCommandForOutputAndLog cmd env logfile timeout (w, log)))
      = (log ++ EvPopen cmd :: rest)%list /\
    Forall (fun e => is_invalidation e = false /\ is_execution e = false) rest.
Proof.
  unfold _RunCommandForOutputAndLog, bind.
  cbn [popen_communicate file_write RecordingOS]. rewrite recorded_run.
  destruct (popen_communicate cmd env timeout w)
    as [[[[[output err_output] returncode] timeouted]|e] w1]; cbn [fst snd].
  - rewrite recorded_run.
    match goal with
    | |- context [file_write ?f ?text w1] =>
        destruct (file_write f text w1) as [[[]|e] w2]; cbn [fst snd];
        exists [EvWrite f text]; rewrite <- app_assoc;
        (split; [reflexivity | repeat constructor])
    end.
  - exists []. split; [reflexivity | constructor].
Qed.

(** The general shape: an invalidation that only records invalidation
    calls, followed by steps that record nothing and the run of the
    command. *)
Lemma invalidate_then_run (invalidate : M (W * list os_event) unit)
    (prepare : result command) (env : gmap string string)
    (logfile : string) (w : W) :
  extends (fun e => is_execution e = false) invalidate ->
  invalidates_once_before_executing invalidate
    (run invalidate ;;
     do cmd <- lift_result prepare ;;
     _RunCommandForOutputAndLog cmd env logfile 60) w.
Proof.
  intros Hinv. unfold invalidates_once_before_executing, bind.
  destruct (Hinv w []) as (delta & Hdelta & Hall). simpl in Hdelta.
  destruct (invalidate (w, [])) as [[[]|e] [w1 inv]]; cbn [fst snd] in *; subst inv.
  - unfold lift_result. destruct prepare as [cmd|e].
    + destruct (RunCommandForOutputAndLog_record cmd env logfile 60 w1 delta)
        as (rest & Heq & Hrest).
      exists (EvPopen cmd :: rest).
      assert (List.filter is_execution rest = []) as Hnone.
      { clear Heq. induction Hrest as [|x l [_ Hx] _ IH]; simpl; [reflexivity|].
        now rewrite Hx. }
      split; [exact Heq|]. split; [exact Hall|].
      split.
      { constructor; [reflexivity|].
        eapply Forall_impl; [exact Hrest|]. now intros x [Hx _]. }
      simpl. rewrite Hnone. simpl.
      split; [lia|]. split; [auto | discriminate].
    + exists []. simpl. rewrite app_nil_r.
      split; [reflexivity|]. split; [exact Hall|]. split; [constructor|].
      split; [lia|]. split; discriminate.
  - exists []. simpl. rewrite app_nil_r.
    split; [reflexivity|]. split; [exact Hall|]. split; [constructor|].
    split; [lia|]. split; [discriminate|]. intros e0 [= ->]. auto.
Qed.
End Traces.

Lemma filter_app_none {A} (f : A -> bool) (l delta : list A) :
  Forall (fun x => f x = false) delta ->
  List.filter f (l ++ delta) = List.filter f l.
Proof.
  intros Hnone. rewrite List.filter_app.
  replace (List.filter f delta) with (@nil A); [now rewrite app_nil_r|].
  induction Hnone as [|x xs Hx _ IH]; simpl; [reflexivity|]. now rewrite Hx.
Qed.

(** [_EmptyDexCache] is the loop over the cache directories with the named
    bodies, in any world. *)
Lemma EmptyDexCache_loops {W : Type} {pylib : PyLib} {os : OS W}
    (self : HostTestEnv.t) :
  HostTestEnv._EmptyDexCache (W := W) self
    = for_each (_DexArchCachePaths (HostTestEnv._env_path self)) empty_arch_cache.
Proof. reflexivity. Qed.

Lemma Device_EmptyDexCache_loop {W : Type} {pylib : PyLib} {os : OS W}
    (self : DeviceTestEnv.t) :
  DeviceTestEnv._EmptyDexCache (W := W) self
    = for_each (_DexArchCachePaths (DeviceTestEnv._device_env_path self))
               (remove_on_device (DeviceTestEnv._logfile self)).
Proof. reflexivity. Qed.

Section HostTraces.
Context {W : Type} {pylib : PyLib} {os : OS W}.
Import HostTestEnv.

Lemma remove_if_file_extends (d name : string) :
  extends (fun e => is_invalidation e = true /\ is_listdir e = false)
          (remove_if_file d name).
Proof.
  unfold remove_if_file. apply extends_bind.
  - apply extends_recorded. auto.
  - intros [|]; [apply extends_recorded; auto | apply extends_ret].
Qed.

Lemma empty_arch_cache_extends (d : string) :
  extends (fun e => is_invalidation e = true) (empty_arch_cache d).
Proof.
  unfold empty_arch_cache. apply extends_bind.
  - apply extends_recorded. reflexivity.
  - intros names. apply extends_for_each. intros name w log.
    destruct (remove_if_file_extends d name w log) as (delta & Heq & Hall).
    exists delta. split; [exact Heq|].
    eapply Forall_impl; [exact Hall|]. now intros e [He _].
Qed.

(** Emptying one cache directory lists that directory once. *)
Lemma empty_arch_cache_listdir (d : string) (w : W) (log : list os_event) :
  List.filter is_listdir (snd (snd (empty_arch_cache d (w, log))))
    = (List.filter is_listdir log ++ [EvListdir d])%list.
Proof.
  unfold empty_arch_cache, bind.
  cbn [os_listdir RecordingOS]. rewrite recorded_run.
  destruct (os_listdir d w) as [[names|e] w1]; cbn [fst snd].
  - destruct (extends_for_each
                (fun e => is_invalidation e = true /\ is_listdir e = false)
                names (remove_if_file d) (remove_if_file_extends d)
                w1 (log ++ [EvListdir d])%list) as (delta & -> & Hall).
    rewrite filter_app_none.
    + now rewrite List.filter_app.
    + eapply Forall_impl; [exact Hall|]. now intros e [_ He].
  - now rewrite List.filter_app.
Qed.

(** One invalidation lists the cache directories in order, each at most
    once, and all of them if it completes. *)
Lemma host_sweep (paths : list string) :
  forall w log,
  exists swept,
    List.filter is_listdir (snd (snd (for_each paths empty_arch_cache (w, log))))
      = (List.filter is_listdir log ++ map EvListdir swept)%list /\
    swept `prefix_of` paths /\
    (fst (for_each paths empty_arch_cache (w, log)) = Ok tt -> swept = paths).
Proof.
  induction paths as [|d ds IH]; intros w log.
  - exists []. simpl. rewrite app_nil_r. repeat split. reflexivity.
  - cbn [for_each]. unfold bind.
    pose proof (empty_arch_cache_listdir d w log) as Hd.
    destruct (empty_arch_cache d (w, log)) as [[[]|e] [w1 log1]]; cbn [fst snd] in *.
    + destruct (IH w1 log1) as (swept & Heq & Hpre & Hall).
      exists (d :: swept). rewrite Heq, Hd, <- app_assoc.
      split; [reflexivity|]. split; [now apply prefix_cons|].
      intros Hok. now rewrite (Hall Hok).
    + exists [d]. rewrite Hd.
      split; [reflexivity|]. split; [|discriminate].
      exists ds. reflexivity.
Qed.

Lemma Host_RunCommand_cold (self : t) (cmd : string) (w : W) :
  invalidates_once_before_executing
    (_EmptyDexCache self) (RunCommand self cmd) w /\
  exists swept,
    List.filter is_listdir (snd (snd (RunCommand self cmd (w, []))))
      = map EvListdir swept /\
    swept `prefix_of` _DexArchCachePaths (_env_path self) /\
    (forall a, fst (RunCommand self cmd (w, [])) = Ok a ->
       swept = _DexArchCachePaths (_env_path self)).
Proof.
  assert (invalidates_once_before_executing
            (_EmptyDexCache self) (RunCommand self cmd) w) as Hcold.
  { apply (invalidate_then_run (_EmptyDexCache self) (Ok (CmdString cmd))
             (_shell_env self) (_logfile self) w).
    rewrite EmptyDexCache_loops. apply extends_for_each. intros d w0 log.
    destruct (empty_arch_cache_extends d w0 log) as (delta & Heq & Hall).
    exists delta. split; [exact Heq|].
    eapply Forall_impl; [exact Hall|]. now intros [] He. }
  split; [exact Hcold|].
  destruct Hcold as (execution & Htrace & _ & Hexec & _ & Hok & _).
  destruct (host_sweep (_DexArchCachePaths (_env_path self)) w [])
    as (swept & Heq & Hpre & Hall).
  rewrite <- EmptyDexCache_loops in Heq, Hall.
  exists swept. rewrite Htrace, filter_app_none.
  - split; [exact Heq|]. split; [exact Hpre|].
    intros a Ha. apply Hall. now apply (Hok a).
  - eapply Forall_impl; [exact Hexec|]. now intros [] He.
Qed.
End HostTraces.

Section DeviceTraces.
Context {W : Type} {pylib : PyLib} {os : OS W}.
Import DeviceTestEnv.

Lemma remove_on_device_extends (logfile d : string) :
  extends (fun e => is_invalidation e = true) (remove_on_device logfile d).
Proof.
  unfold remove_on_device. apply extends_bind.
  - apply extends_lift_result.
  - intros argv. apply extends_recorded. reflexivity.
Qed.

Lemma remove_on_device_step (logfile d : string) (w : W) (log : list os_event) :
  remove_on_device logfile d (w, log) =
  match shlex_split (empty_cache_cmd d) with
  | Ok argv =>
      (fst (check_call argv logfile w),
       (snd (check_call argv logfile w), (log ++ [EvCheckCall argv])%list))
  | Raise e => (Raise e, (w, log))
  end.
Proof.
  unfold remove_on_device, bind, lift_result.
  destruct (shlex_split (empty_cache_cmd d)) as [argv|e]; [|reflexivity].
  cbn [check_call RecordingOS]. apply recorded_run.
Qed.

(** One invalidation issues the removal command of each cache directory in
    order, each at most once, and all of them if it completes. *)
Lemma device_sweep (logfile : string) (paths : list string) :
  forall w log,
  exists swept argvs,
    List.filter is_check_call
      (snd (snd (for_each paths (remove_on_device logfile) (w, log))))
      = (List.filter is_check_call log ++ map EvCheckCall argvs)%list /\
    Forall2 (fun d argv => shlex_split (empty_cache_cmd d) = Ok argv) swept argvs /\
    swept `prefix_of` paths /\
    (fst (for_each paths (remove_on_device logfile) (w, log)) = Ok tt ->
       swept = paths).
Proof.
  induction paths as [|d ds IH]; intros w log.
  - exists [], []. simpl. rewrite app_nil_r.
    split; [reflexivity|]. split; [constructor|]. split; reflexivity.
  - cbn [for_each]. unfold bind. rewrite remove_on_device_step.
    destruct (shlex_split (empty_cache_cmd d)) as [argv|e] eqn:Hsplit.
    + destruct (check_call argv logfile w) as [[[]|e] w1]; cbn [fst snd].
      * destruct (IH w1 (log ++ [EvCheckCall argv])%list)
          as (swept & argvs & Heq & Hsplits & Hpre & Hall).
        exists (d :: swept), (argv :: argvs).
        rewrite Heq, List.filter_app, <- app_assoc.
        split; [reflexivity|]. split; [now constructor|].
        split; [now apply prefix_cons|].
        intros Hok. now rewrite (Hall Hok).
      * exists [d], [argv]. rewrite List.filter_app.
        split; [reflexivity|]. split; [repeat constructor; assumption|].
        split; [exists ds; reflexivity | discriminate].
    + exists [], []. simpl. rewrite app_nil_r.
      split; [reflexivity|]. split; [constructor|].
      split; [apply prefix_nil | discriminate].
Qed.

Lemma Device_RunCommand_cold (self : t) (cmd : string) (w : W) :
  invalidates_once_before_executing
    (_EmptyDexCache self) (RunCommand self cmd) w /\
  exists swept argvs,
    List.filter is_check_call (snd (snd (RunCommand self cmd (w, []))))
      = map EvCheckCall argvs /\
    Forall2 (fun d argv => shlex_split (empty_cache_cmd d) = Ok argv) swept argvs /\
    swept `prefix_of` _DexArchCachePaths (_device_env_path self) /\
    (forall a, fst (RunCommand self cmd (w, [])) = Ok a ->
       swept = _DexArchCachePaths (_device_env_path self)).
Proof.
  pose (prepare :=
          match shlex_split (adb_shell_cmd self cmd) with
          | Ok argv => Ok (CmdArgv argv)
          | Raise e => Raise e
          end).
  assert (forall s : W * list os_event,
            RunCommand self cmd s =
            (run _EmptyDexCache self ;;
             do c <- lift_result prepare ;;
             _RunCommandForOutputAndLog c (_shell_env self) (_logfile self) 60) s)
    as Hshape.
  { intros s. unfold RunCommand, bind, lift_result, prepare.
    destruct (_EmptyDexCache self s) as [[[]|e] s1]; [|reflexivity].
    destruct (shlex_split (adb_shell_cmd self cmd)); reflexivity. }
  assert (invalidates_once_before_executing
            (_EmptyDexCache self) (RunCommand self cmd) w) as Hcold.
  { unfold invalidates_once_before_executing. rewrite Hshape.
    apply (invalidate_then_run (_EmptyDexCache self) prepare
             (_shell_env self) (_logfile self) w).
    rewrite Device_EmptyDexCache_loop. apply extends_for_each. intros d w0 log.
    destruct (remove_on_device_extends (_logfile self) d w0 log)
      as (delta & Heq & Hall).
    exists delta. split; [exact Heq|].
    eapply Forall_impl; [exact Hall|]. now intros [] He. }
  split; [exact Hcold|].
  destruct Hcold as (execution & Htrace & _ & Hexec & _ & Hok & _).
  destruct (device_sweep (_logfile self)
              (_DexArchCachePaths (_device_env_path self)) w [])
    as (swept & argvs & Heq & Hsplits & Hpre & Hall).
  rewrite <- Device_EmptyDexCache_loop in Heq, Hall.
  exists swept, argvs. rewrite Htrace, filter_app_none.
  - split; [exact Heq|]. split; [exact Hsplits|]. split; [exact Hpre|].
    intros a Ha. apply Hall. now apply (Hok a).
  - eapply Forall_impl; [exact Hexec|]. now intros [] He.
Qed.
End DeviceTraces.

(** C8: in both environments every RunCommand performs exactly the calls of
    one cache invalidation, all of them before the command is executed: the
    host variant lists each architecture cache directory at most once, in
    order, and the device variant issues each removal command at most once,
    in order; when RunCommand returns, every directory has been swept
    exactly once and the command has been executed exactly once, after the
    sweep; when the invalidation raises, the command is not executed. *)
Theorem RunCommand_invalidates_once_before_executing :
  (forall (W : Type) (pylib : PyLib) (os : OS W)
          (self : HostTestEnv.t) (cmd : string) (w : W),
     invalidates_once_before_executing
       (HostTestEnv._EmptyDexCache self) (HostTestEnv.RunCommand self cmd) w /\
     exists swept,
       List.filter is_listdir (snd (snd (HostTestEnv.RunCommand self cmd (w, []))))
         = map EvListdir swept /\
       swept `prefix_of` _DexArchCachePaths (HostTestEnv._env_path self) /\
       (forall a, fst (HostTestEnv.RunCommand self cmd (w, [])) = Ok a ->
          swept = _DexArchCachePaths (HostTestEnv._env_path self))) /\
  (forall (W : Type) (pylib : PyLib) (os : OS W)
          (self : DeviceTestEnv.t) (cmd : string) (w : W),
     invalidates_once_before_executing
       (DeviceTestEnv._EmptyDexCache self) (DeviceTestEnv.RunCommand self cmd) w /\
     exists swept argvs,
       List.filter is_check_call
         (snd (snd (DeviceTestEnv.RunCommand self cmd (w, []))))
         = map EvCheckCall argvs /\
       Forall2 (fun d argv =>
                  shlex_split (DeviceTestEnv.empty_cache_cmd d) = Ok argv)
               swept argvs /\
       swept `prefix_of` _DexArchCachePaths (DeviceTestEnv._device_env_path self) /\
       (forall a, fst (DeviceTestEnv.RunCommand self cmd (w, [])) = Ok a ->
          swept = _DexArchCachePaths (DeviceTestEnv._device_env_path self))).
Proof.
  split; intros W pylib os self cmd w.
  - apply Host_RunCommand_cold.
  - apply Device_RunCommand_cold.
Qed.


(** A host run on a disk with stale files: the caches are listed in order,
    the regular files in them removed, and the command runs last, on a disk
    whose caches hold no regular file. *)
Example Host_RunCommand_on_stale_disk :
  exists text,
    HostTestEnv.RunCommand (pylib := Double.lib)
      (os := RecordingOS (os := Double.fake_os))
      Double.host_env "dalvikvm32 Test" (Double.stale_disk, [])
    = (Ok ("out", "err", 0),
       ({| Double.regular := ["/tmp/b/log"];
           Double.directories := Double.directories Double.stale_disk |},
        [ EvListdir "/tmp/b/dalvik-cache/arm";
          EvIsfile "/tmp/b/dalvik-cache/arm/a.oat";
          EvUnlink "/tmp/b/dalvik-cache/arm/a.oat";
          EvIsfile "/tmp/b/dalvik-cache/arm/sub";
          EvListdir "/tmp/b/dalvik-cache/arm64";
          EvListdir "/tmp/b/dalvik-cache/x86";
          EvIsfile "/tmp/b/dalvik-cache/x86/b.oat";
          EvUnlink "/tmp/b/dalvik-cache/x86/b.oat";
          EvListdir "/tmp/b/dalvik-cache/x86_64";
          EvPopen (CmdString "dalvikvm32 Test");
          EvWrite "/tmp/b/log" text ])).
Proof. eexists. vm_compute. reflexivity. Qed.

(** A device run: four removal commands, then the adb shell command. *)
Example Device_RunCommand_calls :
  exists rm1 rm2 rm3 rm4 argv text,
    DeviceTestEnv.RunCommand (pylib := Double.lib)
      (os := RecordingOS (os := Double.fake_os))
      Double.device_env "ab" (Double.stale_disk, [])
    = (Ok ("out", "err", 0),
       (Double.stale_disk,
        [ EvCheckCall rm1; EvCheckCall rm2; EvCheckCall rm3; EvCheckCall rm4;
          EvPopen (CmdArgv argv); EvWrite "/tmp/b/log" text ])).
Proof. do 6 eexists. vm_compute. reflexivity. Qed.

(** When the cache cannot be listed the command is not run. *)
Example Host_RunCommand_without_cache :
  HostTestEnv.RunCommand (pylib := Double.lib)
    (os := RecordingOS (os := Double.fake_os))
    Double.host_env "dalvikvm32 Test"
    ({| Double.regular := []; Double.directories := [] |}, [])
  = (Raise (OtherError "OSError"),
     ({| Double.regular := []; Double.directories := [] |},
      [ EvListdir "/tmp/b/dalvik-cache/arm" ])).
Proof. vm_compute. reflexivity. Qed.

(** ** Further facts about the two stages *)

(** The constructor of the testable creates its two files in the
    environment; on the double this gives [Double.fake_testable]. *)
Example init_on_double :
  Dex2OatWrapperTestable.__init__
    "dalvikvm32" (Double.fake_env Double.healthy) "Test" (Some "good") false
    Double.empty_world
  = (Ok (Double.fake_testable Double.healthy (Some "good")), Double.empty_world).
Proof. reflexivity. Qed.

(** If every probe on a proper prefix of the method list passes, stage one
    ends at the length of the list and BugSearch finds nothing.  The full
    list itself is never probed. *)
Lemma BugSearch_passing_prefixes {W} (testable : ITestable.t W)
    (all_methods : list string) (w w1 : W) :
  ITestable.GetAllMethods testable w = (Ok all_methods, w1) ->
  (forall i w0, 0 <= i < len all_methods ->
     fst (ITestable.Test testable (Some (firstn (Z.to_nat i) all_methods)) None w0)
       = Ok true) ->
  fst (BugSearch testable w) = Ok (None, None).
Proof.
  intros Hms Hpass.
  assert (fst (BinarySearch 0 (len all_methods)
                 (method_probe testable all_methods) w1) = Ok (len all_methods))
    as Hone.
  { apply BinarySearch_cutoff.
    - unfold len. lia.
    - intros i w0 Hi. unfold method_probe.
      rewrite py_slice_to_firstn by lia. now apply Hpass.
    - intros i w0 Hi. lia. }
  apply fst_run in Hone.
  now rewrite (BugSearch_no_bug testable w w1 _ all_methods Hms Hone).
Qed.

(** Stage one on the doubles: a fault that needs m0 ends it at 1, a healthy
    program at 2, the number of methods. *)
Example stage_one_on_doubles :
  fst (BinarySearch 0 2
         (method_probe (Double.fake Double.faulty_last_pass (Some "good"))
                       ["m0"; "m1"])
         Double.empty_world) = Ok 1 /\
  fst (BinarySearch 0 2
         (method_probe (Double.fake Double.healthy (Some "good")) ["m0"; "m1"])
         Double.empty_world) = Ok 2.
Proof. split; vm_compute; reflexivity. Qed.

(** * More of the code: properties *)

(** ** BinarySearch: cost, boundary, exceptions *)

Lemma mid_double (start end_ : Z) :
  2 * ((start + end_) / 2) <= start + end_ < 2 * ((start + end_) / 2) + 2.
Proof.
  pose proof (Z.div_mod (start + end_) 2 ltac:(lia)) as Hdm.
  pose proof (Z.mod_pos_bound (start + end_) 2 ltac:(lia)) as Hmod.
  lia.
Qed.

(** The probes of a logged search, whatever the record was before. *)
Lemma BinarySearch_logged_probes {W} (test : Z -> M W bool) (k : nat) :
  forall start end_ w log0,
    end_ - start < 2 ^ Z.of_nat k ->
    exists probes,
      snd (snd (BinarySearch start end_ (logged test) (w, log0)))
        = (log0 ++ probes)%list /\
      (length probes <= k)%nat /\
      Forall (fun i => start <= i < end_) probes /\
      NoDup probes.
Proof.
  induction k as [|k IH]; intros start end_ w log0 Hwidth.
  - rewrite BinarySearch_empty by (simpl in Hwidth; lia).
    exists []. simpl. rewrite app_nil_r.
    split; [reflexivity|]. split; [lia|]. split; constructor.
  - rewrite BinarySearch_step.
    destruct (Z_lt_dec start end_) as [Hlt | Hge].
    + pose proof (mid_bounds start end_ Hlt) as Hmid.
      pose proof (mid_double start end_) as Hdbl.
      assert (2 ^ Z.of_nat (S k) = 2 * 2 ^ Z.of_nat k) as Hpow
        by (rewrite Nat2Z.inj_succ, Z.pow_succ_r by lia; reflexivity).
      unfold logged at 1. rewrite recorded_run.
      destruct (test ((start + end_) / 2) w) as [[[|]|e] w1]; cbn [fst snd].
      * destruct (IH ((start + end_) / 2 + 1) end_ w1
                    (log0 ++ [(start + end_) / 2])%list ltac:(lia))
          as (probes & Heq & Hlen & Hall & Hnd).
        exists ((start + end_) / 2 :: probes). rewrite Heq, <- app_assoc.
        split; [reflexivity|]. split; [simpl; lia|]. split.
        -- constructor; [lia|]. eapply Forall_impl; [exact Hall|].
           simpl. intros; lia.
        -- constructor; [|exact Hnd]. intros Hin.
           rewrite Forall_forall in Hall. apply Hall in Hin. lia.
      * destruct (IH start ((start + end_) / 2) w1
                    (log0 ++ [(start + end_) / 2])%list ltac:(lia))
          as (probes & Heq & Hlen & Hall & Hnd).
        exists ((start + end_) / 2 :: probes). rewrite Heq, <- app_assoc.
        split; [reflexivity|]. split; [simpl; lia|]. split.
        -- constructor; [lia|]. eapply Forall_impl; [exact Hall|].
           simpl. intros; lia.
        -- constructor; [|exact Hnd]. intros Hin.
           rewrite Forall_forall in Hall. apply Hall in Hin. lia.
      * exists [(start + end_) / 2].
        split; [reflexivity|]. split; [simpl; lia|]. split.
        -- constructor; [lia | constructor].
        -- constructor; [intros Hin; inversion Hin | constructor].
    + exists []. simpl. rewrite app_nil_r.
      split; [reflexivity|]. split; [lia|]. split; constructor.
Qed.

(** X1: on an interval of width below [2 ^ k] BinarySearch calls the test at
    most [k] times, whatever the test answers. *)
Theorem BinarySearch_probe_count {W} (test : Z -> M W bool)
    (start end_ : Z) (w : W) (k : nat) :
  end_ - start < 2 ^ Z.of_nat k ->
  (length (snd (snd (BinarySearch start end_ (logged test) (w, [])))) <= k)%nat.
Proof.
  intros Hwidth.
  destruct (BinarySearch_logged_probes test k start end_ w [] Hwidth)
    as (probes & Heq & Hlen & _).
  rewrite Heq. simpl. exact Hlen.
Qed.

Lemma BinarySearch_probe_count_witness :
  (length (snd (snd (BinarySearch 0%Z 1000%Z
                       (logged (pure_test (fun i => (i <? 617)%Z))) (tt, []))))
     <= 10)%nat.
Proof.
  apply (BinarySearch_probe_count (pure_test (fun i => i <? 617)) 0 1000 tt 10).
  vm_compute. reflexivity.
Defined.

(** X2: BinarySearch never calls the test twice at the same index. *)
Theorem BinarySearch_probes_distinct {W} (test : Z -> M W bool)
    (start end_ : Z) (w : W) :
  NoDup (snd (snd (BinarySearch start end_ (logged test) (w, [])))).
Proof.
  assert (end_ - start < 2 ^ Z.of_nat (Z.to_nat (end_ - start))) as Hwidth.
  { destruct (Z_lt_dec 0 (end_ - start)) as [Hpos | Hneg].
    - rewrite Z2Nat.id by lia. apply Z.pow_gt_lin_r; lia.
    - replace (Z.to_nat (end_ - start)) with O by lia. simpl. lia. }
  destruct (BinarySearch_logged_probes test _ start end_ w [] Hwidth)
    as (probes & Heq & _ & _ & Hnd).
  rewrite Heq. exact Hnd.
Qed.

(** X3: for a test that answers by a predicate [f], monotone or not, the
    result [r] is a boundary of [f]: the test passed just below [r] (unless
    [r] is [start]) and failed at [r] (unless [r] is [end_]). *)
Theorem BinarySearch_result_is_boundary {W} (test : Z -> M W bool) (f : Z -> bool) :
  forall start end_,
    start <= end_ ->
    (forall i w, start <= i < end_ -> fst (test i w) = Ok (f i)) ->
    forall w, exists r,
      fst (BinarySearch start end_ test w) = Ok r /\
      start <= r <= end_ /\
      (start < r -> f (r - 1) = true) /\
      (r < end_ -> f r = false).
Proof.
  intros start end_. pattern start, end_. apply interval_ind.
  clear start end_. intros start end_ IH Hle Hf w.
  rewrite BinarySearch_step.
  destruct (Z_lt_dec start end_) as [Hlt | Hge].
  - narrow_interval.
    specialize (Hf ((start + end_) / 2) w ltac:(lia)) as Hprobe.
    destruct (test ((start + end_) / 2) w) as [res w1]. simpl in Hprobe. subst res.
    destruct (f ((start + end_) / 2)) eqn:Hmid.
    + destruct (IH ((start + end_) / 2 + 1) end_ ltac:(lia) ltac:(lia)
                  ltac:(intros i w0 Hi; apply Hf; lia) w1)
        as (r & Hr & Hrange & Hbelow & Hat).
      exists r. split; [exact Hr|]. split; [lia|]. split; [|exact Hat].
      intros _. destruct (Z.eq_dec r ((start + end_) / 2 + 1)) as [-> | Hne].
      * now replace ((start + end_) / 2 + 1 - 1) with ((start + end_) / 2) by lia.
      * apply Hbelow. lia.
    + destruct (IH start ((start + end_) / 2) ltac:(lia) ltac:(lia)
                  ltac:(intros i w0 Hi; apply Hf; lia) w1)
        as (r & Hr & Hrange & Hbelow & Hat).
      exists r. split; [exact Hr|]. split; [lia|]. split; [exact Hbelow|].
      intros _. destruct (Z.eq_dec r ((start + end_) / 2)) as [-> | Hne].
      * exact Hmid.
      * apply Hat. lia.
  - exists start. simpl. split; [reflexivity|]. split; [lia|]. split; intros; lia.
Qed.

Lemma BinarySearch_result_is_boundary_witness :
  exists r,
    fst (BinarySearch 0 9 (pure_test Z.even) tt) = Ok r /\
    0 <= r <= 9 /\
    (0 < r -> Z.even (r - 1) = true) /\
    (r < 9 -> Z.even r = false).
Proof.
  apply (BinarySearch_result_is_boundary (pure_test Z.even) Z.even 0 9).
  - lia.
  - intros i w Hi. reflexivity.
Defined.

(** An exception of the search is the exception of one of its probes, and
    the world is the one that probe left. *)
Lemma BinarySearch_raise_from_probe {W} (test : Z -> M W bool) :
  forall start end_ w e w',
    BinarySearch start end_ test w = (Raise e, w') ->
    exists i w0, start <= i < end_ /\ test i w0 = (Raise e, w').
Proof.
  intros start end_. pattern start, end_. apply interval_ind.
  clear start end_. intros start end_ IH w e w'.
  rewrite BinarySearch_step.
  destruct (Z_lt_dec start end_) as [Hlt | Hge]; [|discriminate].
  narrow_interval.
  destruct (test ((start + end_) / 2) w) as [[[|]|e0] w1] eqn:Hprobe; intros Hrun.
  - apply IH in Hrun; [|lia]. destruct Hrun as (i & w0 & Hi & Hraise).
    exists i, w0. split; [lia | exact Hraise].
  - apply IH in Hrun; [|lia]. destruct Hrun as (i & w0 & Hi & Hraise).
    exists i, w0. split; [lia | exact Hraise].
  - injection Hrun as <- <-. exists ((start + end_) / 2), w. split; [lia | exact Hprobe].
Qed.

(** X4: when BinarySearch raises, the exception is the one raised by the
    last call of the test, at an index in [[start, end_)]; the search stops
    there and leaves the world as that call left it. *)
Theorem BinarySearch_raises_at_last_probe {W} (test : Z -> M W bool) :
  forall start end_ w log0 e w' log,
    BinarySearch start end_ (logged test) (w, log0) = (Raise e, (w', log)) ->
    exists earlier i w0,
      log = (log0 ++ earlier ++ [i])%list /\
      start <= i < end_ /\
      test i w0 = (Raise e, w').
Proof.
  intros start end_. pattern start, end_. apply interval_ind.
  clear start end_. intros start end_ IH w log0 e w' log.
  rewrite BinarySearch_step.
  destruct (Z_lt_dec start end_) as [Hlt | Hge]; [|discriminate].
  narrow_interval. unfold logged at 1. rewrite recorded_run.
  destruct (test ((start + end_) / 2) w) as [[[|]|e0] w1] eqn:Hprobe;
    cbn [fst snd]; intros Hrun.
  - apply IH in Hrun; [|lia]. destruct Hrun as (earlier & i & w0 & -> & Hi & Hraise).
    exists ((start + end_) / 2 :: earlier), i, w0.
    rewrite <- app_assoc. split; [reflexivity|]. split; [lia | exact Hraise].
  - apply IH in Hrun; [|lia]. destruct Hrun as (earlier & i & w0 & -> & Hi & Hraise).
    exists ((start + end_) / 2 :: earlier), i, w0.
    rewrite <- app_assoc. split; [reflexivity|]. split; [lia | exact Hraise].
  - injection Hrun as <- <- <-. exists [], ((start + end_) / 2), w.
    split; [reflexivity|]. split; [lia | exact Hprobe].
Qed.

Lemma BinarySearch_raises_at_last_probe_witness :
  exists earlier i w0,
    [2; 3] = ([] ++ earlier ++ [i])%list /\
    0 <= i < 4 /\
    Fixture.raising_at_three i w0 = (Raise (OtherError "probe failed"), 2%nat).
Proof.
  apply (BinarySearch_raises_at_last_probe Fixture.raising_at_three
           0 4 O [] (OtherError "probe failed") 2%nat [2; 3]).
  vm_compute. reflexivity.
Defined.

(** ** FilterPasses: shape of the result *)

Lemma filtered_split (cutoff_idx : Z) (passes : list string) :
  forall n,
    filtered cutoff_idx n passes =
    (firstn (Z.to_nat (cutoff_idx - n)) passes ++
     List.filter mandatory (skipn (Z.to_nat (cutoff_idx - n)) passes))%list.
Proof.
  induction passes as [|p ps IH]; intros n.
  - now rewrite firstn_nil, skipn_nil.
  - rewrite filtered_cons, IH.
    destruct (Z.ltb_spec n cutoff_idx) as [Hlt | Hge].
    + rewrite orb_true_r.
      replace (Z.to_nat (cutoff_idx - n)) with (S (Z.to_nat (cutoff_idx - (n + 1))))
        by lia.
      reflexivity.
    + rewrite orb_false_r.
      replace (Z.to_nat (cutoff_idx - n)) with O by lia.
      replace (Z.to_nat (cutoff_idx - (n + 1))) with O by lia.
      cbn [firstn skipn app List.filter]. unfold mandatory.
      destruct (py_in p MANDATORY_PASSES); reflexivity.
Qed.

(** X5: the result of FilterPasses is the prefix of the pass list up to the
    cutoff followed by the mandatory passes of the rest, in their order; a
    negative cutoff counts as 0. *)
Theorem FilterPasses_prefix_then_mandatory (passes : list string) (cutoff_idx : Z) :
  FilterPasses passes cutoff_idx =
  (firstn (Z.to_nat cutoff_idx) passes ++
   List.filter (fun p => py_in p MANDATORY_PASSES)
               (skipn (Z.to_nat cutoff_idx) passes))%list.
Proof.
  rewrite FilterPasses_enumerate.
  change (map snd (List.filter (kept cutoff_idx) (enumerate passes)))
    with (filtered cutoff_idx 0 passes).
  rewrite filtered_split, Z.sub_0_r. reflexivity.
Qed.

Lemma filtered_monotone (c1 c2 : Z) (passes : list string) :
  c1 <= c2 ->
  forall n, sublist (filtered c1 n passes) (filtered c2 n passes).
Proof.
  intros Hle. induction passes as [|p ps IH]; intros n.
  - constructor.
  - rewrite !filtered_cons.
    destruct (py_in p MANDATORY_PASSES); cbn [orb].
    + apply sublist_skip, IH.
    + destruct (Z.ltb_spec n c1) as [H1 | H1];
        destruct (Z.ltb_spec n c2) as [H2 | H2]; try lia.
      * apply sublist_skip, IH.
      * apply sublist_cons, IH.
      * apply IH.
Qed.

(** X6: a larger cutoff keeps at least the same passes: for [c1 <= c2] the
    result at [c1] is a subsequence of the result at [c2]. *)
Theorem FilterPasses_monotone (passes : list string) (c1 c2 : Z) :
  c1 <= c2 ->
  sublist (FilterPasses passes c1) (FilterPasses passes c2).
Proof.
  intros Hle. rewrite !FilterPasses_enumerate.
  change (sublist (filtered c1 0 passes) (filtered c2 0 passes)).
  now apply filtered_monotone.
Qed.

Lemma FilterPasses_monotone_witness :
  sublist
    (FilterPasses ["inliner"; "pc_relative_fixups_x86"; "dce"; "licm"] 1)
    (FilterPasses ["inliner"; "pc_relative_fixups_x86"; "dce"; "licm"] 3).
Proof.
  apply (FilterPasses_monotone
           ["inliner"; "pc_relative_fixups_x86"; "dce"; "licm"] 1 3).
  lia.
Defined.

(** X7: at the two ends of the range, a cutoff of 0 or less leaves exactly
    the mandatory passes of the list, and a cutoff of the length of the
    list or more leaves the list as it is. *)
Theorem FilterPasses_at_the_ends (passes : list string) (cutoff_idx : Z) :
  (cutoff_idx <= 0 ->
   FilterPasses passes cutoff_idx
     = List.filter (fun p => py_in p MANDATORY_PASSES) passes) /\
  (len passes <= cutoff_idx -> FilterPasses passes cutoff_idx = passes).
Proof.
  rewrite FilterPasses_enumerate.
  change (map snd (List.filter (kept cutoff_idx) (enumerate passes)))
    with (filtered cutoff_idx 0 passes).
  rewrite filtered_split, Z.sub_0_r. split; intros Hc.
  - replace (Z.to_nat cutoff_idx) with O by lia. reflexivity.
  - unfold len in Hc.
    rewrite firstn_all2, skipn_all2 by lia.
    cbn [List.filter]. apply app_nil_r.
Qed.

(** ** BugSearch: what it reports, what it raises, what it calls *)

Lemma py_index_in_range {A} (l : list A) (i : Z) :
  0 <= i < len l -> exists x, py_index l i = Ok x /\ nth_error l (Z.to_nat i) = Some x.
Proof.
  intros Hi. unfold len in Hi.
  destruct (nth_error l (Z.to_nat i)) as [x|] eqn:Hnth.
  - exists x. split; [|reflexivity]. apply py_index_nth; [lia | exact Hnth].
  - apply nth_error_None in Hnth. lia.
Qed.

(** X8: the two stages compose.  For a testable whose probe on the method
    prefix of length [i] passes exactly for [i < k1], with [0 < k1 < N], and
    whose probe on [FilterPasses passes j] for the method at index [k1 - 1]
    passes exactly for [j < j1], with [0 < j1 < M], BugSearch reports the
    method at index [k1 - 1] and the pass at index [j1 - 1]. *)
Theorem BugSearch_locates_method_and_pass {W} (testable : ITestable.t W)
    (all_methods all_passes : list string) (k1 j1 : Z) (m p : string) :
  (forall w, fst (ITestable.GetAllMethods testable w) = Ok all_methods) ->
  0 < k1 < len all_methods ->
  (forall i w, 0 <= i < len all_methods ->
     fst (ITestable.Test testable (Some (firstn (Z.to_nat i) all_methods)) None w)
       = Ok (i <? k1)) ->
  nth_error all_methods (Z.to_nat (k1 - 1)) = Some m ->
  (forall w, fst (ITestable.GetAllPassesForMethod testable m w) = Ok all_passes) ->
  0 < j1 < len all_passes ->
  (forall j w, 0 <= j < len all_passes ->
     fst (ITestable.Test testable (Some [m]) (Some (FilterPasses all_passes j)) w)
       = Ok (j <? j1)) ->
  nth_error all_passes (Z.to_nat (j1 - 1)) = Some p ->
  forall w, fst (BugSearch testable w) = Ok (Some m, Some p).
Proof.
  intros Hms Hk1 Hprobe1 Hm Hps Hj1 Hprobe2 Hp w.
  pose proof (fst_run _ w _ (Hms w)) as Hrun0.
  set (w1 := snd (ITestable.GetAllMethods testable w)) in *.
  assert (fst (BinarySearch 0 (len all_methods)
                 (method_probe testable all_methods) w1) = Ok k1) as Hone.
  { apply BinarySearch_cutoff; [lia | |];
      intros i w0 Hi; unfold method_probe;
      rewrite py_slice_to_firstn by lia; rewrite Hprobe1 by lia; f_equal;
      [apply Z.ltb_lt | apply Z.ltb_ge]; lia. }
  apply fst_run in Hone.
  set (w2 := snd (BinarySearch 0 _ _ w1)) in *.
  pose proof (fst_run _ w2 _ (Hps w2)) as Hrun2.
  set (w3 := snd (ITestable.GetAllPassesForMethod testable m w2)) in *.
  assert (fst (BinarySearch 0 (len all_passes)
                 (pass_probe testable m all_passes) w3) = Ok j1) as Htwo.
  { apply BinarySearch_cutoff; [lia | |];
      intros j w0 Hj; unfold pass_probe; rewrite Hprobe2 by lia; f_equal;
      [apply Z.ltb_lt | apply Z.ltb_ge]; lia. }
  apply fst_run in Htwo.
  assert (k1 <> len all_methods) as Hne1 by lia.
  assert (k1 <> 0) as Hne2 by lia.
  assert (0 <= k1 - 1) as Hpos1 by lia.
  assert (0 <= j1 - 1) as Hpos2 by lia.
  rewrite (BugSearch_stage_two testable w w1 w2 w3 _ all_methods all_passes k1 j1 m
             Hrun0 Hone Hne1 Hne2 (py_index_nth _ _ _ Hpos1 Hm) Hrun2 Htwo).
  destruct (Z.eqb_spec j1 0); [lia|].
  destruct (Z.eqb_spec j1 (len all_passes)); [lia|].
  rewrite (py_index_nth _ _ _ Hpos2 Hp). reflexivity.
Qed.

Lemma BugSearch_locates_method_and_pass_witness :
  fst (BugSearch Double.synthetic_testable O) = Ok (Some "m1", Some "p0").
Proof.
  refine (BugSearch_locates_method_and_pass Double.synthetic_testable
            ["m0"; "m1"; "m2"; "m3"] ["p0"; "p1"; "p2"] 2 1 "m1" "p0"
            _ _ _ _ _ _ _ _ O).
  - reflexivity.
  - unfold len; simpl; lia.
  - intros i w Hi. unfold len in Hi; simpl in Hi.
    assert (i = 0 \/ i = 1 \/ i = 2 \/ i = 3) as Hcases by lia.
    destruct Hcases as [-> | [-> | [-> | ->]]]; reflexivity.
  - reflexivity.
  - reflexivity.
  - unfold len; simpl; lia.
  - intros j w Hj. unfold len in Hj; simpl in Hj.
    assert (j = 0 \/ j = 1 \/ j = 2) as Hcases by lia.
    destruct Hcases as [-> | [-> | ->]]; reflexivity.
  - reflexivity.
Defined.

(** X9: what BugSearch returns is well formed: a pass is never reported
    without a method, the reported method is one of the methods the testable
    listed, and the reported pass is one of the passes it listed for that
    method. *)
Theorem BugSearch_reports_listed_names {W} (testable : ITestable.t W)
    (w w' : W) (method pass : option string) :
  BugSearch testable w = (Ok (method, pass), w') ->
  (method = None -> pass = None) /\
  (forall m, method = Some m ->
     exists all_methods w1,
       ITestable.GetAllMethods testable w = (Ok all_methods, w1) /\
       In m all_methods /\
       forall p, pass = Some p ->
         exists all_passes w2 w3,
           ITestable.GetAllPassesForMethod testable m w2 = (Ok all_passes, w3) /\
           In p all_passes).
Proof.
  unfold BugSearch, bind.
  destruct (ITestable.GetAllMethods testable w) as [[all_methods|e] w1];
    [|discriminate].
  destruct (BinarySearch 0 (len all_methods) _ w1) as [[k1|e] w2]; [|discriminate].
  destruct (k1 =? len all_methods); [intros [= <- <- <-]; split; [reflexivity | discriminate]|].
  destruct (k1 =? 0); [discriminate|].
  unfold lift_result at 1.
  destruct (py_index all_methods (k1 - 1)) as [m|e] eqn:Hm; [|discriminate].
  assert (In m all_methods) as Hin.
  { unfold py_index in Hm.
    destruct (_ && _); [|discriminate].
    destruct (nth_error all_methods _) as [x|] eqn:Hnth; [|discriminate].
    injection Hm as <-. eapply nth_error_In; eassumption. }
  destruct (ITestable.GetAllPassesForMethod testable m w2) as [[all_passes|e] w3] eqn:Hps;
    [|discriminate].
  destruct (BinarySearch 0 (len all_passes) _ w3) as [[j1|e] w4]; [|discriminate].
  destruct (j1 =? 0).
  - intros [= <- <- <-]. split; [discriminate|].
    intros m0 [= <-]. exists all_methods, w1.
    split; [reflexivity|]. split; [exact Hin | discriminate].
  - unfold py_assert. destruct (negb (j1 =? len all_passes)); [|discriminate].
    unfold ret at 1, lift_result.
    destruct (py_index all_passes (j1 - 1)) as [p|e] eqn:Hp; [|discriminate].
    assert (In p all_passes) as Hinp.
    { unfold py_index in Hp.
      destruct (_ && _); [|discriminate].
      destruct (nth_error all_passes _) as [x|] eqn:Hnth; [|discriminate].
      injection Hp as <-. eapply nth_error_In; eassumption. }
    intros [= <- <- <-]. split; [discriminate|].
    intros m0 [= <-]. exists all_methods, w1.
    split; [reflexivity|]. split; [exact Hin|].
    intros p0 [= <-]. exists all_passes, w2, w3. split; [exact Hps | exact Hinp].
Qed.

Lemma BugSearch_reports_listed_names_witness :
  (Some "m1" = None -> Some "p0" = None) /\
  (forall m, Some "m1" = Some m ->
     exists all_methods w1,
       ITestable.GetAllMethods Double.synthetic_testable O = (Ok all_methods, w1) /\
       In m all_methods /\
       forall p, Some "p0" = Some p ->
         exists all_passes w2 w3,
           ITestable.GetAllPassesForMethod Double.synthetic_testable m w2
             = (Ok all_passes, w3) /\
           In p all_passes).
Proof.
  apply (BugSearch_reports_listed_names Double.synthetic_testable O 4%nat).
  vm_compute. reflexivity.
Defined.

(** X10: BugSearch adds two failures of its own, the FatalError that blames
    something outside the compiler and the failed assertion; every other
    exception it raises was raised by a method of the testable.  Its own two
    list accesses never raise IndexError. *)
Theorem BugSearch_raises_only_its_two_errors {W} (testable : ITestable.t W)
    (w w' : W) (e : exn) :
  BugSearch testable w = (Raise e, w') ->
  e = FatalError outside_compiler_msg \/
  e = AssertionError must_fail_msg \/
  testable_raises testable e.
Proof.
  unfold BugSearch, bind.
  destruct (ITestable.GetAllMethods testable w) as [[all_methods|e0] w1] eqn:Hms.
  2:{ intros [= <- <-]. right; right; left. eauto. }
  destruct (BinarySearch 0 (len all_methods) _ w1) as [[k1|e0] w2] eqn:Hone.
  2:{ intros [= <- <-]. right; right; right; left.
      apply BinarySearch_raise_from_probe in Hone.
      destruct Hone as (i & w0 & _ & Hraise). unfold method_probe in Hraise. eauto. }
  apply BinarySearch_range in Hone; [|unfold len; lia].
  destruct (Z.eqb_spec k1 (len all_methods)); [discriminate|].
  destruct (Z.eqb_spec k1 0); [intros [= <- <-]; now left|].
  destruct (py_index_in_range all_methods (k1 - 1) ltac:(lia)) as (m & Hm & _).
  unfold lift_result at 1. rewrite Hm.
  destruct (ITestable.GetAllPassesForMethod testable m w2) as [[all_passes|e0] w3] eqn:Hps.
  2:{ intros [= <- <-]. right; right; right; right. eauto. }
  destruct (BinarySearch 0 (len all_passes) _ w3) as [[j1|e0] w4] eqn:Htwo.
  2:{ intros [= <- <-]. right; right; right; left.
      apply BinarySearch_raise_from_probe in Htwo.
      destruct Htwo as (i & w0 & _ & Hraise). unfold pass_probe in Hraise. eauto. }
  apply BinarySearch_range in Htwo; [|unfold len; lia].
  destruct (Z.eqb_spec j1 0); [discriminate|].
  unfold py_assert.
  destruct (Z.eqb_spec j1 (len all_passes)); cbn [negb].
  - intros [= <- <-]. right; now left.
  - destruct (py_index_in_range all_passes (j1 - 1) ltac:(lia)) as (p & Hp & _).
    unfold ret at 1, lift_result. rewrite Hp. discriminate.
Qed.

Lemma BugSearch_raises_only_its_two_errors_witness :
  AssertionError must_fail_msg = FatalError outside_compiler_msg \/
  AssertionError must_fail_msg = AssertionError must_fail_msg \/
  testable_raises (Double.fake Double.faulty_last_pass (Some "good"))
                  (AssertionError must_fail_msg).
Proof.
  eapply (BugSearch_raises_only_its_two_errors
            (Double.fake Double.faulty_last_pass (Some "good"))
            Double.empty_world).
  vm_compute. reflexivity.
Defined.

Lemma firstn_shorter {A} (l : list A) (i : Z) :
  0 <= i < len l -> firstn (Z.to_nat i) l <> l.
Proof.
  intros Hi Heq. apply (f_equal (@length A)) in Heq.
  rewrite length_firstn in Heq. unfold len in Hi. lia.
Qed.

(** X11: the calls BugSearch makes, as a recording double sees them:
    GetAllMethods first and once, then the stage-one probes, each on a
    proper prefix of the method list with the default passes, then only
    calls of stage two.  The full method list itself is never tested. *)
Theorem BugSearch_never_tests_all_methods {W} (testable : ITestable.t W)
    (w w1 : W) (all_methods : list string) :
  ITestable.GetAllMethods testable w = (Ok all_methods, w1) ->
  exists probes stage_two,
    snd (snd (BugSearch (recording_testable testable) (w, [])))
      = (CallGetAllMethods
           :: map (fun i => CallTest (Some (firstn (Z.to_nat i) all_methods)) None)
                  probes
           ++ stage_two)%list /\
    Forall (fun i => 0 <= i < len all_methods) probes /\
    Forall (fun c => is_stage_two c = true) stage_two /\
    ~ In (CallTest (Some all_methods) None)
         (snd (snd (BugSearch (recording_testable testable) (w, [])))).
Proof.
  intros Hms.
  set (ev1 := fun i => CallTest (Some (py_slice_to all_methods i)) None).
  assert (exists probes stage_two,
            snd (snd (BugSearch (recording_testable testable) (w, [])))
              = (CallGetAllMethods :: map ev1 probes ++ stage_two)%list /\
            Forall (fun i => 0 <= i < len all_methods) probes /\
            Forall (fun c => is_stage_two c = true) stage_two) as Hshape.
  { unfold BugSearch, bind.
    cbn [recording_testable ITestable.GetAllMethods].
    rewrite recorded_run, Hms. cbn [fst snd app].
    change (method_probe (recording_testable testable) all_methods)
      with (fun i => recorded (ev1 i) (method_probe testable all_methods i)).
    destruct (BinarySearch_recorded ev1 (method_probe testable all_methods)
                0 (len all_methods) w1 [CallGetAllMethods])
      as (probes & Heq & Hall & _).
    rewrite Heq. cbn [app].
    destruct (BinarySearch 0 (len all_methods)
                (method_probe testable all_methods) w1) as [[k1|e] w2];
      cbn [fst snd];
      [|exists probes, []; rewrite app_nil_r; repeat split; auto].
    destruct (k1 =? len all_methods);
      [exists probes, []; rewrite app_nil_r; repeat split; auto|].
    destruct (k1 =? 0);
      [exists probes, []; rewrite app_nil_r; repeat split; auto|].
    unfold lift_result at 1.
    destruct (py_index all_methods (k1 - 1)) as [m|e];
      [|exists probes, []; rewrite app_nil_r; repeat split; auto].
    cbn [recording_testable ITestable.GetAllPassesForMethod].
    rewrite recorded_run.
    destruct (ITestable.GetAllPassesForMethod testable m w2) as [[all_passes|e] w3];
      cbn [fst snd];
      [|exists probes, [CallGetAllPassesForMethod m];
        split; [now rewrite <- app_comm_cons|]; split; [exact Hall|];
        repeat constructor].
    set (ev2 := fun j => CallTest (Some [m]) (Some (FilterPasses all_passes j))).
    change (pass_probe (recording_testable testable) m all_passes)
      with (fun j => recorded (ev2 j) (pass_probe testable m all_passes j)).
    match goal with
    | |- context [BinarySearch 0 (len all_passes) _ (w3, ?log1)] =>
        destruct (BinarySearch_recorded ev2 (pass_probe testable m all_passes)
                    0 (len all_passes) w3 log1)
          as (probes2 & Heq2 & _ & _)
    end.
    rewrite Heq2.
    assert (Forall (fun c => is_stage_two c = true)
              (CallGetAllPassesForMethod m :: map ev2 probes2)) as Htwo.
    { constructor; [reflexivity|]. clear. induction probes2; constructor; auto. }
    assert (exists probes0 stage_two,
              ((CallGetAllMethods
                  :: map ev1 probes ++ [CallGetAllPassesForMethod m])
                 ++ map ev2 probes2)%list
                = (CallGetAllMethods :: map ev1 probes0 ++ stage_two)%list /\
              Forall (fun i => 0 <= i < len all_methods) probes0 /\
              Forall (fun c => is_stage_two c = true) stage_two) as Hdone.
    { exists probes, (CallGetAllPassesForMethod m :: map ev2 probes2).
      split; [|split; [exact Hall | exact Htwo]].
      rewrite <- !app_comm_cons, <- app_assoc. reflexivity. }
    destruct (BinarySearch 0 (len all_passes)
                (pass_probe testable m all_passes) w3) as [[j1|e] w4];
      cbn [fst snd]; [|exact Hdone].
    destruct (j1 =? 0); [exact Hdone|].
    unfold py_assert.
    destruct (negb (j1 =? len all_passes)); [|exact Hdone].
    unfold ret at 1, lift_result.
    destruct (py_index all_passes (j1 - 1)); exact Hdone. }
  destruct Hshape as (probes & stage_two & Heq & Hall & Htwo).
  assert (map ev1 probes
          = map (fun i => CallTest (Some (firstn (Z.to_nat i) all_methods)) None)
                probes) as Hmap.
  { apply map_ext_in. intros i Hi. unfold ev1.
    rewrite List.Forall_forall in Hall. specialize (Hall i Hi).
    now rewrite py_slice_to_firstn by lia. }
  exists probes, stage_two. rewrite Heq, Hmap.
  split; [reflexivity|]. split; [exact Hall|]. split; [exact Htwo|].
  intros [Hhead | Hin]; [discriminate|].
  apply in_app_or in Hin. destruct Hin as [Hin | Hin].
  - apply in_map_iff in Hin. destruct Hin as (i & Hi & Hin).
    rewrite List.Forall_forall in Hall. specialize (Hall i Hin).
    injection Hi as Hi. now apply (firstn_shorter all_methods i).
  - rewrite List.Forall_forall in Htwo. specialize (Htwo _ Hin). discriminate.
Qed.

Lemma BugSearch_never_tests_all_methods_witness :
  exists probes stage_two,
    snd (snd (BugSearch (recording_testable Fixture.last_method_faulty) (O, [])))
      = (CallGetAllMethods
           :: map (fun i => CallTest
                              (Some (firstn (Z.to_nat i) ["m0"; "m1"; "m2"; "m3"]))
                              None)
                  probes
           ++ stage_two)%list /\
    Forall (fun i => 0 <= i < len ["m0"; "m1"; "m2"; "m3"]) probes /\
    Forall (fun c => is_stage_two c = true) stage_two /\
    ~ In (CallTest (Some ["m0"; "m1"; "m2"; "m3"]) None)
         (snd (snd (BugSearch (recording_testable Fixture.last_method_faulty)
                              (O, [])))).
Proof.
  apply (BugSearch_never_tests_all_methods Fixture.last_method_faulty O O).
  reflexivity.
Defined.

(** X12: a fault that needs the last method goes unreported: if every probe
    on a proper prefix of the method list passes, BugSearch returns
    (None, None), whatever the test would answer on the full list. *)
Theorem BugSearch_misses_last_method {W} (testable : ITestable.t W)
    (all_methods : list string) (w w1 : W) :
  ITestable.GetAllMethods testable w = (Ok all_methods, w1) ->
  (forall prefix rest w0,
     all_methods = (prefix ++ rest)%list -> rest <> [] ->
     fst (ITestable.Test testable (Some prefix) None w0) = Ok true) ->
  fst (BugSearch testable w) = Ok (None, None).
Proof.
  intros Hms Hpass.
  assert (fst (BinarySearch 0 (len all_methods)
                 (method_probe testable all_methods) w1) = Ok (len all_methods))
    as Hone.
  { apply BinarySearch_cutoff.
    - unfold len. lia.
    - intros i w0 Hi. unfold method_probe.
      rewrite py_slice_to_firstn by lia.
      apply (Hpass _ (skipn (Z.to_nat i) all_methods)).
      + symmetry. apply firstn_skipn.
      + intros Hnil. apply (f_equal (@length string)) in Hnil.
        rewrite length_skipn in Hnil. unfold len in Hi. simpl in Hnil. lia.
    - intros i w0 Hi. lia. }
  apply fst_run in Hone.
  now rewrite (BugSearch_no_bug testable w w1 _ all_methods Hms Hone).
Qed.

Lemma BugSearch_misses_last_method_witness :
  fst (BugSearch Fixture.last_method_faulty O) = Ok (None, None)
  /\ fst (ITestable.Test Fixture.last_method_faulty
            (Some ["m0"; "m1"; "m2"; "m3"]) None O) = Ok false.
Proof.
  split; [|reflexivity].
  apply (BugSearch_misses_last_method Fixture.last_method_faulty
           ["m0"; "m1"; "m2"; "m3"] O O).
  - reflexivity.
  - intros prefix rest w0 Heq Hrest. simpl.
    assert (length prefix < 4)%nat as Hlen.
    { apply (f_equal (@length string)) in Heq. rewrite length_app in Heq.
      simpl in Heq. destruct rest; [contradiction | simpl in Heq; lia]. }
    do 2 f_equal. apply Z.ltb_lt. unfold len. lia.
Defined.

(** ** Dex2OatWrapperTestable: what reaches the environment *)

Section TestableCalls.
Context {W : Type} {pylib : PyLib} {console : Console W}.
Import Dex2OatWrapperTestable.

(** The calls of [_PrepareCmd] on the recording double: the writes of the
    two selections, in this order, stopped by the first write that raises;
    the command it returns is [command_text]. *)
Lemma PrepareCmd_calls (self : t W)
    (compiled_methods passes_to_run : option (list string))
    (verbose_compiler : bool) (w : W) (log : list env_call) :
  let writes :=
    (selection_write (_compiled_methods_path self) compiled_methods
       ++ selection_write (_passes_to_run_path self) passes_to_run)%list in
  match _PrepareCmd (on_recording_env self) compiled_methods passes_to_run
          verbose_compiler (w, log) with
  | (Ok cmd, (w1, log1)) =>
      log1 = (log ++ writes)%list /\
      cmd = command_text self (is_some compiled_methods) (is_some passes_to_run)
              verbose_compiler /\
      writes_return (_test_env self) writes w w1
  | (Raise e, (w1, log1)) =>
      exists done path lines rest w0,
        writes = (done ++ EnvWriteLines path lines :: rest)%list /\
        writes_return (_test_env self) done w w0 /\
        ITestEnv.WriteLines (_test_env self) path lines w0 = (Raise e, w1) /\
        log1 = (log ++ done ++ [EnvWriteLines path lines])%list
  end.
Proof.
  cbv zeta. unfold _PrepareCmd, bind, command_text.
  cbn [on_recording_env recording_env _test_env _base_cmd _compiled_methods_path
       _passes_to_run_path _class_name ITestEnv.WriteLines ITestEnv.classpath].
  destruct compiled_methods as [methods|]; cbn [selection_write is_some app].
  - rewrite recorded_run.
    destruct (ITestEnv.WriteLines (_test_env self) (_compiled_methods_path self)
                methods w) as [[[]|e] w1] eqn:Hfirst; cbn [fst snd ret].
    + destruct passes_to_run as [passes|]; cbn [selection_write is_some app].
      * rewrite recorded_run.
        destruct (ITestEnv.WriteLines (_test_env self) (_passes_to_run_path self)
                    passes w1) as [[[]|e] w2] eqn:Hsecond; cbn [fst snd ret].
        -- rewrite <- app_assoc. split; [reflexivity|]. split; [reflexivity|].
           eapply writes_return_cons; [exact Hfirst|].
           eapply writes_return_cons; [exact Hsecond | constructor].
        -- exists [EnvWriteLines (_compiled_methods_path self) methods],
             (_passes_to_run_path self), passes, [], w1.
           split; [reflexivity|]. split.
           ++ eapply writes_return_cons; [exact Hfirst | constructor].
           ++ split; [exact Hsecond | now rewrite <- app_assoc].
      * split; [reflexivity|]. split; [reflexivity|].
        eapply writes_return_cons; [exact Hfirst | constructor].
    + exists [], (_compiled_methods_path self), methods,
        (selection_write (_passes_to_run_path self) passes_to_run), w.
      split; [reflexivity|]. split; [constructor|].
      split; [exact Hfirst | reflexivity].
  - destruct passes_to_run as [passes|]; cbn [selection_write is_some app ret].
    + rewrite recorded_run.
      destruct (ITestEnv.WriteLines (_test_env self) (_passes_to_run_path self)
                  passes w) as [[[]|e] w2] eqn:Hsecond; cbn [fst snd ret].
      * split; [reflexivity|]. split; [reflexivity|].
        eapply writes_return_cons; [exact Hsecond | constructor].
      * exists [], (_passes_to_run_path self), passes, [], w.
        split; [reflexivity|]. split; [constructor|].
        split; [exact Hsecond | reflexivity].
    + rewrite app_nil_r. split; [reflexivity|]. split; [reflexivity|].
      constructor.
Qed.

(** X13: Test asks the environment, in this order, to write the method
    selection (if one is given), to write the pass selection (if one is
    given) and to run the command, once; a selection that is None is not
    written.  When Test returns, all of these calls were made, every write
    returned, and the command that ran and returned is [command_text].  When
    Test raises, either a write raised that exception, and then this write
    is the last call and the command did not run, or all writes returned
    and the run of the command raised it. *)
Theorem Test_writes_then_runs_once (self : t W)
    (compiled_methods passes_to_run : option (list string)) (w : W) :
  let outcome :=
    Test (console := recording_console console) (on_recording_env self)
      compiled_methods passes_to_run (w, []) in
  let calls := snd (snd outcome) in
  let writes :=
    (selection_write (_compiled_methods_path self) compiled_methods
       ++ selection_write (_passes_to_run_path self) passes_to_run)%list in
  let cmd :=
    command_text self (is_some compiled_methods) (is_some passes_to_run) true in
  let expected := (writes ++ [EnvRunCommand cmd])%list in
  let w0 :=
    snd (print_if_verbose self (testing_msg compiled_methods passes_to_run) w) in
  calls `prefix_of` expected /\
  (forall res,
     fst outcome = Ok res ->
     calls = expected /\
     exists w1 w2 result,
       writes_return (_test_env self) writes w0 w1 /\
       ITestEnv.RunCommand (_test_env self) cmd w1 = (Ok result, w2)) /\
  (forall e,
     fst outcome = Raise e ->
     (exists done path lines rest w1,
        writes = (done ++ EnvWriteLines path lines :: rest)%list /\
        writes_return (_test_env self) done w0 w1 /\
        ITestEnv.WriteLines (_test_env self) path lines w1
          = (Raise e, fst (snd outcome)) /\
        calls = (done ++ [EnvWriteLines path lines])%list /\
        forall c, ~ In (EnvRunCommand c) calls) \/
     (calls = expected /\
      exists w1,
        writes_return (_test_env self) writes w0 w1 /\
        ITestEnv.RunCommand (_test_env self) cmd w1 = (Raise e, fst (snd outcome)))).
Proof.
  cbv zeta. unfold Test, bind.
  assert (forall msg (s : W * list env_call),
            print_if_verbose (console := recording_console console)
              (on_recording_env self) msg s
            = (Ok tt, (snd (print_if_verbose self msg (fst s)), snd s))) as Hsay.
  { intros msg [w0 log]. unfold print_if_verbose.
    cbn [on_recording_env _verbose]. destruct (_verbose self); reflexivity. }
  assert (forall done path lines rest,
            (selection_write (_compiled_methods_path self) compiled_methods
               ++ selection_write (_passes_to_run_path self) passes_to_run)%list
              = (done ++ EnvWriteLines path lines :: rest)%list ->
            forall c, ~ In (EnvRunCommand c) (done ++ [EnvWriteLines path lines]))
    as Hnorun.
  { intros done path lines rest Heq c Hin.
    assert (In (EnvRunCommand c)
              (selection_write (_compiled_methods_path self) compiled_methods
                 ++ selection_write (_passes_to_run_path self) passes_to_run))
      as Hin'.
    { rewrite Heq. apply in_app_or in Hin. apply in_or_app.
      destruct Hin as [Hin | [Hin | []]]; [now left | right; now left]. }
    apply in_app_or in Hin'.
    destruct compiled_methods, passes_to_run; simpl in Hin';
      intuition discriminate. }
  rewrite Hsay. cbn [fst snd].
  set (w0 := snd (print_if_verbose self _ w)).
  pose proof (PrepareCmd_calls self compiled_methods passes_to_run true w0 [])
    as Hprep. cbv zeta in Hprep.
  destruct (_PrepareCmd (on_recording_env self) compiled_methods passes_to_run
              true (w0, [])) as [[cmd|e] [w1 log1]].
  - destruct Hprep as (-> & -> & Hwrites). rewrite app_nil_l.
    cbn [on_recording_env recording_env _test_env ITestEnv.RunCommand].
    rewrite recorded_run.
    destruct (ITestEnv.RunCommand (_test_env self) _ w1)
      as [[[[out err] rc]|e] w2] eqn:Hrun; cbn [fst snd].
    + rewrite Hsay. cbn [fst snd ret].
      split; [reflexivity|]. split; [|discriminate].
      intros res _. split; [reflexivity|].
      exists w1, w2, (out, err, rc). split; [exact Hwrites | exact Hrun].
    + split; [reflexivity|]. split; [discriminate|].
      intros e0 [= <-]. right. split; [reflexivity|].
      exists w1. split; [exact Hwrites | exact Hrun].
  - destruct Hprep as (done & path & lines & rest & wa & Heq & Hdone & Hraise & ->).
    rewrite app_nil_l. cbn [fst snd].
    split.
    { rewrite Heq. exists (rest ++ [EnvRunCommand
        (command_text self (is_some compiled_methods) (is_some passes_to_run)
           true)])%list.
      rewrite <- !app_assoc. reflexivity. }
    split; [discriminate|].
    intros e0 [= <-]. left. exists done, path, lines, rest, wa.
    split; [exact Heq|]. split; [exact Hdone|]. split; [exact Hraise|].
    split; [reflexivity | exact (Hnorun done path lines rest Heq)].
Qed.

(** X14: the pass list GetAllPassesForMethod returns holds no member of
    NON_PASSES: it is the scrape of the diagnostic output of the run, which
    was not empty, without the non-passes, in the order of the scrape.  The
    list itself may be empty. *)
Theorem GetAllPassesForMethod_drops_non_passes (self : t W)
    (compiled_method : string) (w w' : W) (passes : list string) :
  GetAllPassesForMethod self compiled_method w = (Ok passes, w') ->
  Forall (fun p => py_in p NON_PASSES = false) passes /\
  exists cmd w0 output err_output ret_code,
    ITestEnv.RunCommand (_test_env self) cmd w0
      = (Ok (output, err_output, ret_code), w') /\
    re_findall passes_pattern err_output <> [] /\
    passes = List.filter (fun p => negb (py_in p NON_PASSES))
                         (re_findall passes_pattern err_output).
Proof.
  assert (forall l, Forall (fun p => py_in p NON_PASSES = false)
                      (List.filter (fun p => negb (py_in p NON_PASSES)) l))
    as Hfilter.
  { intros l. apply List.Forall_forall. intros p Hin.
    apply List.filter_In in Hin. destruct Hin as [_ Hin].
    now apply negb_true_iff in Hin. }
  unfold GetAllPassesForMethod, bind.
  destruct (_PrepareCmd self (Some [compiled_method]) None true w)
    as [[cmd|e] w0]; [|discriminate].
  destruct (ITestEnv.RunCommand (_test_env self) cmd w0)
    as [[[[output err_output] ret_code]|e] w1] eqn:Hrun; [|discriminate].
  destruct (re_findall passes_pattern err_output) as [|p0 scraped] eqn:Hscrape;
    [discriminate|].
  intros [= <- <-]. split.
  - exact (Hfilter (p0 :: scraped)).
  - exists cmd, w0, output, err_output, ret_code.
    rewrite Hscrape. split; [exact Hrun|]. split; [discriminate | reflexivity].
Qed.
End TestableCalls.

Lemma GetAllPassesForMethod_drops_non_passes_witness :
  Forall (fun p => py_in p NON_PASSES = false) ["inliner"; "dce"] /\
  exists cmd w0 output err_output ret_code,
    ITestEnv.RunCommand
      (Dex2OatWrapperTestable._test_env
         (Double.fake_testable Double.faulty_last_pass (Some "good"))) cmd w0
      = (Ok (output, err_output, ret_code),
         {| Double.files := [(Double.methods_file, ["m0"])];
            Double.printed := [] |}) /\
    re_findall (PyLib := Double.lib) Dex2OatWrapperTestable.passes_pattern
      err_output <> [] /\
    ["inliner"; "dce"]
      = List.filter (fun p => negb (py_in p NON_PASSES))
          (re_findall (PyLib := Double.lib) Dex2OatWrapperTestable.passes_pattern
             err_output).
Proof.
  apply (GetAllPassesForMethod_drops_non_passes
           (pylib := Double.lib)
           (Double.fake_testable Double.faulty_last_pass (Some "good"))
           "m0" Double.empty_world).
  vm_compute. reflexivity.
Defined.

(** ** common.py: the cache directories *)

Lemma append_cancel_l (a b c : string) : a +:+ b = a +:+ c -> b = c.
Proof.
  induction a as [|ch a IH]; simpl; intros Heq; [exact Heq|].
  injection Heq as Heq. now apply IH.
Qed.

(** X15: for every data path [_DexArchCachePaths] yields four paths, one per
    architecture, no two of them the same. *)
Theorem DexArchCachePaths_distinct (android_data_path : string) :
  length (_DexArchCachePaths android_data_path) = 4%nat /\
  NoDup (_DexArchCachePaths android_data_path).
Proof.
  split; [reflexivity|].
  unfold _DexArchCachePaths.
  change (NoDup ((fun arch => android_data_path +:+ "/dalvik-cache/" +:+ arch)
                   <$> DALVIK_CACHE_ARCHS)).
  apply NoDup_fmap_2.
  - intros a b Heq. apply append_cancel_l in Heq.
    now apply (append_cancel_l "/dalvik-cache/") in Heq.
  - unfold DALVIK_CACHE_ARCHS.
    repeat (apply NoDup_cons; split;
            [rewrite ?elem_of_cons, elem_of_nil; intuition discriminate|]).
    apply NoDup_nil_2.
Qed.

(** ** HostTestEnv._EmptyDexCache: what is removed *)

Lemma unlinks_guarded_app (a b : list os_event) :
  unlinks_guarded a -> unlinks_guarded b -> unlinks_guarded (a ++ b).
Proof.
  intros Ha Hb. induction Ha as [|e tr He _ IH|p tr _ IH]; simpl.
  - exact Hb.
  - now apply guarded_other.
  - now apply guarded_unlink.
Qed.

Lemma unlinks_guarded_before (tr : list os_event) :
  unlinks_guarded tr ->
  forall before p after,
    tr = (before ++ EvUnlink p :: after)%list ->
    exists earlier, before = (earlier ++ [EvIsfile p])%list.
Proof.
  induction 1 as [|e tr He _ IH|q tr _ IH]; intros before p after Heq.
  - destruct before; discriminate.
  - destruct before as [|b before]; simpl in Heq.
    + injection Heq as Hhead _. now destruct (He p).
    + injection Heq as <- Heq. destruct (IH _ _ _ Heq) as [earlier ->].
      now exists (e :: earlier).
  - destruct before as [|b [|b' before]]; simpl in Heq.
    + discriminate.
    + injection Heq as Hb Hq _. subst. now exists [].
    + injection Heq as <- <- Heq. destruct (IH _ _ _ Heq) as [earlier ->].
      now exists (EvIsfile q :: EvUnlink q :: earlier).
Qed.

Section GuardedUnlinks.
Context {W : Type} {pylib : PyLib} {os : OS W}.

Lemma extends_guarded_bind {A B} (m : M (W * list os_event) A)
    (k : A -> M (W * list os_event) B) :
  extends_guarded m -> (forall a, extends_guarded (k a)) ->
  extends_guarded (bind m k).
Proof.
  intros Hm Hk w log. unfold bind.
  destruct (Hm w log) as (d1 & Heq1 & Hg1).
  destruct (m (w, log)) as [[a|e] [w1 log1]]; simpl in Heq1; subst log1.
  - destruct (Hk a w1 (log ++ d1)%list) as (d2 & Heq2 & Hg2).
    exists (d1 ++ d2)%list. rewrite Heq2, app_assoc.
    split; [reflexivity | now apply unlinks_guarded_app].
  - exists d1. simpl. auto.
Qed.

Lemma extends_guarded_for_each {A} (l : list A)
    (body : A -> M (W * list os_event) unit) :
  (forall a, extends_guarded (body a)) -> extends_guarded (for_each l body).
Proof.
  intros Hbody. induction l as [|a l IH]; simpl.
  - intros w log. exists []. simpl. rewrite app_nil_r. split; [reflexivity | constructor].
  - apply extends_guarded_bind; auto.
Qed.

Lemma remove_if_file_guarded (d name : string) :
  extends_guarded (remove_if_file d name).
Proof.
  intros w log. unfold remove_if_file, bind.
  cbn [os_path_isfile os_unlink RecordingOS]. rewrite recorded_run.
  destruct (os_path_isfile (os_path_join d name) w) as [[[|]|e] w1]; cbn [fst snd].
  - rewrite recorded_run. cbn [snd]. eexists. rewrite <- app_assoc.
    split; [reflexivity|]. apply guarded_unlink. constructor.
  - eexists. split; [reflexivity|].
    apply guarded_other; [discriminate | constructor].
  - eexists. split; [reflexivity|].
    apply guarded_other; [discriminate | constructor].
Qed.

Lemma EmptyDexCache_guarded (self : HostTestEnv.t) :
  extends_guarded (HostTestEnv._EmptyDexCache self).
Proof.
  rewrite EmptyDexCache_loops. apply extends_guarded_for_each. intros d.
  unfold empty_arch_cache. apply extends_guarded_bind.
  - intros w log. cbn [os_listdir RecordingOS]. rewrite recorded_run. cbn [snd].
    eexists. split; [reflexivity|].
    apply guarded_other; [discriminate | constructor].
  - intros names. apply extends_guarded_for_each. apply remove_if_file_guarded.
Qed.

(** X16: the host invalidation removes nothing unchecked: in the record of
    [_EmptyDexCache] every unlink of a path comes directly after the isfile
    call on that same path. *)
Theorem EmptyDexCache_unlinks_after_isfile (self : HostTestEnv.t) (w : W)
    (before after : list os_event) (p : string) :
  snd (snd (HostTestEnv._EmptyDexCache self (w, [])))
    = (before ++ EvUnlink p :: after)%list ->
  exists earlier, before = (earlier ++ [EvIsfile p])%list.
Proof.
  intros Heq.
  destruct (EmptyDexCache_guarded self w []) as (delta & Hdelta & Hg).
  rewrite Hdelta in Heq. simpl in Heq.
  eapply unlinks_guarded_before; eassumption.
Qed.
End GuardedUnlinks.

Lemma EmptyDexCache_unlinks_after_isfile_witness :
  exists earlier,
    [EvListdir "/tmp/b/dalvik-cache/arm"; EvIsfile "/tmp/b/dalvik-cache/arm/a.oat"]
      = (earlier ++ [EvIsfile "/tmp/b/dalvik-cache/arm/a.oat"])%list.
Proof.
  eapply (EmptyDexCache_unlinks_after_isfile (pylib := Double.lib)
            (os := Double.fake_os) Double.host_env Double.stale_disk
            [EvListdir "/tmp/b/dalvik-cache/arm";
             EvIsfile "/tmp/b/dalvik-cache/arm/a.oat"]
            _ "/tmp/b/dalvik-cache/arm/a.oat").
  vm_compute. reflexivity.
Defined.

(** The invalidation against an operating system that behaves like a file
    system: [is_file] and [listing] read the world; listing and isfile leave
    it alone; unlink creates no file and no directory entry, touches no other
    path, and when it returns the path is no regular file any more. *)
Section ColdCache.
Context {W : Type} {pylib : PyLib} {os : OS W}.
Variable is_file : W -> string -> bool.
Variable listing : W -> string -> list string.
Hypothesis listdir_reads :
  forall d w r w',
    os_listdir d w = (r, w') ->
    w' = w /\ forall names, r = Ok names -> names = listing w d.
Hypothesis isfile_reads :
  forall p w, os_path_isfile p w = (Ok (is_file w p), w).
Hypothesis unlink_removes :
  forall p w r w',
    os_unlink p w = (r, w') ->
    (forall q, is_file w' q = true -> is_file w q = true) /\
    (forall d n, In n (listing w' d) -> In n (listing w d)) /\
    (forall q, q <> p -> is_file w' q = is_file w q) /\
    (r = Ok tt -> is_file w' p = false).

Lemma sweeps_refl (dirs : list string) (w : W) : sweeps is_file listing dirs w w.
Proof. repeat split; auto. Qed.

Lemma sweeps_trans (dirs1 dirs2 dirs : list string) (w1 w2 w3 : W) :
  (forall d, In d dirs1 -> In d dirs) ->
  (forall d, In d dirs2 -> In d dirs) ->
  sweeps is_file listing dirs1 w1 w2 -> sweeps is_file listing dirs2 w2 w3 -> sweeps is_file listing dirs w1 w3.
Proof.
  intros Hsub1 Hsub2 (Hm1 & Hl1 & Hf1) (Hm2 & Hl2 & Hf2). repeat split.
  - auto.
  - auto.
  - intros q Hq. rewrite Hf2, Hf1; auto.
Qed.

Lemma remove_if_file_sweeps (d name : string) (w w' : W) (r : result unit) :
  remove_if_file d name w = (r, w') ->
  sweeps is_file listing [d] w w' /\ (r = Ok tt -> is_file w' (os_path_join d name) = false).
Proof.
  unfold remove_if_file, bind. rewrite isfile_reads.
  destruct (is_file w (os_path_join d name)) eqn:Hfile.
  - intros Hun. destruct (unlink_removes _ _ _ _ Hun) as (Hm & Hl & Hf & Hgone).
    split; [|exact Hgone]. repeat split; auto.
    intros q Hq. apply Hf. apply (Hq d name). now left.
  - intros [= <- <-]. split; [apply sweeps_refl | auto].
Qed.

Lemma remove_files_sweeps (d : string) (names : list string) :
  forall w w' r,
    for_each names (remove_if_file d) w = (r, w') ->
    sweeps is_file listing [d] w w' /\
    (r = Ok tt -> forall n, In n names -> is_file w' (os_path_join d n) = false).
Proof.
  induction names as [|name names IH]; intros w w' r; cbn [for_each].
  - intros [= <- <-]. split; [apply sweeps_refl | intros _ n []].
  - unfold bind.
    destruct (remove_if_file d name w) as [[[]|e] w1] eqn:Hone.
    + destruct (remove_if_file_sweeps _ _ _ _ _ Hone) as [Hs1 Hgone].
      intros Hrest. destruct (IH _ _ _ Hrest) as [Hs2 Hall].
      split; [eapply sweeps_trans; [| |exact Hs1|exact Hs2]; auto|].
      intros Hok n [<- | Hin]; [|now apply Hall].
      destruct (is_file w' (os_path_join d name)) eqn:Hstill; [|reflexivity].
      destruct Hs2 as (Hm & _). apply Hm in Hstill.
      rewrite (Hgone eq_refl) in Hstill. discriminate.
    + destruct (remove_if_file_sweeps _ _ _ _ _ Hone) as [Hs1 _].
      intros [= <- <-]. split; [exact Hs1 | discriminate].
Qed.

Lemma empty_arch_cache_sweeps (d : string) (w w' : W) (r : result unit) :
  empty_arch_cache d w = (r, w') ->
  sweeps is_file listing [d] w w' /\
  (r = Ok tt -> forall n, In n (listing w' d) -> is_file w' (os_path_join d n) = false).
Proof.
  unfold empty_arch_cache, bind.
  destruct (os_listdir d w) as [[names|e] w0] eqn:Hlist;
    destruct (listdir_reads _ _ _ _ Hlist) as [-> Hnames].
  - rewrite (Hnames names eq_refl). intros Hloop.
    destruct (remove_files_sweeps _ _ _ _ _ Hloop) as [Hs Hall].
    split; [exact Hs|]. intros Hok n Hin. apply (Hall Hok).
    destruct Hs as (_ & Hl & _). now apply Hl.
  - intros [= <- <-]. split; [apply sweeps_refl | discriminate].
Qed.

Lemma empty_caches_sweep (dirs : list string) :
  forall w w' r,
    for_each dirs empty_arch_cache w = (r, w') ->
    sweeps is_file listing dirs w w' /\
    (r = Ok tt ->
     forall d n, In d dirs -> In n (listing w' d) ->
                 is_file w' (os_path_join d n) = false).
Proof.
  induction dirs as [|d dirs IH]; intros w w' r; cbn [for_each].
  - intros [= <- <-]. split; [apply sweeps_refl | intros _ d n []].
  - unfold bind.
    destruct (empty_arch_cache d w) as [[[]|e] w1] eqn:Hone.
    + destruct (empty_arch_cache_sweeps _ _ _ _ Hone) as [Hs1 Hcold].
      intros Hrest. destruct (IH _ _ _ Hrest) as [Hs2 Hall].
      split.
      { eapply sweeps_trans; [| |exact Hs1|exact Hs2].
        - intros d0 [<- | []]. now left.
        - intros d0 Hin. now right. }
      intros Hok d0 n [<- | Hin] Hn; [|now apply (Hall Hok d0)].
      destruct (is_file w' (os_path_join d n)) eqn:Hstill; [|reflexivity].
      destruct Hs2 as (Hm & Hl & _). apply Hm in Hstill.
      rewrite (Hcold eq_refl n (Hl _ _ Hn)) in Hstill. discriminate.
    + destruct (empty_arch_cache_sweeps _ _ _ _ Hone) as [Hs1 _].
      intros [= <- <-]. split; [|discriminate].
      eapply sweeps_trans; [| |exact Hs1|apply (sweeps_refl [])].
      * intros d0 [<- | []]. now left.
      * intros d0 [].
Qed.

(** X17: on such an operating system a host invalidation that returns
    leaves the cache cold: no entry of an architecture cache directory is a
    regular file any more.  Whether it returns or raises, it creates no file
    and touches no path other than the entries of those directories. *)
Theorem EmptyDexCache_leaves_cold_cache (self : HostTestEnv.t) (w w' : W)
    (r : result unit) :
  HostTestEnv._EmptyDexCache self w = (r, w') ->
  (r = Ok tt ->
   forall d n,
     In d (_DexArchCachePaths (HostTestEnv._env_path self)) ->
     In n (listing w' d) ->
     is_file w' (os_path_join d n) = false) /\
  (forall q, is_file w' q = true -> is_file w q = true) /\
  (forall q,
     (forall d n, In d (_DexArchCachePaths (HostTestEnv._env_path self)) ->
                  q <> os_path_join d n) ->
     is_file w' q = is_file w q).
Proof.
  rewrite EmptyDexCache_loops. intros Hrun.
  destruct (empty_caches_sweep _ _ _ _ Hrun) as [(Hm & _ & Hf) Hcold].
  split; [exact Hcold|]. split; [exact Hm | exact Hf].
Qed.
End ColdCache.

Lemma py_in_true (x : string) (l : list string) : py_in x l = true <-> In x l.
Proof.
  unfold py_in. rewrite existsb_exists. split.
  - intros (y & Hin & Heq). apply String.eqb_eq in Heq. now subst.
  - intros Hin. exists x. split; [exact Hin | apply String.eqb_refl].
Qed.

Lemma py_in_filter (x p : string) (l : list string) :
  py_in x (List.filter (fun q => negb (q =? p)%string) l)
  = py_in x l && negb (x =? p)%string.
Proof.
  apply eq_true_iff_eq. rewrite andb_true_iff, !py_in_true, List.filter_In.
  reflexivity.
Qed.

(** The operating-system double behaves like a file system. *)
Lemma fake_os_reads_and_removes :
  (forall d w r w',
     os_listdir (OS := Double.fake_os) d w = (r, w') ->
     w' = w /\ forall names, r = Ok names -> names = disk_listing w d) /\
  (forall p w,
     os_path_isfile (OS := Double.fake_os) p w = (Ok (disk_is_file w p), w)) /\
  (forall p w r w',
     os_unlink (OS := Double.fake_os) p w = (r, w') ->
     (forall q, disk_is_file w' q = true -> disk_is_file w q = true) /\
     (forall d n, In n (disk_listing w' d) -> In n (disk_listing w d)) /\
     (forall q, q <> p -> disk_is_file w' q = disk_is_file w q) /\
     (r = Ok tt -> disk_is_file w' p = false)).
Proof.
  split; [|split].
  - intros d w r w'. cbn [os_listdir Double.fake_os].
    destruct (py_in d (Double.directories w)); intros [= <- <-];
      (split; [reflexivity|]); [now intros names [= <-] | discriminate].
  - reflexivity.
  - intros p w r w'. cbn [os_unlink Double.fake_os].
    destruct (py_in p (Double.regular w)); intros [= <- <-].
    + unfold disk_is_file, disk_listing. cbn [Double.regular Double.directories].
      split; [|split; [|split]].
      * intros q. rewrite py_in_filter, andb_true_iff. tauto.
      * intros d n. rewrite <- !list_elem_of_In, !list_elem_of_omap.
        intros (y & Hy & Hname). exists y. split; [|exact Hname].
        rewrite elem_of_app in *. destruct Hy as [Hy | Hy]; [left | now right].
        rewrite list_elem_of_In in *. now apply List.filter_In in Hy.
      * intros q Hne. rewrite py_in_filter.
        apply String.eqb_neq in Hne. rewrite Hne. apply andb_true_r.
      * intros _. rewrite py_in_filter, String.eqb_refl. apply andb_false_r.
    + split; [auto|]. split; [auto|]. split; [auto | discriminate].
Qed.

Lemma EmptyDexCache_leaves_cold_cache_witness :
  let cold := {| Double.regular := ["/tmp/b/log"];
                 Double.directories := Double.directories Double.stale_disk |} in
  (Ok tt = Ok tt ->
   forall d n,
     In d (_DexArchCachePaths (HostTestEnv._env_path Double.host_env)) ->
     In n (disk_listing cold d) ->
     disk_is_file cold (os_path_join d n) = false) /\
  (forall q, disk_is_file cold q = true -> disk_is_file Double.stale_disk q = true) /\
  (forall q,
     (forall d n, In d (_DexArchCachePaths (HostTestEnv._env_path Double.host_env)) ->
                  q <> os_path_join d n) ->
     disk_is_file cold q = disk_is_file Double.stale_disk q).
Proof.
  intros cold.
  destruct fake_os_reads_and_removes as (Hlist & Hisfile & Hunlink).
  apply (EmptyDexCache_leaves_cold_cache (pylib := Double.lib)
           (os := Double.fake_os) disk_is_file disk_listing
           Hlist Hisfile Hunlink Double.host_env Double.stale_disk cold (Ok tt)).
  vm_compute. reflexivity.
Defined.

(** ** HostTestEnv.__init__: the shell environment *)

Section HostInit.
Context {W : Type} {pylib : PyLib} {os : OS W} {platform : Platform W}.

Lemma for_each_raise_from_body {A} (l : list A) (body : A -> M W unit) :
  forall w e w',
    for_each l body w = (Raise e, w') ->
    exists a w0, In a l /\ body a w0 = (Raise e, w').
Proof.
  induction l as [|a l IH]; intros w e w'; cbn [for_each].
  - discriminate.
  - unfold bind. destruct (body a w) as [[[]|e0] w1] eqn:Hbody.
    + intros Hrest. destruct (IH _ _ _ Hrest) as (a0 & w0 & Hin & Hraise).
      exists a0, w0. split; [now right | exact Hraise].
    + intros [= <- <-]. exists a, w. split; [now left | exact Hbody].
Qed.

(** The constructor, once the scratch directory, the log and the cache
    directories exist: the rest reads the environment and changes nothing. *)
Lemma Host_init_steps (classpath : string) (x64 : bool) (w w' : W)
    (r : result HostTestEnv.t) :
  Host.__init__ classpath x64 w = (r, w') ->
  (exists e, r = Raise e /\ host_setup_raises e) \/
  exists env_path,
    r = (match os_environ w' !! "ANDROID_HOST_OUT" with
         | None =>
             Raise (FatalError "ANDROID_HOST_OUT environmental variable not set.")
         | Some android_root =>
             match os_environ w' !! "PATH" with
             | None => Raise (OtherError "KeyError: PATH")
             | Some old_path =>
                 Ok {| HostTestEnv._classpath := classpath;
                       HostTestEnv._env_path := env_path;
                       HostTestEnv._logfile := env_path +:+ "/log";
                       HostTestEnv._shell_env :=
                         <["LD_USE_LOAD_BIAS" := "1"]>
                         (<["PATH" := (android_root +:+ "/bin") +:+ ":" +:+ old_path]>
                         (<["LD_LIBRARY_PATH" :=
                              android_root +:+ "/"
                                +:+ (if x64 then "lib64" else "lib")]>
                         (<["ANDROID_ROOT" := android_root]>
                         (<["ANDROID_DATA" := env_path]> (os_environ w'))))) |}
             end
         end).
Proof.
  unfold Host.__init__, bind.
  destruct (mkdtemp "/tmp/" "bisection_search_" w) as [[env_path|e] w1] eqn:H1.
  2:{ intros [= <- <-]. left. exists e. split; [reflexivity|]. left. eauto. }
  destruct (open_file (env_path +:+ "/log") "w+" w1) as [[[]|e] w2] eqn:H2.
  2:{ intros [= <- <-]. left. exists e. split; [reflexivity|]. right; left. eauto. }
  destruct (os_mkdir (env_path +:+ "/dalvik-cache") w2) as [[[]|e] w3] eqn:H3.
  2:{ intros [= <- <-]. left. exists e. split; [reflexivity|]. right; right. eauto. }
  destruct (for_each (_DexArchCachePaths env_path) os_mkdir w3) as [[[]|e] w4] eqn:H4.
  2:{ intros [= <- <-]. left. exists e. split; [reflexivity|]. right; right.
      apply for_each_raise_from_body in H4. destruct H4 as (d & w0 & _ & H4). eauto. }
  unfold GetEnvVariableOrError.
  destruct (os_environ w4 !! "ANDROID_HOST_OUT") as [android_root|] eqn:Hroot.
  2:{ intros [= <- <-]. right. exists env_path. now rewrite Hroot. }
  unfold lift_result, dict_get.
  rewrite !lookup_insert_ne by discriminate.
  destruct (os_environ w4 !! "PATH") as [old_path|] eqn:Hpath.
  - intros [= <- <-]. right. exists env_path. now rewrite Hroot, Hpath.
  - intros [= <- <-]. right. exists env_path. now rewrite Hroot, Hpath.
Qed.

(** X18: the shell environment of a host test environment.  When the
    constructor returns, ANDROID_HOST_OUT and PATH were set in the process
    environment; the five variables of the object are ANDROID_DATA (the
    scratch directory), ANDROID_ROOT, LD_LIBRARY_PATH (lib or lib64 under
    the root), PATH (the root's bin put before the old PATH) and
    LD_USE_LOAD_BIAS; every other variable is as in the process
    environment. *)
Theorem Host_init_shell_env (classpath : string) (x64 : bool) (w w' : W)
    (self : HostTestEnv.t) :
  Host.__init__ classpath x64 w = (Ok self, w') ->
  exists android_root old_path,
    os_environ w' !! "ANDROID_HOST_OUT" = Some android_root /\
    os_environ w' !! "PATH" = Some old_path /\
    HostTestEnv._shell_env self !! "ANDROID_DATA"
      = Some (HostTestEnv._env_path self) /\
    HostTestEnv._shell_env self !! "ANDROID_ROOT" = Some android_root /\
    HostTestEnv._shell_env self !! "LD_LIBRARY_PATH"
      = Some (android_root +:+ "/" +:+ (if x64 then "lib64" else "lib")) /\
    HostTestEnv._shell_env self !! "PATH"
      = Some ((android_root +:+ "/bin") +:+ ":" +:+ old_path) /\
    HostTestEnv._shell_env self !! "LD_USE_LOAD_BIAS" = Some "1" /\
    (forall variable,
       ~ In variable host_variables ->
       HostTestEnv._shell_env self !! variable = os_environ w' !! variable) /\
    HostTestEnv._logfile self = HostTestEnv._env_path self +:+ "/log" /\
    HostTestEnv._classpath self = classpath.
Proof.
  intros Hrun. apply Host_init_steps in Hrun.
  destruct Hrun as [(e & Hr & _) | (env_path & Hr)]; [discriminate|].
  destruct (os_environ w' !! "ANDROID_HOST_OUT") as [android_root|] eqn:Hroot;
    [|discriminate].
  destruct (os_environ w' !! "PATH") as [old_path|] eqn:Hpath; [|discriminate].
  injection Hr as ->. exists android_root, old_path.
  cbn [HostTestEnv._shell_env HostTestEnv._env_path HostTestEnv._logfile
       HostTestEnv._classpath].
  split; [reflexivity|]. split; [reflexivity|].
  split; [now rewrite !lookup_insert_ne, lookup_insert_eq by discriminate|].
  split; [now rewrite !lookup_insert_ne, lookup_insert_eq by discriminate|].
  split; [now rewrite !lookup_insert_ne, lookup_insert_eq by discriminate|].
  split; [now rewrite lookup_insert_ne, lookup_insert_eq by discriminate|].
  split; [now rewrite lookup_insert_eq|].
  split; [|split; reflexivity].
  intros variable Hother. unfold host_variables in Hother.
  rewrite !lookup_insert_ne; [reflexivity| | | | |];
    intros <-; apply Hother; simpl; tauto.
Qed.

(** X19: how the host constructor fails.  An exception is one of the
    platform calls that set up the scratch directory failing, or the
    FatalError for a missing ANDROID_HOST_OUT, or the KeyError for a missing
    PATH; the last two are raised after the scratch directory, the log and
    the cache directories were created. *)
Theorem Host_init_failures (classpath : string) (x64 : bool) (w w' : W) (e : exn) :
  Host.__init__ classpath x64 w = (Raise e, w') ->
  host_setup_raises e \/
  (e = FatalError "ANDROID_HOST_OUT environmental variable not set." /\
   os_environ w' !! "ANDROID_HOST_OUT" = None) \/
  (e = OtherError "KeyError: PATH" /\
   os_environ w' !! "PATH" = None /\
   exists android_root, os_environ w' !! "ANDROID_HOST_OUT" = Some android_root).
Proof.
  intros Hrun. apply Host_init_steps in Hrun.
  destruct Hrun as [(e0 & [= <-] & Hsetup) | (env_path & Hr)]; [now left|].
  destruct (os_environ w' !! "ANDROID_HOST_OUT") as [android_root|] eqn:Hroot.
  - destruct (os_environ w' !! "PATH") as [old_path|] eqn:Hpath; [discriminate|].
    injection Hr as ->. right; right. eauto.
  - injection Hr as ->. right; left. auto.
Qed.
End HostInit.

Lemma Host_init_shell_env_witness :
  Host.__init__ (platform := Fixture.platform) "classes.dex" true
    Fixture.build_environ = (Ok Fixture.build_host, Fixture.build_environ) /\
  exists android_root old_path,
    os_environ (Platform := Fixture.platform) Fixture.build_environ
      !! "ANDROID_HOST_OUT" = Some android_root /\
    os_environ (Platform := Fixture.platform) Fixture.build_environ !! "PATH"
      = Some old_path /\
    HostTestEnv._shell_env Fixture.build_host !! "ANDROID_DATA"
      = Some (HostTestEnv._env_path Fixture.build_host) /\
    HostTestEnv._shell_env Fixture.build_host !! "ANDROID_ROOT"
      = Some android_root /\
    HostTestEnv._shell_env Fixture.build_host !! "LD_LIBRARY_PATH"
      = Some (android_root +:+ "/" +:+ (if true then "lib64" else "lib")) /\
    HostTestEnv._shell_env Fixture.build_host !! "PATH"
      = Some ((android_root +:+ "/bin") +:+ ":" +:+ old_path) /\
    HostTestEnv._shell_env Fixture.build_host !! "LD_USE_LOAD_BIAS" = Some "1" /\
    (forall variable,
       ~ In variable host_variables ->
       HostTestEnv._shell_env Fixture.build_host !! variable
         = os_environ (Platform := Fixture.platform) Fixture.build_environ
             !! variable) /\
    HostTestEnv._logfile Fixture.build_host
      = HostTestEnv._env_path Fixture.build_host +:+ "/log" /\
    HostTestEnv._classpath Fixture.build_host = "classes.dex".
Proof.
  assert (Hrun : Host.__init__ (platform := Fixture.platform) "classes.dex" true
                   Fixture.build_environ
                 = (Ok Fixture.build_host, Fixture.build_environ))
    by (vm_compute; reflexivity).
  split; [exact Hrun|].
  exact (Host_init_shell_env (platform := Fixture.platform) "classes.dex" true
           Fixture.build_environ Fixture.build_environ Fixture.build_host Hrun).
Defined.

Lemma Host_init_failures_witness :
  host_setup_raises (platform := Fixture.platform)
    (FatalError "ANDROID_HOST_OUT environmental variable not set.") \/
  (FatalError "ANDROID_HOST_OUT environmental variable not set."
     = FatalError "ANDROID_HOST_OUT environmental variable not set." /\
   os_environ (Platform := Fixture.platform) Fixture.bare_environ
     !! "ANDROID_HOST_OUT" = None) \/
  (FatalError "ANDROID_HOST_OUT environmental variable not set."
     = OtherError "KeyError: PATH" /\
   os_environ (Platform := Fixture.platform) Fixture.bare_environ !! "PATH" = None /\
   exists android_root,
     os_environ (Platform := Fixture.platform) Fixture.bare_environ
       !! "ANDROID_HOST_OUT" = Some android_root).
Proof.
  apply (Host_init_failures (platform := Fixture.platform) "classes.dex" false
           Fixture.bare_environ).
  vm_compute; reflexivity.
Defined.

(** ** A run that is killed by the timer *)

Section TimedOut.
Context {W : Type} {pylib : PyLib} {console : Console W} {os : OS W}
        {platform : Platform W}.

Lemma RunCommandForOutputAndLog_timeout (cmd : command)
    (env : gmap string string) (logfile : string) (timeout : Z) (w w1 w2 : W)
    (output err_output : string) (returncode : Z)
    (res : string * string * Z) :
  popen_communicate cmd env timeout w
    = (Ok (output, err_output, returncode, true), w1) ->
  _RunCommandForOutputAndLog cmd env logfile timeout w = (Ok res, w2) ->
  res = (output, err_output, 1) /\
  file_write logfile
    ("Command:" +:+ newline +:+ str_of_command cmd +:+ newline
       +:+ "Return code: " +:+ "TIMEOUT" +:+ newline
       +:+ err_output +:+ output +:+ newline) w1 = (Ok tt, w2).
Proof.
  intros Hpopen. unfold _RunCommandForOutputAndLog, bind. rewrite Hpopen.
  match goal with
  | |- context [file_write ?f ?text w1] =>
      destruct (file_write f text w1) as [[[]|e] w3]
  end.
  - intros [= <- <-]. split; reflexivity.
  - discriminate.
Qed.

(** X20: a timeout counts as a passing test.  On a device, when the adb
    process that runs the prepared command is killed by the 60 second
    timer, the environment writes TIMEOUT for the return code to the log
    file and reports return code 1 whatever code the killed process had,
    and Test returns true whatever was printed and whatever the reference
    output is. *)
Theorem Test_scores_timeout_as_pass (device : DeviceTestEnv.t)
    (self : Dex2OatWrapperTestable.t W)
    (compiled_methods passes_to_run : option (list string))
    (w w1 w2 w3 w4 : W) (cmd output err_output : string)
    (argv : list string) (returncode : Z) (res : string * string * Z) :
  Dex2OatWrapperTestable._test_env self = Device.as_env device ->
  Dex2OatWrapperTestable._PrepareCmd self compiled_methods passes_to_run true
    (snd (Dex2OatWrapperTestable.print_if_verbose self
            (Dex2OatWrapperTestable.testing_msg compiled_methods passes_to_run) w))
    = (Ok cmd, w1) ->
  DeviceTestEnv._EmptyDexCache device w1 = (Ok tt, w2) ->
  shlex_split (DeviceTestEnv.adb_shell_cmd device cmd) = Ok argv ->
  popen_communicate (CmdArgv argv) (DeviceTestEnv._shell_env device) 60 w2
    = (Ok (output, err_output, returncode, true), w3) ->
  DeviceTestEnv.RunCommand device cmd w1 = (Ok res, w4) ->
  res = (output, err_output, 1) /\
  file_write (DeviceTestEnv._logfile device)
    ("Command:" +:+ newline +:+ str_of_argv argv +:+ newline
       +:+ "Return code: " +:+ "TIMEOUT" +:+ newline
       +:+ err_output +:+ output +:+ newline) w3 = (Ok tt, w4) /\
  exists w5, Dex2OatWrapperTestable.Test self compiled_methods passes_to_run w
             = (Ok true, w5).
Proof.
  intros Henv Hcmd Hempty Hsplit Hpopen Hrun.
  assert (res = (output, err_output, 1) /\
          file_write (DeviceTestEnv._logfile device)
            ("Command:" +:+ newline +:+ str_of_argv argv +:+ newline
               +:+ "Return code: " +:+ "TIMEOUT" +:+ newline
               +:+ err_output +:+ output +:+ newline) w3 = (Ok tt, w4))
    as [-> Hwrite].
  { pose proof Hrun as Hrun'.
    unfold DeviceTestEnv.RunCommand, bind, lift_result in Hrun'.
    rewrite Hempty, Hsplit in Hrun'.
    exact (RunCommandForOutputAndLog_timeout _ _ _ _ _ _ _ _ _ _ _ Hpopen Hrun'). }
  split; [reflexivity|]. split; [exact Hwrite|].
  eexists.
  refine (Test_run self compiled_methods passes_to_run w w1 w4 cmd output
            err_output 1 Hcmd _).
  rewrite Henv. exact Hrun.
Qed.
End TimedOut.

Lemma Test_scores_timeout_as_pass_witness :
  ("partial", "", 1) = ("partial", "", 1) /\
  file_write (OS := Fixture.slow_os)
    (DeviceTestEnv._logfile Fixture.build_device)
    ("Command:" +:+ newline +:+ str_of_argv (PyLib := Double.lib)
                                  Fixture.timed_out_argv +:+ newline
       +:+ "Return code: " +:+ "TIMEOUT" +:+ newline
       +:+ "" +:+ "partial" +:+ newline) Fixture.bare_environ
    = (Ok tt, Fixture.bare_environ) /\
  exists w5,
    Dex2OatWrapperTestable.Test (pylib := Double.lib)
      (console := Fixture.console) Fixture.device_testable
      (Some ["m1"]) None Fixture.bare_environ = (Ok true, w5).
Proof.
  eapply (Test_scores_timeout_as_pass (pylib := Double.lib)
            (console := Fixture.console) (os := Fixture.slow_os)
            (platform := Fixture.platform) Fixture.build_device
            Fixture.device_testable (Some ["m1"]) None
            Fixture.bare_environ Fixture.bare_environ Fixture.bare_environ
            Fixture.bare_environ Fixture.bare_environ _ "partial" ""
            Fixture.timed_out_argv (-9)).
  - reflexivity.
  - vm_compute. reflexivity.
  - vm_compute. reflexivity.
  - vm_compute. reflexivity.
  - vm_compute. reflexivity.
  - vm_compute. reflexivity.
Defined.

(** ** The device constructor *)

Section DeviceInit.
Context {W : Type} {pylib : PyLib} {os : OS W} {platform : Platform W}.

Lemma all_return_app (logfile : string) (argvs1 argvs2 : list (list string))
    (w w1 w2 : W) :
  all_return logfile argvs1 w w1 -> all_return logfile argvs2 w1 w2 ->
  all_return logfile (argvs1 ++ argvs2) w w2.
Proof.
  intros H1 H2. induction H1 as [w|argv rest w wa wb Hcall _ IH]; simpl.
  - exact H2.
  - econstructor; [exact Hcall | exact (IH H2)].
Qed.

Lemma issues_ret {A} (logfile : string) (a : A) :
  issues (W := W) logfile [] (ret a).
Proof.
  intros w log. exists []. cbn. rewrite app_nil_r.
  split; [reflexivity|]. split; [constructor|]. split; [lia|].
  split; [reflexivity | constructor].
Qed.

Lemma issues_bind {A B} (logfile : string) (cmds1 cmds2 : list string)
    (m : M (W * list os_event) A) (k : A -> M (W * list os_event) B) :
  issues logfile cmds1 m -> (forall a, issues logfile cmds2 (k a)) ->
  issues logfile (cmds1 ++ cmds2) (bind m k).
Proof.
  intros Hm Hk w log. unfold bind.
  destruct (Hm w log) as (argvs1 & Hlog1 & Hsplit1 & Hlen1 & Hstop1).
  destruct (m (w, log)) as [[a|e] [w1 log1]]; cbn [fst snd] in *; subst log1.
  - destruct Hstop1 as [Hall1 Hret1].
    destruct (Hk a w1 (log ++ map EvCheckCall argvs1)%list)
      as (argvs2 & Hlog2 & Hsplit2 & Hlen2 & Hstop2).
    exists (argvs1 ++ argvs2)%list.
    rewrite Hlog2, map_app, app_assoc, !length_app.
    split; [reflexivity|]. split.
    { rewrite Hall1, firstn_app_2. rewrite Hall1, firstn_all in Hsplit1.
      apply Forall2_app; assumption. }
    split; [lia|].
    destruct (k a (w1, (log ++ map EvCheckCall argvs1)%list))
      as [[b|e] [w2 log2]]; cbn [fst snd stops_at_failure] in *.
    + destruct Hstop2 as [Hall2 Hret2]. rewrite !length_app.
      split; [lia | eapply all_return_app; eassumption].
    + destruct Hstop2 as [(Hshort & Hfail & Hret2)
                         | (done & argv & wa & -> & Hdone & Hraise)].
      * left. rewrite !length_app. split; [lia|]. split.
        -- rewrite Hall1, app_nth2_plus. exact Hfail.
        -- eapply all_return_app; eassumption.
      * right. exists (argvs1 ++ done)%list, argv, wa.
        split; [now rewrite app_assoc|].
        split; [eapply all_return_app; eassumption | exact Hraise].
  - exists argvs1. split; [reflexivity|]. split.
    { rewrite firstn_app.
      replace (length argvs1 - length cmds1)%nat with 0%nat by lia.
      simpl. rewrite app_nil_r. exact Hsplit1. }
    split; [rewrite length_app; lia|].
    cbn [stops_at_failure] in *.
    destruct Hstop1 as [(Hshort & Hfail & Hret1) | Hlast].
    + left. split; [rewrite length_app; lia|]. split; [|exact Hret1].
      rewrite app_nth1 by exact Hshort. exact Hfail.
    + right. exact Hlast.
Qed.

Lemma issues_for_each {A} (logfile : string) (cmd_of : A -> string)
    (l : list A) (body : A -> M (W * list os_event) unit) :
  (forall a, issues logfile [cmd_of a] (body a)) ->
  issues logfile (map cmd_of l) (for_each l body).
Proof.
  intros Hbody. induction l as [|a l IH]; cbn [for_each map].
  - apply issues_ret.
  - exact (issues_bind logfile [cmd_of a] (map cmd_of l) _ _ (Hbody a)
             (fun _ => IH)).
Qed.

(** One adb call: the command is split, then handed to [check_call]. *)
Lemma issues_adb (cmd logfile : string) :
  issues logfile [cmd]
    (do argv <- lift_result (shlex_split cmd) ;;
     check_call (OS := RecordingOS) argv logfile).
Proof.
  intros w log. unfold bind, lift_result.
  destruct (shlex_split cmd) as [argv|e] eqn:Hsplit.
  - exists [argv]. cbn [check_call RecordingOS]. rewrite recorded_run.
    cbn [fst snd map length firstn].
    split; [reflexivity|]. split; [now repeat constructor|]. split; [lia|].
    destruct (check_call argv logfile w) as [[[]|e] w1] eqn:Hcall;
      cbn [fst snd stops_at_failure].
    + split; [reflexivity|]. econstructor; [exact Hcall | constructor].
    + right. exists [], argv, w. split; [reflexivity|].
      split; [constructor | exact Hcall].
  - exists []. cbn [fst snd map length firstn stops_at_failure].
    rewrite app_nil_r.
    split; [reflexivity|]. split; [constructor|]. split; [lia|].
    left. split; [lia|]. split; [exact Hsplit | constructor].
Qed.

(** The fields of the object the constructor returns. *)
Lemma Device_init_fields (classpath : string) (w w' : W)
    (self : DeviceTestEnv.t) :
  Device.__init__ classpath w = (Ok self, w') ->
  let device_env_path :=
    os_path_join DEVICE_TMP_PATH
      (os_path_basename (DeviceTestEnv._host_env_path self)) in
  DeviceTestEnv._device_env_path self = device_env_path /\
  DeviceTestEnv._classpath self
    = os_path_join device_env_path (os_path_basename classpath) /\
  DeviceTestEnv._logfile self = DeviceTestEnv._host_env_path self +:+ "/log".
Proof.
  unfold Device.__init__, bind.
  destruct (mkdtemp _ _ w) as [[host_env_path|e] w1]; [|discriminate].
  destruct (open_file _ _ w1) as [[[]|e] w2]; [|discriminate].
  destruct (Device._AdbMkdir _ _ w2) as [[[]|e] w3]; [|discriminate].
  destruct (for_each _ _ w3) as [[[]|e] w4]; [|discriminate].
  destruct (Device._AdbPush _ _ _ w4) as [[[]|e] w5]; [|discriminate].
  intros [= <- <-]. simpl. auto.
Qed.
End DeviceInit.

Section DeviceInitRecord.
Context {W : Type} {pylib : PyLib} {os : OS W} {platform : Platform W}.

(** X21: the adb calls of the device constructor.  If making the scratch
    directory or opening the log file raises, the constructor raises the
    same and no command is run.  Otherwise it hands nothing to the operating
    system but adb commands: mkdir of the dalvik-cache directory, mkdir of
    the four architecture directories, then the push of the classpath, each
    split by shlex and run with its output sent to the log file.  The
    sequence stops at the first failure: a command is only run after every
    command before it returned, the exception of a command that cannot be
    split or that fails is the exception of the constructor, and an object
    is only returned after all six calls returned.  The device directory is
    DEVICE_TMP_PATH joined with the base name of the host directory. *)
Theorem Device_init_adb_calls (classpath : string) (w w' : W)
    (r : result DeviceTestEnv.t) (log : list os_event) :
  Device.__init__ (os := RecordingOS) (platform := lifted_platform platform)
    classpath (w, []) = (r, (w', log)) ->
  (log = [] /\
   exists e, r = Raise e /\
     (mkdtemp "/tmp/" "bisection_search_" w = (Raise e, w') \/
      exists host_env_path w1,
        mkdtemp "/tmp/" "bisection_search_" w = (Ok host_env_path, w1) /\
        open_file (host_env_path +:+ "/log") "w+" w1 = (Raise e, w'))) \/
  exists host_env_path w1 w2 argvs,
    let device_env_path :=
      os_path_join DEVICE_TMP_PATH (os_path_basename host_env_path) in
    mkdtemp "/tmp/" "bisection_search_" w = (Ok host_env_path, w1) /\
    open_file (host_env_path +:+ "/log") "w+" w1 = (Ok tt, w2) /\
    log = map EvCheckCall argvs /\
    Forall2 (fun cmd argv => shlex_split cmd = Ok argv)
      (firstn (length argvs) (device_setup_cmds classpath device_env_path))
      argvs /\
    stops_at_failure (host_env_path +:+ "/log")
      (device_setup_cmds classpath device_env_path) argvs w2 r w' /\
    forall self, r = Ok self ->
      length argvs = 6%nat /\
      DeviceTestEnv._host_env_path self = host_env_path /\
      DeviceTestEnv._device_env_path self = device_env_path /\
      DeviceTestEnv._classpath self
        = os_path_join device_env_path (os_path_basename classpath).
Proof.
  intros Hrun.
  assert (forall self, r = Ok self ->
            DeviceTestEnv._device_env_path self
              = os_path_join DEVICE_TMP_PATH
                  (os_path_basename (DeviceTestEnv._host_env_path self)) /\
            DeviceTestEnv._classpath self
              = os_path_join
                  (os_path_join DEVICE_TMP_PATH
                     (os_path_basename (DeviceTestEnv._host_env_path self)))
                  (os_path_basename classpath)) as Hfields.
  { intros self ->. apply Device_init_fields in Hrun. simpl in Hrun. tauto. }
  revert Hrun. unfold Device.__init__. unfold bind at 1.
  cbn [mkdtemp lifted_platform]. unfold unrecorded at 1.
  destruct (mkdtemp "/tmp/" "bisection_search_" w) as [[host_env_path|e] w1];
    [|intros [= <- <- <-]; left; split; [reflexivity|];
      exists e; split; [reflexivity | now left]].
  unfold bind at 1. cbn [open_file lifted_platform]. unfold unrecorded at 1.
  destruct (open_file (host_env_path +:+ "/log") "w+" w1) as [[[]|e] w2]
    eqn:Hopen;
    [|intros [= <- <- <-]; left; split; [reflexivity|];
      exists e; split; [reflexivity|]; right; exists host_env_path, w1;
      split; [reflexivity | exact Hopen]].
  unfold bind at 1. cbn [os_environ lifted_platform].
  intros Hrun. right. exists host_env_path, w1, w2.
  match type of Hrun with
  | ?body _ = _ =>
      assert (issues (host_env_path +:+ "/log")
                (device_setup_cmds classpath
                   (os_path_join DEVICE_TMP_PATH
                      (os_path_basename host_env_path))) body) as Hissues
  end.
  { unfold device_setup_cmds.
    apply (issues_bind _ [_] _); [apply issues_adb | intros _].
    apply issues_bind.
    - apply issues_for_each. intros path. apply issues_adb.
    - intros _. rewrite <- (app_nil_r [_]).
      apply issues_bind; [apply issues_adb | intros _; apply issues_ret]. }
  destruct (Hissues w2 []) as (argvs & Hlog & Hsplit & _ & Hstop).
  rewrite Hrun in Hlog, Hstop. cbn [fst snd] in Hlog, Hstop.
  exists argvs. cbv zeta.
  split; [reflexivity|]. split; [exact Hopen|]. split; [exact Hlog|].
  split; [exact Hsplit|]. split; [exact Hstop|].
  intros self ->. destruct (Hfields self eq_refl) as (Hdev & Hcp).
  destruct Hstop as [Hall _].
  split; [exact Hall|].
  assert (DeviceTestEnv._host_env_path self = host_env_path) as Hhost.
  { revert Hrun. unfold bind.
    destruct (Device._AdbMkdir _ _ _) as [[[]|e] w3]; [|discriminate].
    destruct (for_each _ _ _) as [[[]|e] w4]; [|discriminate].
    destruct (Device._AdbPush _ _ _ _) as [[[]|e] w5]; [|discriminate].
    now intros [= <- _]. }
  rewrite Hhost in Hdev, Hcp. auto.
Qed.
End DeviceInitRecord.

Lemma Device_init_adb_calls_witness :
  (snd (snd (Device.__init__ (pylib := Double.lib)
               (os := RecordingOS (os := Fixture.slow_os))
               (platform := lifted_platform Fixture.platform)
               "out/classes.dex" (Fixture.bare_environ, []))) = [] /\
   exists e,
     fst (Device.__init__ (pylib := Double.lib)
            (os := RecordingOS (os := Fixture.slow_os))
            (platform := lifted_platform Fixture.platform)
            "out/classes.dex" (Fixture.bare_environ, [])) = Raise e /\
     (mkdtemp (Platform := Fixture.platform) "/tmp/" "bisection_search_"
        Fixture.bare_environ = (Raise e, Fixture.bare_environ) \/
      exists host_env_path w1,
        mkdtemp (Platform := Fixture.platform) "/tmp/" "bisection_search_"
          Fixture.bare_environ = (Ok host_env_path, w1) /\
        open_file (Platform := Fixture.platform) (host_env_path +:+ "/log")
          "w+" w1 = (Raise e, Fixture.bare_environ))) \/
  exists host_env_path w1 w2 argvs,
    let device_env_path :=
      os_path_join DEVICE_TMP_PATH (os_path_basename host_env_path) in
    mkdtemp (Platform := Fixture.platform) "/tmp/" "bisection_search_"
      Fixture.bare_environ = (Ok host_env_path, w1) /\
    open_file (Platform := Fixture.platform) (host_env_path +:+ "/log") "w+" w1
      = (Ok tt, w2) /\
    snd (snd (Device.__init__ (pylib := Double.lib)
                (os := RecordingOS (os := Fixture.slow_os))
                (platform := lifted_platform Fixture.platform)
                "out/classes.dex" (Fixture.bare_environ, [])))
      = map EvCheckCall argvs /\
    Forall2 (fun cmd argv => shlex_split (PyLib := Double.lib) cmd = Ok argv)
      (firstn (length argvs)
         (device_setup_cmds "out/classes.dex" device_env_path))
      argvs /\
    stops_at_failure (pylib := Double.lib) (os := Fixture.slow_os)
      (host_env_path +:+ "/log")
      (device_setup_cmds "out/classes.dex" device_env_path) argvs w2
      (fst (Device.__init__ (pylib := Double.lib)
              (os := RecordingOS (os := Fixture.slow_os))
              (platform := lifted_platform Fixture.platform)
              "out/classes.dex" (Fixture.bare_environ, [])))
      Fixture.bare_environ /\
    forall self,
      fst (Device.__init__ (pylib := Double.lib)
             (os := RecordingOS (os := Fixture.slow_os))
             (platform := lifted_platform Fixture.platform)
             "out/classes.dex" (Fixture.bare_environ, [])) = Ok self ->
      length argvs = 6%nat /\
      DeviceTestEnv._host_env_path self = host_env_path /\
      DeviceTestEnv._device_env_path self = device_env_path /\
      DeviceTestEnv._classpath self
        = os_path_join device_env_path (os_path_basename "out/classes.dex").
Proof.
  apply (Device_init_adb_calls (pylib := Double.lib) (os := Fixture.slow_os)
           (platform := Fixture.platform) "out/classes.dex"
           Fixture.bare_environ Fixture.bare_environ).
  vm_compute. reflexivity.
Defined.

(** ** main *)


Section Quiet.
Context {W E : Type}.






End Quiet.

(** The base command of a host run carries every [--dalvikvm-option]
    value, in the order given. *)
Lemma host_run_cmd_with_options :
  host_run_cmd Fixture.host_option_args "/src/android"
  = "dalvikvm32 -XXlib:libartd.so -Xnorelocate"
      +:+ " -Ximage:/src/android/out/host/linux-x86/framework/core-optimizing-pic.art"
      +:+ " -Xint -Xusejit:false".
Proof. reflexivity. Qed.

Section Appends.
Context {W E : Type}.
Variable P : E -> Prop.




End Appends.

Section MainRuns.
Context {W : Type} {pylib : PyLib} {console : Console W} {os : OS W}
        {platform : Platform W}.
Variable GetAndroidTop : M W string.
Variable describe : exn -> string.











End MainRuns.



(** X24: the options main reads on the host only.  On a device run
    ([--host] not given) the debug-library switch [-d], the
    [--dalvikvm-option] arguments and the source tree that [GetAndroidTop]
    finds play no part: two command lines that agree on the classpath, the
    reference output, the class name, the 64 bit switch and the verbose
    switch make main behave the same, whatever [GetAndroidTop] does. *)
Theorem main_device_ignores_host_options {W} {pylib : PyLib}
    {console : Console W} {os : OS W} {platform : Platform W}
    (GetAndroidTop GetAndroidTop' : M W string) (describe : exn -> string)
    (args args' : Args.t) (w : W) :
  Args.host args = false ->
  Args.host args' = false ->
  Args.classpath args = Args.classpath args' ->
  Args.correct_output args = Args.correct_output args' ->
  Args.classname args = Args.classname args' ->
  Args.x64 args = Args.x64 args' ->
  Args.verbose args = Args.verbose args' ->
  main GetAndroidTop describe args w = main GetAndroidTop' describe args' w.
Proof.
  destruct args, args'. cbn [Args.host Args.classpath Args.correct_output
                             Args.classname Args.x64 Args.verbose].
  intros -> -> -> -> -> -> ->. reflexivity.
Qed.

Lemma main_device_ignores_host_options_witness :
  main (pylib := Double.lib) (console := Fixture.console)
    (os := Fixture.failing_os) (platform := Fixture.platform)
    Fixture.android_top Fixture.describe Fixture.device_args
    Fixture.bare_environ
  = main (pylib := Double.lib) (console := Fixture.console)
      (os := Fixture.failing_os) (platform := Fixture.platform)
      (raise (FatalError "no source tree")) Fixture.describe
      Fixture.device_debug_args Fixture.bare_environ.
Proof.
  apply (main_device_ignores_host_options (pylib := Double.lib)
           (console := Fixture.console) (os := Fixture.failing_os)
           (platform := Fixture.platform)); reflexivity.
Defined.

(** ** The selection files of the testable *)

Section SelectionFiles.
Context {W : Type} {pylib : PyLib} {console : Console W} {os : OS W}
        {platform : Platform W}.

Lemma Host_CreateFile_named (host : HostTestEnv.t) (name path : string)
    (w w' : W) :
  Host.CreateFile host (Some name) w = (Ok path, w') ->
  path = HostTestEnv._env_path host +:+ "/" +:+ name.
Proof.
  unfold Host.CreateFile, bind.
  destruct (open_file _ _ w) as [[[]|e] w1]; [|discriminate].
  now intros [= <- _].
Qed.

Lemma Device_CreateFile_named (device : DeviceTestEnv.t) (name path : string)
    (w w' : W) :
  Device.CreateFile device (Some name) w = (Ok path, w') ->
  path = DeviceTestEnv._device_env_path device +:+ "/" +:+ name.
Proof.
  unfold Device.CreateFile, bind, finally.
  destruct (named_temporary_file None true w) as [[temp_file|e] w1];
    [|discriminate].
  destruct (Device._AdbPush _ _ _ w1) as [[[]|e] w2]; cbn [ret].
  - destruct (file_close temp_file w2) as [[[]|e] w3]; [|discriminate].
    now intros [= <- _].
  - destruct (file_close temp_file w2) as [[[]|e0] w3]; discriminate.
Qed.

(** X25: where the testable keeps its two selection files.  Built over a
    host or a device environment, the testable names its files
    compiled_methods and run_passes in the directory of that environment
    (the scratch directory on the host, the device directory on a device),
    so the two paths differ; the other fields are the arguments. *)
Theorem testable_selection_files (test_env : ITestEnv.t W) (dir : string)
    (host : HostTestEnv.t) (device : DeviceTestEnv.t)
    (base_cmd class_name : string) (correct_output : option string)
    (verbose : bool) (w w' : W) (self : Dex2OatWrapperTestable.t W) :
  (test_env = Host.as_env host /\ dir = HostTestEnv._env_path host) \/
  (test_env = Device.as_env device /\
   dir = DeviceTestEnv._device_env_path device) ->
  Dex2OatWrapperTestable.__init__ base_cmd test_env class_name correct_output
    verbose w = (Ok self, w') ->
  Dex2OatWrapperTestable._compiled_methods_path self
    = dir +:+ "/compiled_methods" /\
  Dex2OatWrapperTestable._passes_to_run_path self = dir +:+ "/run_passes" /\
  Dex2OatWrapperTestable._compiled_methods_path self
    <> Dex2OatWrapperTestable._passes_to_run_path self /\
  Dex2OatWrapperTestable._base_cmd self = base_cmd /\
  Dex2OatWrapperTestable._test_env self = test_env /\
  Dex2OatWrapperTestable._class_name self = class_name /\
  Dex2OatWrapperTestable._correct_output self = correct_output /\
  Dex2OatWrapperTestable._verbose self = verbose.
Proof.
  intros Henv.
  assert (forall name path w0 w1,
            ITestEnv.CreateFile test_env (Some name) w0 = (Ok path, w1) ->
            path = dir +:+ "/" +:+ name) as Hcreate.
  { intros name path w0 w1.
    destruct Henv as [[-> ->] | [-> ->]]; cbn [ITestEnv.CreateFile Host.as_env
                                               Device.as_env].
    - apply Host_CreateFile_named.
    - apply Device_CreateFile_named. }
  unfold Dex2OatWrapperTestable.__init__, bind.
  destruct (ITestEnv.CreateFile test_env (Some "compiled_methods") w)
    as [[methods_path|e] w1] eqn:Hmethods; [|discriminate].
  destruct (ITestEnv.CreateFile test_env (Some "run_passes") w1)
    as [[passes_path|e] w2] eqn:Hpasses; [|discriminate].
  intros [= <- <-]. cbn.
  apply Hcreate in Hmethods, Hpasses. subst methods_path passes_path.
  split; [reflexivity|]. split; [reflexivity|].
  split; [|auto 10].
  intros Heq. apply append_cancel_l in Heq. discriminate.
Qed.
End SelectionFiles.

Lemma testable_selection_files_witness :
  Dex2OatWrapperTestable._compiled_methods_path Fixture.host_testable
    = "/tmp/bisection_search_x1" +:+ "/compiled_methods" /\
  Dex2OatWrapperTestable._passes_to_run_path Fixture.host_testable
    = "/tmp/bisection_search_x1" +:+ "/run_passes" /\
  Dex2OatWrapperTestable._compiled_methods_path Fixture.host_testable
    <> Dex2OatWrapperTestable._passes_to_run_path Fixture.host_testable /\
  Dex2OatWrapperTestable._base_cmd Fixture.host_testable = "dalvikvm" /\
  Dex2OatWrapperTestable._test_env Fixture.host_testable
    = Host.as_env (pylib := Double.lib) (os := Fixture.slow_os)
        (platform := Fixture.platform) Fixture.build_host /\
  Dex2OatWrapperTestable._class_name Fixture.host_testable = "Test" /\
  Dex2OatWrapperTestable._correct_output Fixture.host_testable
    = Some "expected" /\
  Dex2OatWrapperTestable._verbose Fixture.host_testable = false.
Proof.
  apply (testable_selection_files (pylib := Double.lib)
           (os := Fixture.slow_os) (platform := Fixture.platform)
           (Host.as_env (pylib := Double.lib) (os := Fixture.slow_os)
              (platform := Fixture.platform) Fixture.build_host)
           "/tmp/bisection_search_x1" Fixture.build_host
           {| DeviceTestEnv._host_env_path := "";
              DeviceTestEnv._logfile := "";
              DeviceTestEnv._device_env_path := "";
              DeviceTestEnv._classpath := "";
              DeviceTestEnv._shell_env := ∅ |}
           "dalvikvm" "Test" (Some "expected") false
           Fixture.build_environ Fixture.build_environ).
  - left. split; reflexivity.
  - vm_compute. reflexivity.
Defined.
